(** * rpm_parser: the grouping, key-derivation and emission pipeline

    A shallow embedding of [src/__main__.py] (functions [_category_for],
    [_sanitize_key], [_state_from_type], [_abs_link_src], [_build_item],
    [_merge_files_from_packages], [_build_yaml_data] and the built-in
    emitter of [_yaml_dump]) together with the properties the design
    document states about them.

    Modelling conventions.
    - A Python [str] is a [string]; each character is one code point in
      the range U+0000..U+00FF.
    - A Python value is a [pyval]; dictionaries with string keys are
      association lists looked up from the left.
    - A Python [set] is the list of its members in iteration order; where
      a new member lands in that order is decided by a [hashing], which
      stands for the interpreter's hash seed.
    - A function that can raise returns a [res]; the only unbounded loop
      (the suffix search of [_sanitize_key]) runs on fuel and reports
      [OutOfFuel] when it is exhausted. *)

From Stdlib Require Import String Ascii List Bool Arith ZArith Lia.
From Stdlib Require Import DecimalString DecimalNat DecimalZ Finite Permutation.
Import ListNotations.

Local Open Scope string_scope.
Local Open Scope list_scope.

Set Warnings "-register-all".

(* ------------------------------------------------------------------ *)
(** ** Results of Python computations *)

Inductive pyexn : Type :=
| AttributeError
| TypeError
| KeyError.

Inductive res (A : Type) : Type :=
| Ok (a : A)
| Raise (e : pyexn)
| OutOfFuel.

Arguments Ok {A} a.
Arguments Raise {A} e.
Arguments OutOfFuel {A}.

Definition bind {A B : Type} (m : res A) (k : A -> res B) : res B :=
  match m with
  | Ok a => k a
  | Raise e => Raise e
  | OutOfFuel => OutOfFuel
  end.

Notation "x <- m ;; k" := (bind m (fun x => k))
  (at level 61, m at next level, right associativity).
Notation "' pat <- m ;; k" := (bind m (fun x => match x with pat => k end))
  (at level 61, pat pattern, m at next level, right associativity).

(** [for x in xs: acc = body(acc, x)] with a body that may raise. *)
Fixpoint for_each {A S : Type} (body : S -> A -> res S) (xs : list A) (acc : S)
  : res S :=
  match xs with
  | [] => Ok acc
  | x :: rest => acc' <- body acc x ;; for_each body rest acc'
  end.

(* ------------------------------------------------------------------ *)
(** ** Strings *)

Module Str.

Definition code (c : ascii) : nat := nat_of_ascii c.

Definition between (lo hi : nat) (c : ascii) : bool :=
  ((lo <=? code c) && (code c <=? hi))%nat.

(** [str.isspace] on one character: TAB..CR, FS..US, space, NEL, NBSP. *)
Definition is_space (c : ascii) : bool :=
  between 9 13 c || between 28 32 c || (code c =? 133)%nat || (code c =? 160)%nat.

(** One character of [str.lower()]: A-Z and the accented capitals
    U+00C0..U+00DE (the multiplication sign U+00D7 apart) move up by 32. *)
Definition lower_char (c : ascii) : ascii :=
  if between 65 90 c || (between 192 222 c && negb (code c =? 215)%nat)
  then ascii_of_nat (code c + 32)
  else c.

Fixpoint lower (s : string) : string :=
  match s with
  | EmptyString => EmptyString
  | String c r => String (lower_char c) (lower r)
  end.

Fixpoint lstrip_by (p : ascii -> bool) (s : string) : string :=
  match s with
  | EmptyString => EmptyString
  | String c r => if p c then lstrip_by p r else s
  end.

Fixpoint rstrip_by (p : ascii -> bool) (s : string) : string :=
  match s with
  | EmptyString => EmptyString
  | String c r =>
      match rstrip_by p r with
      | EmptyString => if p c then EmptyString else String c EmptyString
      | r' => String c r'
      end
  end.

Definition strip_by (p : ascii -> bool) (s : string) : string :=
  rstrip_by p (lstrip_by p s).

(** [s.strip()] *)
Definition strip (s : string) : string := strip_by is_space s.

Definition is_char (d c : ascii) : bool := Ascii.eqb c d.

(** [s.startswith(p)] *)
Fixpoint startswith (p s : string) : bool :=
  match p, s with
  | EmptyString, _ => true
  | String _ _, EmptyString => false
  | String a p', String b s' => Ascii.eqb a b && startswith p' s'
  end.

(** [s.endswith("/")] *)
Fixpoint ends_with_char (d : ascii) (s : string) : bool :=
  match s with
  | EmptyString => false
  | String c EmptyString => Ascii.eqb c d
  | String _ r => ends_with_char d r
  end.

Fixpoint all_chars (p : ascii -> bool) (s : string) : bool :=
  match s with
  | EmptyString => true
  | String c r => p c && all_chars p r
  end.

Fixpoint contains_char (d : ascii) (s : string) : bool :=
  match s with
  | EmptyString => false
  | String c r => Ascii.eqb c d || contains_char d r
  end.

(** [s.rfind(d)]: the last index of [d], or -1. *)
Fixpoint rfind_from (d : ascii) (s : string) (pos best : Z) : Z :=
  match s with
  | EmptyString => best
  | String c r => rfind_from d r (pos + 1) (if Ascii.eqb c d then pos else best)
  end.

Definition rfind (d : ascii) (s : string) : Z := rfind_from d s 0 (-1).

(** [s[:i]] for [0 <= i]. *)
Definition slice_to (i : Z) (s : string) : string :=
  substring 0 (Z.to_nat i) s.

(** [s.split(d)] *)
Fixpoint split (d : ascii) (s : string) : list string :=
  match s with
  | EmptyString => [EmptyString]
  | String c r =>
      if Ascii.eqb c d then EmptyString :: split d r
      else match split d r with
           | [] => [String c EmptyString]
           | w :: ws => String c w :: ws
           end
  end.

(** [sep.join(parts)] *)
Definition join (sep : string) (parts : list string) : string :=
  String.concat sep parts.

(** [s.replace("'", "''")] and the like: every [d] becomes [by]. *)
Fixpoint replace_char (d : ascii) (by_ : string) (s : string) : string :=
  match s with
  | EmptyString => EmptyString
  | String c r =>
      if Ascii.eqb c d then (by_ ++ replace_char d by_ r)%string
      else String c (replace_char d by_ r)
  end.

(** The list of one-character strings of [s] (iteration over a [str]). *)
Fixpoint chars (s : string) : list string :=
  match s with
  | EmptyString => []
  | String c r => String c EmptyString :: chars r
  end.

(** ["%d" % n] for a natural number and for an integer. *)
Definition of_nat (n : nat) : string := NilEmpty.string_of_uint (Nat.to_uint n).
Definition of_Z (z : Z) : string := NilZero.string_of_int (Z.to_int z).

Definition hex_digit (n : nat) : ascii :=
  if (n <? 10)%nat then ascii_of_nat (48 + n) else ascii_of_nat (87 + n).

(** ["\\x%02x" % code] *)
Definition hex_escape (c : ascii) : string :=
  String "\" (String "x"
    (String (hex_digit (code c / 16)) (String (hex_digit (code c mod 16)) EmptyString))).

End Str.

(* ------------------------------------------------------------------ *)
(** ** Python values *)

(** The values a record field can hold.  A [PSet] lists its members in
    iteration order; a [PDict] has string keys. *)
Inductive pyval : Type :=
| PNone
| PBool (b : bool)
| PInt (z : Z)
| PStr (s : string)
| PList (l : list pyval)
| PTuple (l : list pyval)
| PSet (l : list pyval)
| PDict (d : list (string * pyval)).

(** [Dict[str, Any]] *)
Definition dict : Type := list (string * pyval).

(** [bool(v)] *)
Definition truthy (v : pyval) : bool :=
  match v with
  | PNone => false
  | PBool b => b
  | PInt z => negb (z =? 0)%Z
  | PStr s => negb (String.eqb s "")
  | PList l | PTuple l | PSet l => match l with [] => false | _ => true end
  | PDict d => match d with [] => false | _ => true end
  end.

(** [a or b] *)
Definition py_or (a b : pyval) : pyval := if truthy a then a else b.

(** [a or b] on two strings. *)
Definition str_or (a b : string) : string :=
  if String.eqb a "" then b else a.

(** [d.get(k)]: the value of the first binding of [k], else [None]. *)
Fixpoint dict_get (d : dict) (k : string) : pyval :=
  match d with
  | [] => PNone
  | (k', v) :: rest => if String.eqb k' k then v else dict_get rest k
  end.

(** [k in d] *)
Fixpoint dict_has {V : Type} (d : list (string * V)) (k : string) : bool :=
  match d with
  | [] => false
  | (k', _) :: rest => String.eqb k' k || dict_has rest k
  end.

Module Repr.

Definition squote : ascii := "'"%char.
Definition dquote : ascii := ascii_of_nat 34.
Definition backslash : ascii := "\"%char.

(** [str.isprintable] on one character of the modelled range. *)
Definition printable (c : ascii) : bool :=
  negb ((Str.code c <? 32)%nat || Str.between 127 160 c || (Str.code c =? 173)%nat).

Definition escape_char (quote c : ascii) : string :=
  if Ascii.eqb c quote || Ascii.eqb c backslash then String backslash (String c "")
  else if (Str.code c =? 9)%nat then String backslash "t"
  else if (Str.code c =? 10)%nat then String backslash "n"
  else if (Str.code c =? 13)%nat then String backslash "r"
  else if printable c then String c ""
  else Str.hex_escape c.

Fixpoint escape (quote : ascii) (s : string) : string :=
  match s with
  | EmptyString => EmptyString
  | String c r => (escape_char quote c ++ escape quote r)%string
  end.

(** [repr(s)] of a string: double quotes are chosen only when [s] holds a
    single quote and no double quote. *)
Definition of_str (s : string) : string :=
  let quote :=
    if Str.contains_char squote s && negb (Str.contains_char dquote s)
    then dquote else squote in
  String quote (escape quote s ++ String quote "")%string.

End Repr.

(** [repr(v)] *)
Fixpoint py_repr (v : pyval) : string :=
  match v with
  | PNone => "None"
  | PBool true => "True"
  | PBool false => "False"
  | PInt z => Str.of_Z z
  | PStr s => Repr.of_str s
  | PList l => "[" ++ Str.join ", " (map py_repr l) ++ "]"
  | PTuple l =>
      match l with
      | [x] => "(" ++ py_repr x ++ ",)"
      | _ => "(" ++ Str.join ", " (map py_repr l) ++ ")"
      end
  | PSet l =>
      match l with
      | [] => "set()"
      | _ => "{" ++ Str.join ", " (map py_repr l) ++ "}"
      end
  | PDict d =>
      "{" ++ Str.join ", "
               (map (fun kv => match kv with
                               | (k, x) => Repr.of_str k ++ ": " ++ py_repr x
                               end) d) ++ "}"
  end%string.

(** [str(v)] *)
Definition py_str (v : pyval) : string :=
  match v with
  | PStr s => s
  | _ => py_repr v
  end.

(** [v.lower()] and [v.strip()]: only a [str] has these methods. *)
Definition py_lower (v : pyval) : res string :=
  match v with
  | PStr s => Ok (Str.lower s)
  | _ => Raise AttributeError
  end.

Definition py_strip (v : pyval) : res string :=
  match v with
  | PStr s => Ok (Str.strip s)
  | _ => Raise AttributeError
  end.

(** [v.get(k)]: only a dictionary has the method. *)
Definition py_as_dict (v : pyval) : res dict :=
  match v with
  | PDict d => Ok d
  | _ => Raise AttributeError
  end.

(** [for x in v]: the elements [v] iterates over. *)
Definition py_iter (v : pyval) : res (list pyval) :=
  match v with
  | PList l | PTuple l | PSet l => Ok l
  | PStr s => Ok (map PStr (Str.chars s))
  | PDict d => Ok (map (fun kv => PStr (fst kv)) d)
  | PNone | PBool _ | PInt _ => Raise TypeError
  end.

(* ------------------------------------------------------------------ *)
(** ** Hashable values and sets *)

(** What a set remembers of a hashable value: [True] and [1], [False] and
    [0] are the same member. *)
Inductive hkey : Type :=
| KNone
| KInt (z : Z)
| KStr (s : string)
| KTuple (l : list hkey).

(** [hash(v)] succeeds on [None], numbers, strings and tuples of such. *)
Fixpoint py_hash_key (v : pyval) : res hkey :=
  match v with
  | PNone => Ok KNone
  | PBool b => Ok (KInt (if b then 1 else 0))
  | PInt z => Ok (KInt z)
  | PStr s => Ok (KStr s)
  | PTuple l =>
      ks <- (fix go (l : list pyval) : res (list hkey) :=
               match l with
               | [] => Ok []
               | x :: r => k <- py_hash_key x ;; ks <- go r ;; Ok (k :: ks)
               end) l ;;
      Ok (KTuple ks)
  | PList _ | PSet _ | PDict _ => Raise TypeError
  end.

Fixpoint hkey_eqb (a b : hkey) : bool :=
  match a, b with
  | KNone, KNone => true
  | KInt x, KInt y => (x =? y)%Z
  | KStr x, KStr y => String.eqb x y
  | KTuple xs, KTuple ys =>
      (fix go (xs ys : list hkey) : bool :=
         match xs, ys with
         | [], [] => true
         | x :: xs', y :: ys' => hkey_eqb x y && go xs' ys'
         | _, _ => false
         end) xs ys
  | _, _ => false
  end.

Section PySet.

Context {A : Type} (eqb : A -> A -> bool).

(** [x in s] *)
Definition set_mem (x : A) (s : list A) : bool := existsb (eqb x) s.

Definition insert_at (n : nat) (x : A) (s : list A) : list A :=
  firstn n s ++ x :: skipn n s.

(** [s.add(x)]: a new member lands at the slot its hash selects. *)
Definition set_add (slot : A -> list A -> nat) (x : A) (s : list A) : list A :=
  if set_mem x s then s else insert_at (slot x s) x s.

End PySet.

(** The hash seed of one interpreter run: where a new member lands in the
    iteration order of a set of strings and of a set of hashable values. *)
Record hashing : Type := {
  slot_str : string -> list string -> nat;
  slot_key : hkey -> list hkey -> nat
}.

Definition str_mem : string -> list string -> bool := set_mem String.eqb.
Definition str_add (h : hashing) : string -> list string -> list string :=
  set_add String.eqb (slot_str h).
Definition key_mem : hkey -> list hkey -> bool := set_mem hkey_eqb.
Definition key_add (h : hashing) : hkey -> list hkey -> list hkey :=
  set_add hkey_eqb (slot_key h).

(** Two sample seeds: new members first, new members last. *)
Definition hash_front : hashing :=
  {| slot_str := fun _ _ => 0; slot_key := fun _ _ => 0 |}.
Definition hash_back : hashing :=
  {| slot_str := fun _ s => length s; slot_key := fun _ s => length s |}.

(* ------------------------------------------------------------------ *)
(** ** Ordered dictionaries *)

(** [OrderedDict] with string keys: bindings in insertion order. *)
Definition odict (V : Type) : Type := list (string * V).

(** [d[k] = v]: an existing key keeps its place. *)
Fixpoint od_set {V : Type} (k : string) (v : V) (d : odict V) : odict V :=
  match d with
  | [] => [(k, v)]
  | (k', v') :: rest =>
      if String.eqb k' k then (k', v) :: rest else (k', v') :: od_set k v rest
  end.

(** [d.get(k)] *)
Fixpoint od_get {V : Type} (k : string) (d : odict V) : option V :=
  match d with
  | [] => None
  | (k', v) :: rest => if String.eqb k' k then Some v else od_get k rest
  end.

Definition od_keys {V : Type} (d : odict V) : list string := map fst d.

(** The assembled document: [{"files": {category: {key: item}}}]. *)
Definition config_item : Type := odict pyval.
Definition category_map : Type := odict config_item.
Definition files_map : Type := odict category_map.
Definition document : Type := odict files_map.

(* ------------------------------------------------------------------ *)
(** ** The functions of [posixpath] that the link resolver calls *)

Module posixpath.

Definition is_sep : ascii -> bool := Str.is_char "/".

(** [posixpath.dirname(p)] *)
Definition dirname (p : string) : string :=
  let i := (Str.rfind "/" p + 1)%Z in
  let head := Str.slice_to i p in
  if negb (String.eqb head "") && negb (Str.all_chars is_sep head)
  then Str.rstrip_by is_sep head
  else head.

(** [posixpath.join(a, b)] *)
Definition join (a b : string) : string :=
  if Str.startswith "/" b then b
  else if String.eqb a "" || Str.ends_with_char "/" a then (a ++ b)%string
  else (a ++ "/" ++ b)%string.

Definition is_nil {A : Type} (l : list A) : bool :=
  match l with [] => true | _ => false end.

(** One round of the component loop of [normpath]. *)
Definition normpath_step (initial_slashes : nat) (new_comps : list string)
  (comp : string) : list string :=
  if String.eqb comp "" || String.eqb comp "." then new_comps
  else if negb (String.eqb comp "..")
          || ((initial_slashes =? 0)%nat && is_nil new_comps)
          || (negb (is_nil new_comps) && String.eqb (last new_comps "") "..")
       then new_comps ++ [comp]
       else if negb (is_nil new_comps) then removelast new_comps
            else new_comps.

Definition count_initial_slashes (path : string) : nat :=
  if Str.startswith "/" path
  then if Str.startswith "//" path && negb (Str.startswith "///" path)
       then 2 else 1
  else 0.

Definition slashes (n : nat) : string :=
  String.concat "" (repeat "/" n).

(** [posixpath.normpath(path)] *)
Definition normpath (path : string) : string :=
  if String.eqb path "" then "."
  else
    let initial_slashes := count_initial_slashes path in
    let comps := fold_left (normpath_step initial_slashes) (Str.split "/" path) [] in
    let path' := Str.join "/" comps in
    let path' := if negb (initial_slashes =? 0)%nat
                 then (slashes initial_slashes ++ path')%string
                 else path' in
    str_or path' ".".

End posixpath.

(* ------------------------------------------------------------------ *)
(** ** Grouping logic *)

Definition _CATEGORY_ORDER : list string :=
  ["configuration"; "artifacts"; "docs"; "licenses"; "general"].

(** [set(str(x).lower() for x in flags)] *)
Definition flag_set (h : hashing) (flags : list pyval) : list string :=
  fold_left (fun fset x => str_add h (Str.lower (py_str x)) fset) flags [].

Definition _category_for (h : hashing) (entry : dict) : string :=
  let flags := py_or (dict_get entry "flags") (PList []) in
  let fset :=
    match flags with
    | PList l | PTuple l => flag_set h l
    | _ => []
    end in
  if str_mem "config" fset then "configuration"
  else if str_mem "license" fset then "licenses"
  else if str_mem "doc" fset then "docs"
  else
    let ftype := Str.lower (py_str (py_or (dict_get entry "type") (PStr ""))) in
    if String.eqb ftype "link" then "general"
    else "artifacts".

(** The test [("a" <= ch <= "z") or ("0" <= ch <= "9")]. *)
Definition is_key_char (ch : ascii) : bool :=
  Str.between 97 122 ch || Str.between 48 57 ch.

(** The body of the character loop of [_sanitize_key], on the pair
    [(out_chars, prev_underscore)]. *)
Definition sanitize_step (st : string * bool) (ch : ascii) : string * bool :=
  let (out_chars, prev_underscore) := st in
  if is_key_char ch then ((out_chars ++ String ch "")%string, false)
  else if negb prev_underscore then ((out_chars ++ "_")%string, true)
  else (out_chars, prev_underscore).

(** [s[1:]] *)
Definition drop_first (s : string) : string :=
  match s with
  | EmptyString => EmptyString
  | String _ r => r
  end.

(** The part of [_sanitize_key] between the initial [strip()] and the
    uniqueness check: from the stripped path [s] to [key]. *)
Definition base_key (s : string) : string :=
  let s := if Str.startswith "/" s then drop_first s else s in
  let s := Str.lower s in
  let out_chars := fst (fold_left sanitize_step (list_ascii_of_string s) ("", false)) in
  str_or (Str.strip_by (Str.is_char "_") out_chars) "root".

(** ["%s_%d" % (key, i)] *)
Definition candidate_key (key : string) (i : nat) : string :=
  (key ++ "_" ++ Str.of_nat i)%string.

(** The [while True] loop of [_sanitize_key], started at [i]. *)
Fixpoint suffix_loop (fuel : nat) (key : string) (used : list string) (i : nat)
  : res string :=
  match fuel with
  | O => OutOfFuel
  | S fuel' =>
      let candidate := candidate_key key i in
      if negb (str_mem candidate used) then Ok candidate
      else suffix_loop fuel' key used (S i)
  end.

(** Returns the key together with the updated [used] set. *)
Definition _sanitize_key (h : hashing) (path : pyval) (used : list string)
  : res (string * list string) :=
  s <- py_strip (py_or path (PStr "")) ;;
  let key := base_key s in
  if negb (str_mem key used) then Ok (key, str_add h key used)
  else
    candidate <- suffix_loop (S (length used)) key used 2 ;;
    Ok (candidate, str_add h candidate used).

Definition _state_from_type (ftype : pyval) : res string :=
  t <- py_lower (py_or ftype (PStr "")) ;;
  if String.eqb t "dir" || String.eqb t "directory" then Ok "directory"
  else if String.eqb t "link" || String.eqb t "symlink" then Ok "link"
  else Ok "file".

Definition _abs_link_src (linkto link_path : pyval) : option string :=
  if negb (truthy linkto) then None
  else
    let lt := Str.strip (py_str linkto) in
    if Str.startswith "/" lt then Some (posixpath.normpath lt)
    else
      let base_dir := str_or (posixpath.dirname (str_or (py_str link_path) "/")) "/" in
      let base_dir :=
        if negb (Str.startswith "/" base_dir)
        then ("/" ++ Str.lstrip_by posixpath.is_sep base_dir)%string
        else base_dir in
      Some (posixpath.normpath (posixpath.join base_dir lt)).

(** [str(mode) if mode is not None else ""] *)
Definition str_unless_none (mode : pyval) : string :=
  match mode with
  | PNone => ""
  | _ => py_str mode
  end.

Definition _build_item (entry : dict) : res config_item :=
  let path_val := py_or (dict_get entry "path") (PStr "") in
  let item : config_item := [] in
  let item := od_set "follow" (PBool false) item in
  let item := od_set "force" (PBool true) item in
  let item := od_set "group" (py_or (dict_get entry "group") (PStr "root")) item in
  let mode := dict_get entry "mode" in
  let item := od_set "mode" (PStr (str_unless_none mode)) item in
  let item := od_set "owner" (py_or (dict_get entry "owner") (PStr "root")) item in
  let item := od_set "path" path_val item in
  state <- _state_from_type (dict_get entry "type") ;;
  let item := od_set "state" (PStr state) item in
  if String.eqb state "link" then
    let linkto := dict_get entry "linkto" in
    match _abs_link_src linkto path_val with
    | Some src_abs =>
        if negb (String.eqb src_abs "") then Ok (od_set "src" (PStr src_abs) item)
        else Ok item
    | None => Ok item
    end
  else Ok item.

(** The body of the inner loop of [_merge_files_from_packages], on the
    pair [(seen, out)]. *)
Definition merge_file (h : hashing) (st : list hkey * list dict) (f : pyval)
  : res (list hkey * list dict) :=
  let (seen, out) := st in
  fd <- py_as_dict f ;;
  let p := dict_get fd "path" in
  if negb (truthy p) then Ok (seen, out)
  else
    k <- py_hash_key p ;;
    if key_mem k seen then Ok (seen, out)
    else Ok (key_add h k seen, out ++ [fd]).

Definition merge_pkg (h : hashing) (st : list hkey * list dict) (pkg : dict)
  : res (list hkey * list dict) :=
  files <- py_iter (py_or (dict_get pkg "files") (PList [])) ;;
  for_each (merge_file h) files st.

Definition _merge_files_from_packages (h : hashing) (pkg_objs : list dict)
  : res (list dict) :=
  st <- for_each (merge_pkg h) pkg_objs ([], []) ;;
  Ok (snd st).

(** [grouped[cat][key] = item] on the plain dictionary [grouped]. *)
Fixpoint grouped_set (cat key : string) (it : config_item)
  (grouped : list (string * category_map))
  : res (list (string * category_map)) :=
  match grouped with
  | [] => Raise KeyError
  | (c, items) :: rest =>
      if String.eqb c cat then Ok ((c, od_set key it items) :: rest)
      else rest' <- grouped_set cat key it rest ;; Ok ((c, items) :: rest')
  end.

(** [grouped[k]] *)
Definition grouped_get (k : string) (grouped : list (string * category_map))
  : res category_map :=
  match od_get k grouped with
  | Some items => Ok items
  | None => Raise KeyError
  end.

(** The body of the loop of [_build_yaml_data], on the pair
    [(used_keys, grouped)]. *)
Definition build_file (h : hashing)
  (st : list string * list (string * category_map)) (f : dict)
  : res (list string * list (string * category_map)) :=
  let (used_keys, grouped) := st in
  let cat := _category_for h f in
  '(key, used_keys') <- _sanitize_key h (py_or (dict_get f "path") (PStr "")) used_keys ;;
  it <- _build_item f ;;
  grouped' <- grouped_set cat key it grouped ;;
  Ok (used_keys', grouped').

(** [OrderedDict((k, grouped[k]) for k in _CATEGORY_ORDER)] *)
Definition collect_categories (grouped : list (string * category_map))
  : res files_map :=
  for_each (fun acc k => items <- grouped_get k grouped ;; Ok (od_set k items acc))
           _CATEGORY_ORDER [].

Definition _build_yaml_data (h : hashing) (files : list dict) : res document :=
  let used_keys := [] in
  let grouped := map (fun k => (k, [])) _CATEGORY_ORDER in
  st <- for_each (build_file h) files (used_keys, grouped) ;;
  cats <- collect_categories (snd st) ;;
  Ok (od_set "files" cats []).

(* ------------------------------------------------------------------ *)
(** ** YAML emission: the built-in emitter of [_yaml_dump] *)

(** The nested function [q]. *)
Definition q (v : pyval) : string :=
  match v with
  | PBool true => "true"
  | PBool false => "false"
  | PNone => "''"
  | _ => ("'" ++ Str.replace_char "'" "''" (py_str v) ++ "'")%string
  end.

Definition PROP_ORDER : list string :=
  ["follow"; "force"; "group"; "mode"; "owner"; "path"; "state"; "src"].

(** [v not in (None, "")] *)
Definition not_blank (v : pyval) : bool :=
  match v with
  | PNone => false
  | PStr s => negb (String.eqb s "")
  | _ => true
  end.

(** The lines one property contributes. *)
Definition prop_lines (props : config_item) (prop_key : string) : list string :=
  match od_get prop_key props with
  | Some v =>
      if not_blank v then [("      " ++ prop_key ++ ": " ++ q v)%string]
      else if (String.eqb prop_key "follow" || String.eqb prop_key "force")
      then [("      " ++ prop_key ++ ": " ++ q v)%string]
      else []
  | None => []
  end.

Definition item_lines (entry : string * config_item) : list string :=
  let (key, props) := entry in
  ("    " ++ key ++ ":")%string :: flat_map (prop_lines props) PROP_ORDER.

Definition category_lines (files : files_map) (cat : string)
  : list string :=
  ("  " ++ cat ++ ":")%string ::
  match od_get cat files with
  | Some items => flat_map item_lines items
  | None => []
  end.

Definition yaml_lines (data : document) : list string :=
  let files := match od_get "files" data with Some f => f | None => [] end in
  "files:" :: flat_map (category_lines files) _CATEGORY_ORDER.

(** The text the built-in emitter writes. *)
Definition _yaml_dump (data : document) : string :=
  (Str.join (String (ascii_of_nat 10) "") (yaml_lines data)
   ++ String (ascii_of_nat 10) "")%string.

(* ------------------------------------------------------------------ *)
(** ** Notions the properties are stated with *)

(** Two sets with the same members, whatever their iteration orders. *)
Definition same_members (s1 s2 : list string) : Prop :=
  forall x, str_mem x s1 = str_mem x s2.

(** Two results agree: both values related, or the same exception; a run
    out of fuel agrees with nothing. *)
Definition res_agree {A B : Type} (R : A -> B -> Prop) (r1 : res A) (r2 : res B)
  : Prop :=
  match r1, r2 with
  | Ok a, Ok b => R a b
  | Raise e1, Raise e2 => e1 = e2
  | _, _ => False
  end.

(** The flag tests of the classifier, free of the set representation. *)
Definition has_flag (name : string) (entry : dict) : bool :=
  match py_or (dict_get entry "flags") (PList []) with
  | PList l | PTuple l =>
      existsb (fun v => String.eqb name (Str.lower (py_str v))) l
  | _ => false
  end.

Definition type_is_link (entry : dict) : bool :=
  String.eqb (Str.lower (py_str (py_or (dict_get entry "type") (PStr "")))) "link".

(** What two runs share after each record: the members of [used_keys] and
    the whole of [grouped]. *)
Definition runs_agree (s1 s2 : list string * list (string * category_map)) : Prop :=
  same_members (fst s1) (fst s2) /\ snd s1 = snd s2.

(** Every key of every category, in document order. *)
Definition all_keys (cats : list (string * category_map)) : list string :=
  flat_map (fun c => od_keys (snd c)) cats.

(** The loop invariant of [_build_yaml_data] after [n] records. *)
Definition assembly_inv (n : nat) (st : list string * list (string * category_map))
  : Prop :=
  map fst (snd st) = _CATEGORY_ORDER /\
  NoDup (all_keys (snd st)) /\
  (forall k, In k (all_keys (snd st)) -> In k (fst st)) /\
  length (all_keys (snd st)) = n.

(** Sample records. *)
Definition sample_conf : dict :=
  [("path", PStr "/etc/Default/useradd!!"); ("type", PStr "file");
   ("flags", PList [PStr "config"; PStr "doc"]); ("mode", PStr "0644")].

Definition sample_link : dict :=
  [("path", PStr "/etc/default/useradd"); ("type", PStr "link");
   ("linkto", PStr "../bin/sh")].

(** The design document's description of the base key, read literally:
    drop one leading slash, lower-case, turn every run of characters other
    than [a-z0-9] into one underscore, trim underscores at both ends, and
    fall back to [root]. *)
Fixpoint collapse_runs (in_run : bool) (s : string) : string :=
  match s with
  | EmptyString => EmptyString
  | String c r =>
      if is_key_char c then String c (collapse_runs false r)
      else if in_run then collapse_runs true r
           else String "_" (collapse_runs true r)
  end.

Definition spec_base_key (path : string) : string :=
  let s := if Str.startswith "/" path then drop_first path else path in
  str_or (Str.strip_by (Str.is_char "_") (collapse_runs false (Str.lower s))) "root".

Definition underscore : ascii -> bool := Str.is_char "_".

(** A character that ends up as (part of) an underscore. *)
Definition separator (c : ascii) : bool := negb (is_key_char (Str.lower_char c)).

(** Trimming on the right, one character at a time. *)
Definition rcons (p : ascii -> bool) (c : ascii) (r : string) : string :=
  match r with
  | EmptyString => if p c then EmptyString else String c EmptyString
  | _ => String c r
  end.

(** The directory the link resolver resolves a relative target against:
    [base_dir] of [_abs_link_src], as a function of the link path. *)
Definition link_dir (link_path : pyval) : string :=
  let base_dir := str_or (posixpath.dirname (str_or (py_str link_path) "/")) "/" in
  if negb (Str.startswith "/" base_dir)
  then ("/" ++ Str.lstrip_by posixpath.is_sep base_dir)%string
  else base_dir.

Definition sample_flags : dict :=
  [("path", PStr "/usr/share/doc/pkg/README"); ("type", PStr "link");
   ("flags", PTuple [PStr "DOC"; PStr "License"; PInt 7])].

(** Induction on hashable values, tuples included. *)
Section HkeyInduction.

Variable P : hkey -> Prop.
Hypothesis case_none : P KNone.
Hypothesis case_int : forall z, P (KInt z).
Hypothesis case_str : forall s, P (KStr s).
Hypothesis case_tuple : forall l, Forall P l -> P (KTuple l).

Fixpoint hkey_nested_ind (k : hkey) : P k :=
  match k with
  | KNone => case_none
  | KInt z => case_int z
  | KStr s => case_str s
  | KTuple l =>
      case_tuple l
        ((fix go (l : list hkey) : Forall P l :=
            match l with
            | [] => Forall_nil P
            | x :: r => Forall_cons x (hkey_nested_ind x) (go r)
            end) l)
  end.

End HkeyInduction.

(** The path of a record as a string; empty when the record has none. *)
Definition path_str (f : dict) : string :=
  match dict_get f "path" with
  | PStr s => s
  | _ => ""
  end.

(** The merge as the design document words it.  A record is kept when its
    path is not empty and differs from the path of every record kept so
    far; kept records stay in the order in which they were met. *)
Fixpoint first_seen (kept records : list dict) : list dict :=
  match records with
  | [] => kept
  | f :: rest =>
      if negb (String.eqb (path_str f) "")
         && negb (existsb (fun k => String.eqb (path_str k) (path_str f)) kept)
      then first_seen (kept ++ [f]) rest
      else first_seen kept rest
  end.

(** A field that is absent, falsy or a string. *)
Definition field_ok (v : pyval) : bool :=
  match v with
  | PStr _ => true
  | _ => negb (truthy v)
  end.

(** A package object whose [files] are a list or tuple of record
    dictionaries, each with such a path; and the records it lists. *)
Definition pkg_ok (pkg : dict) : bool :=
  match py_or (dict_get pkg "files") (PList []) with
  | PList l | PTuple l =>
      forallb (fun f => match f with
                        | PDict d => field_ok (dict_get d "path")
                        | _ => false
                        end) l
  | _ => false
  end.

Definition files_of (pkg : dict) : list dict :=
  match py_or (dict_get pkg "files") (PList []) with
  | PList l | PTuple l =>
      flat_map (fun f => match f with PDict d => [d] | _ => [] end) l
  | _ => []
  end.

(** What [seen] holds while [out] is the list of kept records. *)
Definition seen_tracks (seen : list hkey) (out : list dict) : Prop :=
  forall s, key_mem (KStr s) seen
            = existsb (fun k => String.eqb (path_str k) s) out.

(** The records met so far ([done]) against the records kept ([kept]). *)
Definition same_path (r f : dict) : bool := String.eqb (path_str f) (path_str r).

Definition merge_inv (done kept : list dict) : Prop :=
  NoDup (map path_str kept) /\
  (forall r, In r kept -> path_str r <> "" /\ find (same_path r) done = Some r) /\
  (forall f, In f done -> path_str f <> "" ->
             exists r, In r kept /\ path_str r = path_str f).

Definition pkg_first : dict :=
  [("nevra", PStr "pkg-1.0-1.x86_64");
   ("files", PList [PDict [("path", PStr "/etc/foo.conf"); ("mode", PStr "0644")];
                    PDict [("path", PStr "")];
                    PDict [("path", PStr "/usr/bin/foo"); ("mode", PStr "0755")]])].

Definition pkg_second : dict :=
  [("nevra", PStr "pkg-1.0-1.i686");
   ("files", PList [PDict [("path", PStr "/usr/lib/libfoo.so"); ("mode", PStr "0755")];
                    PDict [("path", PStr "/etc/foo.conf"); ("mode", PStr "0600")]])].

(** The condition under which the description wants a property line. *)
Definition emitted (props : config_item) (prop_key : string) : bool :=
  match od_get prop_key props with
  | Some v => not_blank v || String.eqb prop_key "follow" || String.eqb prop_key "force"
  | None => false
  end.

Definition prop_line (props : config_item) (prop_key : string) : string :=
  ("      " ++ prop_key ++ ": "
   ++ q (match od_get prop_key props with Some v => v | None => PNone end))%string.

Definition newline : string := String (ascii_of_nat 10) "".

(** A text made of lines, each one closed by a line feed. *)
Definition unlines (ls : list string) : string :=
  String.concat "" (map (fun l => (l ++ newline)%string) ls).

(** The lines the description wants for one item. *)
Definition described_item (entry : string * config_item) : list string :=
  ("    " ++ fst entry ++ ":")%string
  :: map (prop_line (snd entry)) (filter (emitted (snd entry)) PROP_ORDER).

(** The lines the description wants under a category line, and the lines
    of the category with them. *)
Definition described_children (files : files_map) (cat : string) : list string :=
  match od_get cat files with
  | Some items => flat_map described_item items
  | None => []
  end.

Definition described_category (files : files_map) (cat : string) : list string :=
  ("  " ++ cat ++ ":")%string :: described_children files cat.

Definition sample_document : document :=
  [("files",
    [("configuration",
      [("etc_default_useradd",
        [("follow", PBool false); ("force", PBool true); ("group", PStr "root");
         ("mode", PStr "0644"); ("owner", PStr "root");
         ("path", PStr "/etc/Default/useradd!!"); ("state", PStr "file")])]);
     ("artifacts", []); ("docs", []); ("licenses", []);
     ("general",
      [("etc_default_useradd_2",
        [("follow", PBool false); ("force", PBool true); ("group", PStr "root");
         ("mode", PStr ""); ("owner", PStr "root");
         ("path", PStr "/etc/default/useradd"); ("state", PStr "link");
         ("src", PStr "/etc/bin/sh")])])])].

(** A record whose [type] and [path] are each absent, falsy or a string. *)
Definition record_ok (entry : dict) : bool :=
  field_ok (dict_get entry "type") && field_ok (dict_get entry "path").






(* ------------------------------------------------------------------ *)
(** ** Package-name validation ([validators.py]) *)

(** The exceptions of the command-line path, with their messages. *)
Inductive pyerror : Type :=
| ValueError (msg : string)
| LookupError (msg : string)
| RuntimeError (msg : string)
| IndexError (msg : string)
| Uncaught (e : pyexn).

Inductive outcome (A : Type) : Type :=
| Return (a : A)
| Throw (e : pyerror).

Arguments Return {A} a.
Arguments Throw {A} e.

Definition and_then {A B : Type} (m : outcome A) (k : A -> outcome B) : outcome B :=
  match m with
  | Return a => k a
  | Throw e => Throw e
  end.

Definition LOWER : string := "abcdefghijklmnopqrstuvwxyz".
Definition UPPER : string := "ABCDEFGHIJKLMNOPQRSTUVWXYZ".
Definition DIGITS : string := "0123456789".

(** [Policy]: a [frozenset] of characters is the string of its members,
    read through [char_in] only. *)
Record Policy : Type := {
  min_len : nat;
  max_len : nat;
  start_chars : string;
  allowed_chars : string;
  forbidden_chars : string
}.

(** [ch in chars] *)
Definition char_in (ch : ascii) (chars : string) : bool :=
  Str.contains_char ch chars.

Definition _POLICY_REGISTRY : list (string * Policy) :=
  [("ubuntu",
    {| min_len := 2; max_len := 128;
       start_chars := (LOWER ++ DIGITS)%string;
       allowed_chars := (LOWER ++ DIGITS ++ "+-.")%string;
       forbidden_chars := "" |});
   ("rhel",
    {| min_len := 1; max_len := 128;
       start_chars := (LOWER ++ UPPER ++ DIGITS)%string;
       allowed_chars := (LOWER ++ UPPER ++ DIGITS ++ "+-_.")%string;
       forbidden_chars := ":<=>" |})].

(** [sorted(names)] on strings: insertion into code-point order. *)
Fixpoint insert_sorted (x : string) (l : list string) : list string :=
  match l with
  | [] => [x]
  | y :: rest => if String.leb x y then x :: l else y :: insert_sorted x rest
  end.

Definition sorted (l : list string) : list string :=
  fold_right insert_sorted [] l.

(** [any(p(ch) for ch in s)]: the loops that raise at the first hit. *)
Fixpoint any_char (p : ascii -> bool) (s : string) : bool :=
  match s with
  | EmptyString => false
  | String c r => p c || any_char p r
  end.

(** [s.encode("ascii")] succeeds. *)
Definition is_ascii (s : string) : bool :=
  Str.all_chars (fun c => (Str.code c <? 128)%nat) s.

Definition validate_package_name (name distro : pyval) : outcome string :=
  match name with
  | PStr name_str =>
      match py_or distro (PStr "") with
      | PStr d =>
          let key := Str.lower (Str.strip d) in
          match od_get key _POLICY_REGISTRY with
          | None =>
              let supported := Str.join ", " (sorted (od_keys _POLICY_REGISTRY)) in
              Throw (ValueError ("Unsupported distro. Supported: " ++ supported))
          | Some policy =>
              let s := Str.strip name_str in
              if negb (is_ascii s) then
                Throw (ValueError "Package name must be ASCII.")
              else if any_char (fun ch => Str.is_space ch || (Str.code ch <? 32)%nat) s then
                Throw (ValueError
                  "Package name must not contain whitespace or control characters.")
              else if (String.length s <? min_len policy)%nat then
                Throw (ValueError ("Package name must be at least "
                                   ++ Str.of_nat (min_len policy) ++ " characters."))
              else if (max_len policy <? String.length s)%nat then
                Throw (ValueError ("Package name too long (>"
                                   ++ Str.of_nat (max_len policy) ++ " characters)."))
              else if any_char (fun ch => char_in ch (forbidden_chars policy)) s then
                Throw (ValueError "Package name contains reserved characters.")
              else
                match s with
                | EmptyString => Throw (IndexError "string index out of range")
                | String first _ =>
                    if negb (char_in first (start_chars policy)) then
                      Throw (ValueError
                        "Package name must start with a valid alphanumeric character.")
                    else if any_char (fun ch => negb (char_in ch (allowed_chars policy))) s
                    then Throw (ValueError "Package name contains an invalid character.")
                    else Return s
                end
          end
      | _ => Throw (Uncaught AttributeError)
      end
  | _ => Throw (ValueError "Package name must be a string.")
  end%string.

(** The shape a policy asks of a name, without the order of the checks:
    length within bounds, first character a start character, every
    character allowed. *)
Definition conforms (policy : Policy) (s : string) : bool :=
  (min_len policy <=? String.length s)%nat
  && (String.length s <=? max_len policy)%nat
  && match s with
     | EmptyString => false
     | String first _ => char_in first (start_chars policy)
     end
  && Str.all_chars (fun ch => char_in ch (allowed_chars policy)) s.

(** What the allow-list of a policy rules out by itself. *)
Definition allow_list_tight (policy : Policy) (ch : ascii) : bool :=
  implb (char_in ch (allowed_chars policy))
        ((Str.code ch <? 128)%nat
         && negb (Str.is_space ch || (Str.code ch <? 32)%nat)
         && negb (char_in ch (forbidden_chars policy))).

(* ------------------------------------------------------------------ *)
(** ** Distro detection ([os_detect.py]) and its use by the CLI *)

(** [s.split()]: the maximal runs of characters that are not white
    space. *)
Fixpoint words (s : string) : list string :=
  match s with
  | EmptyString => []
  | String c r =>
      if Str.is_space c then words r
      else match r with
           | EmptyString => [String c EmptyString]
           | String c' _ =>
               if Str.is_space c' then String c EmptyString :: words r
               else match words r with
                    | w :: ws => String c w :: ws
                    | [] => [String c EmptyString]
                    end
           end
  end.

(** [x in t] and [t.index(x)] on a tuple of strings. *)
Definition tuple_has (x : string) (t : list string) : bool :=
  existsb (String.eqb x) t.

Fixpoint tuple_index (x : string) (t : list string) : outcome nat :=
  match t with
  | [] => Throw (ValueError "tuple.index(x): x not in tuple")
  | y :: rest =>
      if String.eqb y x then Return 0
      else and_then (tuple_index x rest) (fun i => Return (S i))
  end.

(** [t[i]] *)
Definition tuple_item (t : list string) (i : nat) : outcome string :=
  match nth_error t i with
  | Some v => Return v
  | None => Throw (IndexError "tuple index out of range")
  end.

(** [choices[lowered.index(x)]] *)
Definition choice_for (choices lowered : list string) (x : string) : outcome string :=
  and_then (tuple_index x lowered) (tuple_item choices).

(** [osr.get(k, "")] on the mapping [read_os_release] returns. *)
Definition osr_get (osr : list (string * string)) (k : string) : string :=
  match od_get k osr with
  | Some v => v
  | None => ""
  end.

(** The loop over the tokens of [ID_LIKE]: the first token that is a
    choice, if any. *)
Fixpoint first_like (tokens lowered : list string) : option string :=
  match tokens with
  | [] => None
  | token :: rest =>
      if tuple_has token lowered then Some token else first_like rest lowered
  end.

(** The loop [for idx, label in enumerate(lowered)]: the index of the
    first label other than [auto], counted from [idx]. *)
Fixpoint first_not_auto (idx : nat) (lowered : list string) : option nat :=
  match lowered with
  | [] => None
  | label :: rest =>
      if negb (String.eqb label "auto") then Some idx
      else first_not_auto (S idx) rest
  end.

(** The last two steps of [detect_distro_keyword]: the first choice other
    than [auto], else the first choice, else the empty string. *)
Definition fallback_choice (choices lowered : list string) : outcome string :=
  match first_not_auto 0 lowered with
  | Some idx => tuple_item choices idx
  | None => match choices with
            | [] => Return ""
            | _ => tuple_item choices 0
            end
  end.

(** [detect_distro_keyword(choices, default)], with the mapping that
    [read_os_release] returns passed in as [osr]. *)
Definition detect_distro_keyword (osr : list (string * string))
  (choices : list string) (default : option string) : outcome string :=
  let lowered := map Str.lower choices in
  let os_id := Str.lower (Str.strip (osr_get osr "ID")) in
  let id_like := Str.lower (Str.strip (osr_get osr "ID_LIKE")) in
  if negb (String.eqb os_id "") && tuple_has os_id lowered
  then choice_for choices lowered os_id
  else
    match (if negb (String.eqb id_like "")
           then first_like (words id_like) lowered
           else None) with
    | Some token => choice_for choices lowered token
    | None =>
        match default with
        | Some d =>
            if tuple_has (Str.lower d) lowered
            then choice_for choices lowered (Str.lower d)
            else fallback_choice choices lowered
        | None => fallback_choice choices lowered
        end
    end.

Definition _DISTRO_CHOICES : list string :=
  ["auto"; "debian"; "ubuntu"; "rhel"; "fedora"].

(** [_resolve_distro(selected)] on a host whose os-release data is [osr]. *)
Definition _resolve_distro (osr : list (string * string)) (selected : string)
  : outcome string :=
  if String.eqb selected "" || String.eqb selected "auto"
  then detect_distro_keyword osr (tl _DISTRO_CHOICES) (Some "rhel")
  else Return selected.

(* ------------------------------------------------------------------ *)
(** ** The record provider ([rpm_query.py]) *)

Definition octal_digit (d : Z) : ascii := ascii_of_nat (48 + Z.to_nat d).

(** The octal digits of [n > 0], most significant first, in front of
    [acc]. *)
Fixpoint octal_loop (fuel : nat) (n : Z) (acc : string) : string :=
  match fuel with
  | O => acc
  | S fuel' =>
      if (n =? 0)%Z then acc
      else octal_loop fuel' (n / 8)%Z (String (octal_digit (n mod 8)%Z) acc)
  end.

(** [format(n, "o")] for [n >= 0] *)
Definition octal (n : Z) : string :=
  if (n =? 0)%Z then "0"
  else octal_loop (S (Z.to_nat (Z.log2 n))) n "".

(** [s.zfill(width)] on a string of digits. *)
Definition zero_fill (width : nat) (s : string) : string :=
  (String.concat "" (repeat "0" (width - String.length s)) ++ s)%string.

(** [format(n, "04o")]: the sign counts towards the width. *)
Definition format_04o (n : Z) : string :=
  if (n <? 0)%Z then ("-" ++ zero_fill 3 (octal (- n)))%string
  else zero_fill 4 (octal n).

(** [0o7777], [0o170000], [0o040000], [0o120000], [0o100000] *)
Definition PERM_MASK : Z := 4095.
Definition S_IFMT : Z := 61440.
Definition S_IFDIR : Z := 16384.
Definition S_IFLNK : Z := 40960.
Definition S_IFREG : Z := 32768.

Definition _octal_perms (mode_val : Z) : string :=
  format_04o (Z.land mode_val PERM_MASK).

Definition _file_type_from_mode (mode_val : Z) : string :=
  let t := Z.land mode_val S_IFMT in
  if (t =? S_IFDIR)%Z then "dir"
  else if (t =? S_IFLNK)%Z then "link"
  else if (t =? S_IFREG)%Z then "file"
  else "other".

(** The per-file arrays [get_installed_package_dumps] pulls from one
    header with [_hdr_list]. *)
Record header : Type := {
  names : list pyval;
  sizes : list Z;
  mtimes : list Z;
  digests : list pyval;
  modes : list Z;
  owners : list pyval;
  groups : list pyval;
  links : list pyval;
  flags : list Z
}.

(** The dictionary built for file [i]; [decode] stands for
    [_decode_file_flags], whose table comes from the installed [rpm]
    module. *)
Definition file_entry (decode : Z -> list string) (hdr : header) (i : nat) : dict :=
  let mode_i := if (i <? length (modes hdr))%nat then nth i (modes hdr) 0%Z else 0%Z in
  let perms := _octal_perms mode_i in
  let flags_i := if (i <? length (flags hdr))%nat then nth i (flags hdr) 0%Z else 0%Z in
  [("path", PStr (py_str (nth i (names hdr) PNone)));
   ("size", if (i <? length (sizes hdr))%nat then PInt (nth i (sizes hdr) 0%Z) else PNone);
   ("mtime", if (i <? length (mtimes hdr))%nat then PInt (nth i (mtimes hdr) 0%Z) else PNone);
   ("digest", if (i <? length (digests hdr))%nat && truthy (nth i (digests hdr) PNone)
              then PStr (py_str (nth i (digests hdr) PNone)) else PNone);
   ("mode", PStr perms);
   ("owner", if (i <? length (owners hdr))%nat
             then PStr (py_str (nth i (owners hdr) PNone)) else PStr "root");
   ("group", if (i <? length (groups hdr))%nat
             then PStr (py_str (nth i (groups hdr) PNone)) else PStr "root");
   ("linkto", if (i <? length (links hdr))%nat && truthy (nth i (links hdr) PNone)
              then PStr (py_str (nth i (links hdr) PNone)) else PNone);
   ("flags", PList (map PStr (decode flags_i)));
   ("flags_raw", PInt flags_i);
   ("type", PStr (_file_type_from_mode mode_i))].

(** The list [files] of one package object. *)
Definition header_files (decode : Z -> list string) (hdr : header) : list dict :=
  map (file_entry decode hdr) (seq 0 (length (names hdr))).

(** A package object as the provider makes it: its [files] are the
    entries of some header. *)
Definition provided (decode : Z -> list string) (pkg : dict) : Prop :=
  exists hdr, dict_get pkg "files" = PList (map PDict (header_files decode hdr)).

(** The four characters [format(x, "04o")] has for [0 <= x < 4096]. *)
Definition digits4 (x : Z) : string :=
  String (octal_digit (x / 512 mod 8))
    (String (octal_digit (x / 64 mod 8))
       (String (octal_digit (x / 8 mod 8))
          (String (octal_digit (x mod 8)) EmptyString))).

(** The value of a string of octal digits. *)
Fixpoint octal_value (acc : Z) (s : string) : Z :=
  match s with
  | EmptyString => acc
  | String c r => octal_value (8 * acc + (Z.of_nat (Str.code c) - 48)) r
  end.

(** The state the item builder derives from the file-type bits. *)
Definition state_of_mode (mode_val : Z) : string :=
  if (Z.land mode_val S_IFMT =? S_IFDIR)%Z then "directory"
  else if (Z.land mode_val S_IFMT =? S_IFLNK)%Z then "link"
  else "file".

Definition sample_header : header :=
  {| names := [PStr "/etc/foo.conf"; PStr "/usr/bin/foo"; PStr "/usr/bin/bar";
               PStr "/dev/foo"];
     sizes := [120; 4096; 3]%Z;
     mtimes := [];
     digests := [PStr "ab12"; PStr ""];
     modes := [33188; 33261; 41471; 8624]%Z;
     owners := [PStr "root"; PStr ""];
     groups := [];
     links := [PStr ""; PStr ""; PStr "foo"];
     flags := [1; 0]%Z |}.

Definition sample_decode (bitmask : Z) : list string :=
  if Z.testbit bitmask 0 then ["config"] else [].

(** The line the emitter writes for one binding of an item, and whether
    it writes one. *)
Definition binding_line (kv : string * pyval) : string :=
  ("      " ++ fst kv ++ ": " ++ q (snd kv))%string.

Definition binding_kept (kv : string * pyval) : bool :=
  not_blank (snd kv) || String.eqb (fst kv) "follow" || String.eqb (fst kv) "force".

(** A character a key may hold: [a-z], [0-9] or the underscore. *)
Definition key_char_or_underscore (c : ascii) : bool :=
  is_key_char c || Str.is_char "_" c.

(** Where the entries of a document come from: every entry under a
    category is the item of one of the records [done], and that record is
    classified under that category. *)
Definition entries_from (h : hashing) (done : list dict)
  (cats : list (string * category_map)) : Prop :=
  forall (c : string) (items : category_map) (key : string) (it : config_item),
    In (c, items) cats -> In (key, it) items ->
    exists f, In f done /\ _build_item f = Ok it /\ _category_for h f = c.

(* ------------------------------------------------------------------ *)
(** ** The command ([main]) *)

(** [argparse.Namespace] as [_parse_args] fills it. *)
Record Namespace : Type := {
  version : bool;
  distro : string;
  output : option string;
  package : option string
}.

(** What [get_installed_package_dumps(name)] does: it returns the package
    objects, or raises [LookupError] (nothing installed under the name) or
    [RuntimeError] (no librpm bindings). *)
Inductive query_result : Type :=
| Installed (pkg_objs : list dict)
| NotInstalled (msg : string)
| NoBindings (msg : string).

(** The machine [main] runs on. *)
Record host : Type := {
  os_release : list (string * string);       (* what [read_os_release] returns *)
  installed : string -> query_result;
  seed : hashing;
  pyyaml_dump : document -> string -> bool;  (* the PyYAML branch reached its [return] *)
  file_write : string -> string -> option string
                                             (* [open(path, "w")] and [write]: the
                                                message of the exception, if any *)
}.

(** What a run leaves behind. *)
Record run : Type := {
  status : Z;
  stdout : string;
  stderr : string;
  written : option string
}.

Inductive main_result : Type :=
| Exit (r : run)
| Crash (e : pyerror)
| Hang.

Definition get_version : string := "0.0.1".

(** [_yaml_dump(data, path)] with its two branches: PyYAML when it works,
    else the built-in emitter.  The result is the message of the exception
    that escapes, if any. *)
Definition yaml_dump_to (env : host) (data : document) (path : string)
  : option string :=
  if pyyaml_dump env data path then None
  else file_write env path (_yaml_dump data).

(** The [try] block of [main]: validation, then the query. *)
Definition validate_and_query (env : host) (pkg distro : string)
  : outcome (string * list dict) :=
  and_then (validate_package_name (PStr pkg) (PStr distro))
    (fun name =>
       match installed env name with
       | Installed pkg_objs => Return (name, pkg_objs)
       | NotInstalled msg => Throw (LookupError msg)
       | NoBindings msg => Throw (RuntimeError msg)
       end).

Definition failed (code : Z) (msg : string) : main_result :=
  Exit {| status := code; stdout := "";
          stderr := ("error: " ++ msg ++ newline)%string; written := None |}.

Definition main (env : host) (args : Namespace) : main_result :=
  if version args then
    Exit {| status := 0; stdout := (get_version ++ newline)%string;
            stderr := ""; written := None |}
  else
    match package args with
    | None | Some EmptyString =>
        Exit {| status := 0;
                stdout := ("usage: python -m rpm_praser [--distro {auto,debian,ubuntu,rhel,fedora}] NAME"
                           ++ newline
                           ++ "hint: provide an installed package NAME, e.g., 'shadow-utils'"
                           ++ newline)%string;
                stderr := ""; written := None |}
    | Some pkg =>
        match _resolve_distro (os_release env) (distro args) with
        | Throw e => Crash e
        | Return d =>
            match validate_and_query env pkg d with
            | Throw (ValueError msg) => failed 2 msg
            | Throw (LookupError msg) | Throw (IndexError msg) => failed 3 msg
            | Throw (RuntimeError msg) => failed 4 msg
            | Throw (Uncaught e) => Crash (Uncaught e)
            | Return (name, pkg_objs) =>
                match _merge_files_from_packages (seed env) pkg_objs with
                | Raise e => Crash (Uncaught e)
                | OutOfFuel => Hang
                | Ok files =>
                    match _build_yaml_data (seed env) files with
                    | Raise e => Crash (Uncaught e)
                    | OutOfFuel => Hang
                    | Ok yaml_data =>
                        let out_path :=
                          match output args with
                          | None | Some EmptyString => ("files_" ++ name ++ ".yml")%string
                          | Some p => p
                          end in
                        match yaml_dump_to env yaml_data out_path with
                        | Some msg => failed 5 ("failed to write YAML: " ++ msg)
                        | None =>
                            Exit {| status := 0;
                                    stdout := ("wrote: " ++ out_path ++ newline)%string;
                                    stderr := ""; written := Some out_path |}
                        end
                    end
                end
            end
        end
    end.

Definition sample_host : host :=
  {| os_release := [("ID", "rocky"); ("ID_LIKE", "rhel centos fedora")];
     installed := fun name =>
       if String.eqb name "foo" then Installed [pkg_first; pkg_second]
       else NotInstalled ("Package not installed: " ++ name);
     seed := hash_back;
     pyyaml_dump := fun _ _ => false;
     file_write := fun path _ =>
       if Str.startswith "/proc" path then Some "Permission denied" else None |}.

(** A component of a normal path: not empty, not [.], not [..], and free
    of the separator. *)
Definition normal_comp (c : string) : bool :=
  negb (String.eqb c "") && negb (String.eqb c ".") && negb (String.eqb c "..")
  && negb (Str.contains_char "/" c).

(** A host whose query answers with what the provider builds from
    [sample_header]. *)
Definition provider_host : host :=
  {| os_release := [("ID", "rocky"); ("ID_LIKE", "rhel centos fedora")];
     installed := fun name =>
       Installed [[("name", PStr name);
                   ("files", PList (map PDict (header_files sample_decode sample_header)))]];
     seed := hash_front;
     pyyaml_dump := fun _ _ => true;
     file_write := fun _ _ => None |}.

(** Induction on Python values, through the containers. *)
Section PyvalInduction.

Variable P : pyval -> Prop.
Hypothesis case_none : P PNone.
Hypothesis case_bool : forall b, P (PBool b).
Hypothesis case_int : forall z, P (PInt z).
Hypothesis case_str : forall s, P (PStr s).
Hypothesis case_list : forall l, Forall P l -> P (PList l).
Hypothesis case_tuple : forall l, Forall P l -> P (PTuple l).
Hypothesis case_set : forall l, Forall P l -> P (PSet l).
Hypothesis case_dict : forall d, Forall (fun kv => P (snd kv)) d -> P (PDict d).

Fixpoint pyval_nested_ind (v : pyval) : P v :=
  let all :=
    fix all (l : list pyval) : Forall P l :=
      match l with
      | [] => Forall_nil P
      | x :: r => Forall_cons x (pyval_nested_ind x) (all r)
      end in
  match v with
  | PNone => case_none
  | PBool b => case_bool b
  | PInt z => case_int z
  | PStr s => case_str s
  | PList l => case_list l (all l)
  | PTuple l => case_tuple l (all l)
  | PSet l => case_set l (all l)
  | PDict d =>
      case_dict d
        ((fix alld (d : list (string * pyval)) : Forall (fun kv => P (snd kv)) d :=
            match d with
            | [] => Forall_nil _
            | kv :: r =>
                Forall_cons kv
                  (match kv as p return P (snd p) with
                   | (_, x) => pyval_nested_ind x
                   end)
                  (alld r)
            end) d)
  end.

End PyvalInduction.

(* ------------------------------------------------------------------ *)
(** * Properties *)

(** ** Sample runs of the string and path helpers *)

Example lower_sample : Str.lower "/Etc/DEFAULT" = "/etc/default".
Proof. reflexivity. Qed.

Example strip_sample : Str.strip "  a b  " = "a b".
Proof. reflexivity. Qed.

Example split_sample : Str.split "/" "/usr//bin/" = [""; "usr"; ""; "bin"; ""].
Proof. reflexivity. Qed.

Example of_nat_sample : Str.of_nat 12 = "12" /\ Str.of_nat 0 = "0" /\ Str.of_Z (-7) = "-7".
Proof. repeat split. Qed.

Example py_str_samples :
  py_str (PInt 420) = "420" /\ py_str (PStr "0644") = "0644" /\
  py_str (PList [PStr "a'b"; PNone; PTuple [PBool true]])
  = (String "[" (String Repr.dquote "a'b") ++ String Repr.dquote ", None, (True,)]")%string.
Proof. repeat split. Qed.

Example normpath_samples :
  posixpath.normpath "/usr/sbin/../bin/sh" = "/usr/bin/sh" /\
  posixpath.normpath "//a/./b//c/" = "//a/b/c" /\
  posixpath.normpath "///a/../../b" = "/b" /\
  posixpath.normpath "a/../.." = ".." /\
  posixpath.normpath "./" = ".".
Proof. repeat split. Qed.

Example dirname_samples :
  posixpath.dirname "/usr/sbin/service" = "/usr/sbin" /\
  posixpath.dirname "service" = "" /\
  posixpath.dirname "/service" = "/" /\
  posixpath.dirname "//a" = "//" /\
  posixpath.dirname "usr//x" = "usr".
Proof. repeat split. Qed.

(** ** Sets: membership does not depend on the hash seed *)

Section PySetFacts.

Context {A : Type} (eqb : A -> A -> bool).
Hypothesis eqb_eq : forall x y, eqb x y = true <-> x = y.

Lemma set_mem_In (x : A) (s : list A) : set_mem eqb x s = true <-> In x s.
Proof.
  unfold set_mem. rewrite existsb_exists. split.
  - intros [y [Hy He]]. apply eqb_eq in He. now subst.
  - intros Hx. exists x. split; [assumption | now apply eqb_eq].
Qed.

Lemma set_mem_false (x : A) (s : list A) : set_mem eqb x s = false <-> ~ In x s.
Proof.
  rewrite <- set_mem_In. destruct (set_mem eqb x s); split; intros H;
    try discriminate; try reflexivity; try (intros H'; discriminate).
  exfalso. now apply H.
Qed.

Lemma In_insert_at (n : nat) (x y : A) (s : list A) :
  In y (insert_at n x s) <-> y = x \/ In y s.
Proof.
  assert (Hs : In y s <-> In y (firstn n s) \/ In y (skipn n s))
    by (rewrite <- in_app_iff, firstn_skipn; reflexivity).
  unfold insert_at. rewrite in_app_iff. simpl. rewrite Hs.
  intuition auto.
Qed.

Lemma In_set_add (slot : A -> list A -> nat) (x y : A) (s : list A) :
  In y (set_add eqb slot x s) <-> y = x \/ In y s.
Proof.
  unfold set_add. destruct (set_mem eqb x s) eqn:E.
  - apply set_mem_In in E. split; [now right | intros [-> | H]; assumption].
  - apply In_insert_at.
Qed.

Lemma set_mem_add (slot : A -> list A -> nat) (x y : A) (s : list A) :
  set_mem eqb y (set_add eqb slot x s) = eqb y x || set_mem eqb y s.
Proof.
  apply eq_true_iff_eq. rewrite orb_true_iff, !set_mem_In, eqb_eq.
  apply In_set_add.
Qed.

Lemma NoDup_insert_at (n : nat) (x : A) (s : list A) :
  NoDup s -> ~ In x s -> NoDup (insert_at n x s).
Proof.
  intros Hs Hx. unfold insert_at.
  rewrite <- (firstn_skipn n s) in Hs, Hx.
  apply NoDup_app_remove_l in Hs as Hsk.
  revert Hs Hx. generalize (firstn n s) (skipn n s) Hsk. clear Hsk.
  intros l1 l2 H2 H12 Hx.
  induction l1 as [| a l1 IH]; simpl in *.
  - constructor; assumption.
  - inversion H12 as [| ? ? Ha Hr]; subst. constructor.
    + rewrite in_app_iff in *. simpl. intros [H | [H | H]]; auto.
    + apply IH; auto.
Qed.

Lemma NoDup_set_add (slot : A -> list A -> nat) (x : A) (s : list A) :
  NoDup s -> NoDup (set_add eqb slot x s).
Proof.
  intros Hs. unfold set_add. destruct (set_mem eqb x s) eqn:E; [assumption |].
  apply NoDup_insert_at; [assumption | now apply set_mem_false].
Qed.

End PySetFacts.

Lemma str_mem_In (x : string) (s : list string) : str_mem x s = true <-> In x s.
Proof. apply set_mem_In, String.eqb_eq. Qed.

Lemma str_mem_add (h : hashing) (x y : string) (s : list string) :
  str_mem y (str_add h x s) = String.eqb y x || str_mem y s.
Proof. apply set_mem_add, String.eqb_eq. Qed.

Lemma same_members_add (h1 h2 : hashing) (x : string) (s1 s2 : list string) :
  same_members s1 s2 -> same_members (str_add h1 x s1) (str_add h2 x s2).
Proof. intros H y. now rewrite !str_mem_add, H. Qed.

Lemma same_members_refl (s : list string) : same_members s s.
Proof. intros x. reflexivity. Qed.

(** ** The suffix search of [_sanitize_key] *)

Lemma of_nat_inj (a b : nat) : Str.of_nat a = Str.of_nat b -> a = b.
Proof.
  unfold Str.of_nat. intros H.
  apply Unsigned.to_uint_inj.
  assert (E : Some (Nat.to_uint a) = Some (Nat.to_uint b))
    by (rewrite <- !NilEmpty.usu; now rewrite H).
  now inversion E.
Qed.

Lemma append_cancel_l (a x y : string) : (a ++ x = a ++ y)%string -> x = y.
Proof.
  induction a as [| c a IH]; simpl; intros H; [assumption |].
  inversion H. auto.
Qed.

Lemma candidate_key_inj (key : string) (a b : nat) :
  candidate_key key a = candidate_key key b -> a = b.
Proof.
  unfold candidate_key. intros H.
  apply append_cancel_l in H. apply (append_cancel_l "_") in H.
  now apply of_nat_inj.
Qed.

Lemma suffix_loop_ext (fuel : nat) (key : string) (u1 u2 : list string) (i : nat) :
  same_members u1 u2 -> suffix_loop fuel key u1 i = suffix_loop fuel key u2 i.
Proof.
  intros H. revert i. induction fuel as [| fuel IH]; intros i; simpl; [reflexivity |].
  rewrite (H (candidate_key key i)), IH. reflexivity.
Qed.

Lemma suffix_loop_no_raise (fuel : nat) (key : string) (used : list string)
  (i : nat) (e : pyexn) : suffix_loop fuel key used i <> Raise e.
Proof.
  revert i. induction fuel as [| fuel IH]; intros i; simpl; [discriminate |].
  destruct (str_mem (candidate_key key i) used); simpl; [apply IH | discriminate].
Qed.

(** A successful search stops at the first free suffix from [i] on. *)
Lemma suffix_loop_first (fuel : nat) (key : string) (used : list string)
  (i : nat) (c : string) :
  suffix_loop fuel key used i = Ok c ->
  exists n, i <= n < i + fuel /\ c = candidate_key key n /\
            str_mem c used = false /\
            forall m, i <= m < n -> str_mem (candidate_key key m) used = true.
Proof.
  revert i. induction fuel as [| fuel IH]; intros i; simpl; [discriminate |].
  destruct (str_mem (candidate_key key i) used) eqn:E; simpl.
  - intros H. destruct (IH _ H) as [n [Hn [Hc [Hf Hb]]]].
    exists n. repeat split; try lia; try assumption.
    intros m Hm. destruct (Nat.eq_dec m i) as [-> | Hne]; [assumption |].
    apply Hb. lia.
  - intros H. inversion H; subst c. exists i. repeat split; try lia; assumption.
Qed.

(** A search that runs out of fuel has seen every suffix taken. *)
Lemma suffix_loop_exhausted (fuel : nat) (key : string) (used : list string) (i : nat) :
  suffix_loop fuel key used i = OutOfFuel ->
  forall m, i <= m < i + fuel -> In (candidate_key key m) used.
Proof.
  revert i. induction fuel as [| fuel IH]; intros i; simpl; [intros _ m Hm; lia |].
  destruct (str_mem (candidate_key key i) used) eqn:E; simpl; [| discriminate].
  intros H m Hm. destruct (Nat.eq_dec m i) as [-> | Hne].
  - now apply str_mem_In.
  - apply (IH _ H). lia.
Qed.

(** The fuel [_sanitize_key] gives the search is enough: more suffixes
    are tried than the set has members. *)
Lemma suffix_loop_total (fuel : nat) (key : string) (used : list string) (i : nat) :
  length used < fuel -> exists c, suffix_loop fuel key used i = Ok c.
Proof.
  intros Hlen. destruct (suffix_loop fuel key used i) as [c | e |] eqn:E.
  - now exists c.
  - exfalso. exact (suffix_loop_no_raise _ _ _ _ _ E).
  - exfalso.
    pose proof (suffix_loop_exhausted _ _ _ _ E) as Hall.
    assert (Hnd : NoDup (map (candidate_key key) (seq i fuel))).
    { apply Injective_map_NoDup; [| apply seq_NoDup].
      intros a b. apply candidate_key_inj. }
    assert (Hincl : incl (map (candidate_key key) (seq i fuel)) used).
    { intros x Hx. apply in_map_iff in Hx as [m [<- Hm]].
      apply in_seq in Hm. apply Hall. lia. }
    pose proof (NoDup_incl_length Hnd Hincl) as Hle.
    rewrite length_map, length_seq in Hle. lia.
Qed.

(** ** Two runs under different hash seeds *)

Lemma res_agree_eq {A : Type} (r1 r2 : res A) :
  res_agree eq r1 r2 -> r1 = r2 /\ r1 <> OutOfFuel.
Proof.
  destruct r1, r2; simpl; intros H; try contradiction; subst;
    split; try reflexivity; discriminate.
Qed.

Lemma res_agree_bind {A B C D : Type} (R : A -> B -> Prop) (Q : C -> D -> Prop)
  (m1 : res A) (m2 : res B) (k1 : A -> res C) (k2 : B -> res D) :
  res_agree R m1 m2 ->
  (forall a b, R a b -> res_agree Q (k1 a) (k2 b)) ->
  res_agree Q (bind m1 k1) (bind m2 k2).
Proof.
  destruct m1, m2; simpl; intros H Hk; try contradiction; auto.
Qed.

Lemma for_each_agree {A S1 S2 : Type} (R : S1 -> S2 -> Prop)
  (body1 : S1 -> A -> res S1) (body2 : S2 -> A -> res S2) :
  (forall s1 s2 x, R s1 s2 -> res_agree R (body1 s1 x) (body2 s2 x)) ->
  forall xs s1 s2, R s1 s2 ->
    res_agree R (for_each body1 xs s1) (for_each body2 xs s2).
Proof.
  intros Hbody xs. induction xs as [| x xs IH]; intros s1 s2 HR; simpl.
  - assumption.
  - apply (res_agree_bind R R); [now apply Hbody | exact IH].
Qed.

Lemma flag_set_mem (h : hashing) (l : list pyval) (x : string) :
  str_mem x (flag_set h l)
  = existsb (fun v => String.eqb x (Str.lower (py_str v))) l.
Proof.
  unfold flag_set.
  assert (G : forall acc,
    str_mem x (fold_left (fun fset v => str_add h (Str.lower (py_str v)) fset) l acc)
    = existsb (fun v => String.eqb x (Str.lower (py_str v))) l || str_mem x acc).
  { induction l as [| v l IH]; intros acc; simpl; [reflexivity |].
    rewrite IH, str_mem_add.
    now rewrite orb_assoc, (orb_comm (existsb _ l)), <- orb_assoc. }
  rewrite G. simpl. apply orb_false_r.
Qed.

Lemma category_for_unfold (h : hashing) (entry : dict) :
  _category_for h entry =
  if has_flag "config" entry then "configuration"
  else if has_flag "license" entry then "licenses"
  else if has_flag "doc" entry then "docs"
  else if type_is_link entry then "general"
  else "artifacts".
Proof.
  unfold _category_for, has_flag, type_is_link.
  destruct (py_or (dict_get entry "flags") (PList [])); try reflexivity;
    now rewrite !flag_set_mem.
Qed.

Lemma category_for_seed_free (h1 h2 : hashing) (entry : dict) :
  _category_for h1 entry = _category_for h2 entry.
Proof. now rewrite !category_for_unfold. Qed.

Lemma sanitize_key_seed_free (h1 h2 : hashing) (path : pyval) (u1 u2 : list string) :
  same_members u1 u2 ->
  res_agree (fun r1 r2 => fst r1 = fst r2 /\ same_members (snd r1) (snd r2))
            (_sanitize_key h1 path u1) (_sanitize_key h2 path u2).
Proof.
  intros H. unfold _sanitize_key.
  destruct (py_or path (PStr "")) as [| b | z | s | l | l | l | d];
    cbn [py_strip bind res_agree]; try reflexivity.
  rewrite (H (base_key (Str.strip s))).
  destruct (str_mem (base_key (Str.strip s)) u2) eqn:E; cbn [negb].
  - destruct (suffix_loop_total (S (length u1)) (base_key (Str.strip s)) u1 2) as [c1 E1];
      [lia |].
    destruct (suffix_loop_total (S (length u2)) (base_key (Str.strip s)) u2 2) as [c2 E2];
      [lia |].
    rewrite E1, E2. cbn [bind res_agree fst snd].
    destruct (suffix_loop_first _ _ _ _ _ E1) as [n1 [Hn1 [-> [F1 B1]]]].
    destruct (suffix_loop_first _ _ _ _ _ E2) as [n2 [Hn2 [-> [F2 B2]]]].
    assert (n1 = n2) as ->.
    { destruct (Nat.lt_trichotomy n1 n2) as [Hlt | [Heq | Hgt]]; [| assumption |].
      - rewrite H, B2 in F1; [discriminate | lia].
      - rewrite <- H, B1 in F2; [discriminate | lia]. }
    split; [reflexivity | now apply same_members_add].
  - cbn [res_agree fst snd]. split; [reflexivity | now apply same_members_add].
Qed.

Lemma state_from_type_fuel (ftype : pyval) : _state_from_type ftype <> OutOfFuel.
Proof.
  unfold _state_from_type.
  destruct (py_or ftype (PStr "")); cbn [py_lower bind]; try discriminate.
  repeat match goal with |- context [if ?b then _ else _] => destruct b end;
    discriminate.
Qed.

Lemma build_item_fuel (entry : dict) : _build_item entry <> OutOfFuel.
Proof.
  unfold _build_item.
  destruct (_state_from_type (dict_get entry "type")) as [st | e |] eqn:E;
    cbn [bind]; try discriminate.
  - repeat match goal with
           | |- context [if ?b then _ else _] => destruct b
           | |- context [match ?o with Some _ => _ | None => _ end] => destruct o
           end; discriminate.
  - now apply state_from_type_fuel in E.
Qed.

Lemma grouped_set_fuel (cat key : string) (it : config_item)
  (grouped : list (string * category_map)) :
  grouped_set cat key it grouped <> OutOfFuel.
Proof.
  induction grouped as [| [c items] rest IH]; simpl; [discriminate |].
  destruct (String.eqb c cat); [discriminate |].
  destruct (grouped_set cat key it rest); simpl; try discriminate.
  now elim IH.
Qed.

Lemma build_file_seed_free (h1 h2 : hashing)
  (s1 s2 : list string * list (string * category_map)) (f : dict) :
  runs_agree s1 s2 -> res_agree runs_agree (build_file h1 s1 f) (build_file h2 s2 f).
Proof.
  destruct s1 as [u1 g1], s2 as [u2 g2]. intros [Hu Hg]. simpl in Hu, Hg. subst g2.
  unfold build_file. rewrite (category_for_seed_free h1 h2).
  eapply res_agree_bind; [apply sanitize_key_seed_free; exact Hu |].
  intros [k1 u1'] [k2 u2'] [Hk Hu']. simpl in Hk, Hu'. subst k2.
  pose proof (build_item_fuel f) as Hi.
  destruct (_build_item f) as [it | e |]; cbn [bind res_agree]; try congruence.
  pose proof (grouped_set_fuel (_category_for h2 f) k1 it g1) as Hs.
  destruct (grouped_set (_category_for h2 f) k1 it g1); cbn [bind res_agree];
    try congruence.
  split; [exact Hu' | reflexivity].
Qed.

Lemma for_each_fuel {A S : Type} (body : S -> A -> res S) (xs : list A) (acc : S) :
  (forall s x, body s x <> OutOfFuel) -> for_each body xs acc <> OutOfFuel.
Proof.
  intros Hb. revert acc. induction xs as [| x xs IH]; intros acc; simpl; [discriminate |].
  specialize (Hb acc x). destruct (body acc x); simpl; [apply IH | discriminate | congruence].
Qed.

Lemma collect_categories_fuel (grouped : list (string * category_map)) :
  collect_categories grouped <> OutOfFuel.
Proof.
  apply for_each_fuel. intros acc k. unfold grouped_get.
  destruct (od_get k grouped); discriminate.
Qed.

(** C1. Determinism of the document assembly.  For a fixed ordered list of
    file records, two runs of [_build_yaml_data], even under different hash
    seeds (so with differently ordered [used_keys] and flag sets), yield
    the same result: the same document, with every key, every category
    membership and every property order equal, and neither run is stuck in
    the suffix search.  The key [_sanitize_key] returns depends only on the
    path and on which keys were handed out before, not on how the set of
    used keys is laid out. *)
Theorem build_yaml_data_deterministic (h1 h2 : hashing) (files : list dict) :
  _build_yaml_data h1 files = _build_yaml_data h2 files /\
  _build_yaml_data h1 files <> OutOfFuel /\
  (forall (path : pyval) (u1 u2 : list string),
     same_members u1 u2 ->
     res_agree (fun r1 r2 => fst r1 = fst r2 /\ same_members (snd r1) (snd r2))
               (_sanitize_key h1 path u1) (_sanitize_key h2 path u2)).
Proof.
  assert (G : res_agree eq (_build_yaml_data h1 files) (_build_yaml_data h2 files)).
  { unfold _build_yaml_data.
    eapply res_agree_bind.
    - apply (for_each_agree runs_agree); [apply build_file_seed_free |].
      split; [apply same_members_refl | reflexivity].
    - intros [u1 g1] [u2 g2] [_ Hg]. simpl in Hg. subst g2. cbn [snd].
      pose proof (collect_categories_fuel g1) as Hc.
      destruct (collect_categories g1); cbn [bind res_agree]; congruence. }
  apply res_agree_eq in G. destruct G as [G1 G2].
  split; [exact G1 |]. split; [exact G2 |].
  intros path u1 u2. apply sanitize_key_seed_free.
Qed.

Lemma build_yaml_data_deterministic_witness :
  _build_yaml_data hash_front [sample_conf; sample_link; sample_conf]
    = _build_yaml_data hash_back [sample_conf; sample_link; sample_conf] /\
  res_agree (fun r1 r2 => fst r1 = fst r2 /\ same_members (snd r1) (snd r2))
            (_sanitize_key hash_front (PStr "/a") ["a"; "a_2"])
            (_sanitize_key hash_back (PStr "/a") ["a_2"; "a"]).
Proof.
  destruct (build_yaml_data_deterministic hash_front hash_back
              [sample_conf; sample_link; sample_conf]) as [H1 [_ H3]].
  split; [exact H1 |].
  apply H3. intros x. unfold str_mem, set_mem. simpl.
  destruct (String.eqb x "a"), (String.eqb x "a_2"); reflexivity.
Defined.

(** ** Keys across the whole document *)

Lemma sanitize_key_fresh (h : hashing) (path : pyval) (used used' : list string)
  (key : string) :
  _sanitize_key h path used = Ok (key, used') ->
  str_mem key used = false /\ used' = str_add h key used.
Proof.
  unfold _sanitize_key.
  destruct (py_strip (py_or path (PStr ""))) as [s | e |]; cbn [bind]; try discriminate.
  destruct (str_mem (base_key s) used) eqn:E; cbn [negb].
  - destruct (suffix_loop (S (length used)) (base_key s) used 2) as [c | e |] eqn:L;
      cbn [bind]; try discriminate.
    intros H. inversion H; subst.
    destruct (suffix_loop_first _ _ _ _ _ L) as [n [_ [_ [F _]]]]. now split.
  - intros H. inversion H; subst. now split.
Qed.

Lemma od_set_fresh {V : Type} (k : string) (v : V) (d : odict V) :
  ~ In k (od_keys d) -> od_set k v d = d ++ [(k, v)].
Proof.
  induction d as [| [k' v'] d IH]; simpl; intros H; [reflexivity |].
  destruct (String.eqb k' k) eqn:E.
  - apply String.eqb_eq in E. exfalso. apply H. now left.
  - rewrite IH; [reflexivity | intros Hin; apply H; now right].
Qed.

Lemma grouped_set_keys (cat key : string) (it : config_item)
  (g g' : list (string * category_map)) :
  grouped_set cat key it g = Ok g' ->
  ~ In key (all_keys g) ->
  map fst g' = map fst g /\ Permutation (all_keys g') (key :: all_keys g).
Proof.
  revert g'. induction g as [| [c items] rest IH]; intros g'; simpl; [discriminate |].
  intros H Hk. rewrite in_app_iff in Hk.
  destruct (String.eqb c cat).
  - inversion H; subst g'. simpl. split; [reflexivity |].
    rewrite od_set_fresh by tauto.
    unfold od_keys. rewrite map_app. simpl.
    rewrite <- app_assoc. simpl. symmetry. apply Permutation_middle.
  - destruct (grouped_set cat key it rest) as [rest' | e |]; cbn [bind] in H;
      try discriminate.
    inversion H; subst g'. simpl.
    destruct (IH rest' eq_refl) as [Hn Hp]; [tauto |].
    split; [now rewrite Hn |].
    rewrite Hp. symmetry. apply Permutation_middle.
Qed.

Lemma category_for_known (h : hashing) (entry : dict) :
  In (_category_for h entry) _CATEGORY_ORDER.
Proof.
  rewrite category_for_unfold. simpl.
  repeat match goal with |- context [if ?b then _ else _] => destruct b end; tauto.
Qed.

Lemma build_file_inv (h : hashing) (n : nat)
  (st st' : list string * list (string * category_map)) (f : dict) :
  build_file h st f = Ok st' -> assembly_inv n st -> assembly_inv (S n) st'.
Proof.
  destruct st as [used g]. unfold build_file, assembly_inv. cbn [fst snd].
  destruct (_sanitize_key h (py_or (dict_get f "path") (PStr "")) used)
    as [[key used'] | e |] eqn:Es; cbn [bind]; try discriminate.
  destruct (_build_item f) as [it | e |]; cbn [bind]; try discriminate.
  destruct (grouped_set (_category_for h f) key it g) as [g' | e |] eqn:Eg;
    cbn [bind]; try discriminate.
  intros H [Hn [Hd [Hu Hl]]]. inversion H; subst st'. cbn [fst snd].
  apply sanitize_key_fresh in Es as [Hfresh ->].
  assert (Hk : ~ In key (all_keys g)).
  { intros Hin. apply Hu, str_mem_In in Hin. congruence. }
  destruct (grouped_set_keys _ _ _ _ _ Eg Hk) as [Hn' Hp].
  repeat split.
  - now rewrite Hn'.
  - apply (Permutation_NoDup (Permutation_sym Hp)). now constructor.
  - intros k Hin. apply (In_set_add String.eqb String.eqb_eq).
    apply (Permutation_in _ Hp) in Hin. destruct Hin as [<- | Hin]; auto.
  - rewrite (Permutation_length Hp). simpl. now rewrite Hl.
Qed.

Lemma for_each_inv {A St : Type} (I : nat -> St -> Prop) (body : St -> A -> res St) :
  (forall n s s' x, body s x = Ok s' -> I n s -> I (S n) s') ->
  forall xs n s s', for_each body xs s = Ok s' -> I n s -> I (length xs + n) s'.
Proof.
  intros Hb xs. induction xs as [| x xs IH]; intros n s s'; simpl.
  - intros H Hi. now inversion H; subst.
  - destruct (body s x) as [s1 | e |] eqn:E; cbn [bind]; try discriminate.
    intros H Hi. replace (S (length xs + n)) with (length xs + S n) by lia.
    eapply IH; [exact H |].
    eapply Hb; eassumption.
Qed.

Lemma collect_categories_id (g : list (string * category_map)) :
  map fst g = _CATEGORY_ORDER -> collect_categories g = Ok g.
Proof.
  unfold _CATEGORY_ORDER. intros H.
  do 6 (destruct g as [| [? ?] g]; try discriminate).
  simpl in H. inversion H; subst. reflexivity.
Qed.

(** C2. Shape of the assembled document and uniqueness of its keys.  When
    [_build_yaml_data] returns a document, it has the single root key
    [files]; under it are exactly the five categories of [_CATEGORY_ORDER],
    each once and in that order (a category without records maps to an
    empty mapping); no key occurs twice anywhere in the document, across
    all categories; and there is one entry per input record. *)
Theorem build_yaml_data_shape (h : hashing) (files : list dict) (doc : document) :
  _build_yaml_data h files = Ok doc ->
  exists cats : files_map,
    doc = [("files", cats)] /\
    od_keys cats = ["configuration"; "artifacts"; "docs"; "licenses"; "general"] /\
    NoDup (all_keys cats) /\
    length (all_keys cats) = length files.
Proof.
  unfold _build_yaml_data.
  destruct (for_each (build_file h) files ([], map (fun k => (k, [])) _CATEGORY_ORDER))
    as [[used g] | e |] eqn:E; cbn [bind]; try discriminate.
  apply (for_each_inv assembly_inv _ (build_file_inv h)) with (n := 0) in E.
  - destruct E as [Hn [Hd [_ Hl]]]. cbn [snd] in *.
    rewrite (collect_categories_id g Hn). cbn [bind od_set].
    intros H. inversion H; subst doc. exists g. repeat split; try assumption.
    now rewrite Nat.add_0_r in Hl.
  - repeat split; simpl; try constructor. intros k [].
Qed.

Lemma build_yaml_data_shape_witness :
  exists cats : files_map,
    [("files",
      [("configuration",
        [("etc_default_useradd",
          [("follow", PBool false); ("force", PBool true); ("group", PStr "root");
           ("mode", PStr "0644"); ("owner", PStr "root");
           ("path", PStr "/etc/Default/useradd!!"); ("state", PStr "file")])]);
       ("artifacts", []); ("docs", []); ("licenses", []);
       ("general",
        [("etc_default_useradd_2",
          [("follow", PBool false); ("force", PBool true); ("group", PStr "root");
           ("mode", PStr ""); ("owner", PStr "root");
           ("path", PStr "/etc/default/useradd"); ("state", PStr "link");
           ("src", PStr "/etc/bin/sh")])])])] = [("files", cats)] /\
    od_keys cats = ["configuration"; "artifacts"; "docs"; "licenses"; "general"] /\
    NoDup (all_keys cats) /\
    length (all_keys cats) = length [sample_conf; sample_link].
Proof.
  apply (build_yaml_data_shape hash_back [sample_conf; sample_link]).
  vm_compute. reflexivity.
Defined.

(** ** The key sanitizer against its description *)

Lemma append_nil_r (s : string) : (s ++ "")%string = s.
Proof. induction s as [| c s IH]; simpl; [reflexivity | now rewrite IH]. Qed.

Lemma append_assoc (a b c : string) : ((a ++ b) ++ c = a ++ (b ++ c))%string.
Proof. induction a as [| x a IH]; simpl; [reflexivity | now rewrite IH]. Qed.

Lemma sanitize_loop_collapse (s acc : string) (b : bool) :
  fst (fold_left sanitize_step (list_ascii_of_string s) (acc, b))
  = (acc ++ collapse_runs b s)%string.
Proof.
  revert acc b. induction s as [| c s IH]; intros acc b; simpl.
  - now rewrite append_nil_r.
  - destruct (is_key_char c); [| destruct b]; simpl; rewrite IH;
      try rewrite append_assoc; reflexivity.
Qed.

Lemma space_separator (c : ascii) : Str.is_space c = true -> separator c = true.
Proof.
  destruct c as [[] [] [] [] [] [] [] []]; vm_compute; intros H;
    try reflexivity; discriminate.
Qed.

Lemma collapse_lower_cons (b : bool) (c : ascii) (s : string) :
  collapse_runs b (Str.lower (String c s)) =
  if separator c
  then if b then collapse_runs true (Str.lower s)
       else String "_" (collapse_runs true (Str.lower s))
  else String (Str.lower_char c) (collapse_runs false (Str.lower s)).
Proof.
  unfold separator. simpl. now destruct (is_key_char (Str.lower_char c)).
Qed.

Lemma key_char_not_underscore (c : ascii) :
  is_key_char c = true -> underscore c = false.
Proof.
  destruct c as [[] [] [] [] [] [] [] []]; vm_compute; intros H;
    try reflexivity; discriminate.
Qed.

Lemma lstrip_collapse_run (s : string) :
  Str.lstrip_by underscore (collapse_runs true s)
  = Str.lstrip_by underscore (collapse_runs false s).
Proof.
  destruct s as [| c s]; simpl; [reflexivity |].
  destruct (is_key_char c); reflexivity.
Qed.

(** Leading separators leave no trace in the trimmed key. *)
Lemma lstrip_collapse_skip (c : ascii) (s : string) :
  separator c = true ->
  Str.lstrip_by underscore (collapse_runs false (Str.lower (String c s)))
  = Str.lstrip_by underscore (collapse_runs false (Str.lower s)).
Proof.
  intros H. rewrite collapse_lower_cons, H. simpl.
  apply lstrip_collapse_run.
Qed.

Lemma lstrip_collapse_lstrip (p : ascii -> bool) (s : string) :
  (forall c, p c = true -> separator c = true) ->
  Str.lstrip_by underscore (collapse_runs false (Str.lower (Str.lstrip_by p s)))
  = Str.lstrip_by underscore (collapse_runs false (Str.lower s)).
Proof.
  intros Hp. induction s as [| c s IH]; [reflexivity |].
  cbn [Str.lstrip_by]. destruct (p c) eqn:E; [| reflexivity].
  rewrite IH. symmetry. apply lstrip_collapse_skip. now apply Hp.
Qed.

Lemma lstrip_collapse_drop_slash (s : string) :
  Str.lstrip_by underscore
    (collapse_runs false (Str.lower (if Str.startswith "/" s then drop_first s else s)))
  = Str.lstrip_by underscore (collapse_runs false (Str.lower s)).
Proof.
  destruct s as [| c s]; [reflexivity |].
  cbn [Str.startswith drop_first]. rewrite andb_true_r.
  destruct (Ascii.eqb_spec "/" c) as [<- | Hne]; [| reflexivity].
  symmetry. now apply lstrip_collapse_skip.
Qed.

Lemma rstrip_by_cons (p : ascii -> bool) (c : ascii) (s : string) :
  Str.rstrip_by p (String c s) = rcons p c (Str.rstrip_by p s).
Proof. cbn [Str.rstrip_by]. unfold rcons. now destruct (Str.rstrip_by p s). Qed.

Lemma strip_by_comm (p : ascii -> bool) (s : string) :
  Str.rstrip_by p (Str.lstrip_by p s) = Str.lstrip_by p (Str.rstrip_by p s).
Proof.
  induction s as [| c s IH]; [reflexivity |].
  cbn [Str.lstrip_by Str.rstrip_by]. destruct (p c) eqn:E.
  - rewrite IH. destruct (Str.rstrip_by p s); simpl; now rewrite ?E.
  - cbn [Str.rstrip_by]. destruct (Str.rstrip_by p s); simpl; now rewrite E.
Qed.

(** The right-trimmed collapse of [String c s] is a function of the
    right-trimmed collapses of [s]. *)
Lemma rstrip_collapse_cons (b : bool) (c : ascii) (s : string) :
  Str.rstrip_by underscore (collapse_runs b (Str.lower (String c s))) =
  if separator c
  then if b then Str.rstrip_by underscore (collapse_runs true (Str.lower s))
       else rcons underscore "_"
              (Str.rstrip_by underscore (collapse_runs true (Str.lower s)))
  else rcons underscore (Str.lower_char c)
         (Str.rstrip_by underscore (collapse_runs false (Str.lower s))).
Proof.
  rewrite collapse_lower_cons.
  destruct (separator c); [destruct b |]; try reflexivity; apply rstrip_by_cons.
Qed.

(** Trailing white space leaves no trace in the trimmed key. *)
Lemma rstrip_collapse_rstrip (s : string) (b : bool) :
  Str.rstrip_by underscore (collapse_runs b (Str.lower (Str.rstrip_by Str.is_space s)))
  = Str.rstrip_by underscore (collapse_runs b (Str.lower s)).
Proof.
  revert b. induction s as [| c s IH]; intros b; [reflexivity |].
  rewrite (rstrip_by_cons Str.is_space). unfold rcons at 1.
  destruct (Str.rstrip_by Str.is_space s) as [| c' s'] eqn:E.
  - destruct (Str.is_space c) eqn:Ec.
    + rewrite rstrip_collapse_cons, (space_separator c Ec), <- !IH.
      now destruct b.
    + rewrite !rstrip_collapse_cons, <- !IH. reflexivity.
  - rewrite (rstrip_collapse_cons b c (String c' s')), (rstrip_collapse_cons b c s).
    rewrite !IH. reflexivity.
Qed.

(** The key computed by the code is the key of the description. *)
Lemma base_key_refines (path : string) :
  base_key (Str.strip path) = spec_base_key path.
Proof.
  unfold base_key, spec_base_key. f_equal.
  rewrite sanitize_loop_collapse. cbn [append].
  unfold Str.strip_by. fold underscore.
  rewrite !lstrip_collapse_drop_slash.
  unfold Str.strip, Str.strip_by.
  rewrite !(strip_by_comm underscore), rstrip_collapse_rstrip.
  rewrite <- !(strip_by_comm underscore).
  now rewrite (lstrip_collapse_lstrip Str.is_space path space_separator).
Qed.

Lemma str_add_empty (h : hashing) (x : string) : str_add h x [] = [x].
Proof.
  unfold str_add, set_add, insert_at. simpl.
  now rewrite firstn_nil, skipn_nil.
Qed.

Lemma sanitize_key_str (h : hashing) (path : string) (used : list string) :
  exists key,
    _sanitize_key h (PStr path) used = Ok (key, str_add h key used) /\
    str_mem key used = false /\
    (str_mem (spec_base_key path) used = false -> key = spec_base_key path) /\
    (str_mem (spec_base_key path) used = true ->
     exists n, 2 <= n /\ key = candidate_key (spec_base_key path) n /\
       forall m, 2 <= m < n ->
         str_mem (candidate_key (spec_base_key path) m) used = true).
Proof.
  assert (Hs : py_strip (py_or (PStr path) (PStr "")) = Ok (Str.strip path)).
  { unfold py_or. simpl. destruct (String.eqb_spec path ""); subst; reflexivity. }
  unfold _sanitize_key. rewrite Hs. cbn [bind]. rewrite base_key_refines.
  destruct (str_mem (spec_base_key path) used) eqn:E; cbn [negb].
  - destruct (suffix_loop_total (S (length used)) (spec_base_key path) used 2) as [c L];
      [lia |].
    rewrite L. cbn [bind].
    destruct (suffix_loop_first _ _ _ _ _ L) as [n [Hn [-> [F B]]]].
    eexists. split; [reflexivity |]. split; [exact F |].
    split; [discriminate |]. intros _. exists n. repeat split; try lia. exact B.
  - eexists. split; [reflexivity |]. split; [exact E |].
    split; [reflexivity | discriminate].
Qed.

(** C3. The key sanitizer.  From an empty set of used keys the path
    [/etc/Default/useradd!!] gets the key [etc_default_useradd]; a further
    path with that base key then gets [etc_default_useradd_2].  The base
    key is the one of the description (one leading slash dropped,
    lower-cased, runs of other characters collapsed to one underscore,
    underscores trimmed, [root] when nothing is left), and for every path
    and every set of used keys the call returns a key not yet used, equal
    to the base key when that is free and otherwise to the base key with
    the first free suffix [_n], [n >= 2]; the returned set holds exactly
    the old members and the returned key. *)
Theorem sanitize_key_contract (h : hashing) :
  _sanitize_key h (PStr "/etc/Default/useradd!!") []
    = Ok ("etc_default_useradd", ["etc_default_useradd"]) /\
  (forall path : string,
     spec_base_key path = "etc_default_useradd" ->
     exists used',
       _sanitize_key h (PStr path) ["etc_default_useradd"]
         = Ok ("etc_default_useradd_2", used') /\
       forall x, str_mem x used'
                 = String.eqb x "etc_default_useradd_2"
                   || String.eqb x "etc_default_useradd") /\
  spec_base_key "/" = "root" /\ spec_base_key "" = "root" /\
  forall (path : string) (used : list string),
    exists key used',
      _sanitize_key h (PStr path) used = Ok (key, used') /\
      str_mem key used = false /\
      (forall x, str_mem x used' = String.eqb x key || str_mem x used) /\
      (str_mem (spec_base_key path) used = false -> key = spec_base_key path) /\
      (str_mem (spec_base_key path) used = true ->
       exists n, 2 <= n /\
         key = (spec_base_key path ++ "_" ++ Str.of_nat n)%string /\
         forall m, 2 <= m < n ->
           str_mem (spec_base_key path ++ "_" ++ Str.of_nat m)%string used = true).
Proof.
  split; [| split; [| split; [| split]]].
  - destruct (sanitize_key_str h "/etc/Default/useradd!!" []) as [key [H [_ [Hb _]]]].
    rewrite H, (Hb eq_refl), str_add_empty. reflexivity.
  - intros path Hp.
    destruct (sanitize_key_str h path ["etc_default_useradd"]) as [key [H [F [_ Hc]]]].
    rewrite Hp in Hc. destruct (Hc eq_refl) as [n [Hn [Hk Hm]]].
    assert (n = 2) as ->.
    { destruct (Nat.eq_dec n 2) as [| Hne]; [assumption |].
      specialize (Hm 2 ltac:(lia)). vm_compute in Hm. discriminate. }
    subst key.
    exists (str_add h "etc_default_useradd_2" ["etc_default_useradd"]).
    split; [exact H |].
    intros x. rewrite str_mem_add. unfold str_mem, set_mem. simpl.
    now rewrite orb_false_r.
  - reflexivity.
  - reflexivity.
  - intros path used.
    destruct (sanitize_key_str h path used) as [key [H [F [Hb Hc]]]].
    exists key, (str_add h key used). split; [exact H |]. split; [exact F |].
    split; [intros x; apply str_mem_add |]. split; assumption.
Qed.

Lemma sanitize_key_contract_witness :
  exists key used' n,
    _sanitize_key hash_back (PStr "/etc//default/USERADD ") ["etc_default_useradd"]
      = Ok (key, used') /\
    2 <= n /\ key = ("etc_default_useradd" ++ "_" ++ Str.of_nat n)%string.
Proof.
  destruct (proj2 (proj2 (proj2 (proj2 (sanitize_key_contract hash_back))))
              "/etc//default/USERADD " ["etc_default_useradd"])
    as [key [used' [H [_ [_ [_ Hc]]]]]].
  destruct (Hc eq_refl) as [n [Hn [Hk _]]].
  exists key, used', n. repeat split; assumption.
Defined.

(** ** Link resolution *)

Lemma startswith_slash (s : string) :
  Str.startswith "/" s = true <-> exists r, s = String "/" r.
Proof.
  split.
  - destruct s as [| c r]; cbn [Str.startswith]; [discriminate |].
    rewrite andb_true_r. intros E. apply Ascii.eqb_eq in E. subst c. now exists r.
  - intros [r E]. subst s. reflexivity.
Qed.

Lemma link_dir_absolute (link_path : pyval) :
  Str.startswith "/" (link_dir link_path) = true.
Proof.
  unfold link_dir.
  destruct (Str.startswith "/"
              (str_or (posixpath.dirname (str_or (py_str link_path) "/")) "/")) eqn:E;
    cbn [negb]; [exact E |].
  apply startswith_slash. eexists. reflexivity.
Qed.

Lemma strip_keeps_slash (s : string) :
  Str.startswith "/" s = true -> Str.startswith "/" (Str.strip s) = true.
Proof.
  intros H. apply startswith_slash in H as [r ->].
  unfold Str.strip, Str.strip_by. cbn [Str.lstrip_by].
  replace (Str.is_space "/") with false by reflexivity.
  rewrite rstrip_by_cons. apply startswith_slash. unfold rcons.
  replace (Str.is_space "/") with false by reflexivity.
  destruct (Str.rstrip_by Str.is_space r); eexists; reflexivity.
Qed.

Lemma join_absolute (a b : string) :
  Str.startswith "/" a = true -> Str.startswith "/" (posixpath.join a b) = true.
Proof.
  intros H. unfold posixpath.join.
  destruct (Str.startswith "/" b) eqn:Eb; [exact Eb |].
  apply startswith_slash in H as [r ->].
  destruct (_ || _); apply startswith_slash; eexists; reflexivity.
Qed.

Lemma normpath_absolute (p : string) :
  Str.startswith "/" p = true -> Str.startswith "/" (posixpath.normpath p) = true.
Proof.
  intros H. unfold posixpath.normpath, posixpath.count_initial_slashes.
  rewrite H. apply startswith_slash in H as [r ->]. cbn [String.eqb].
  replace (Ascii.eqb "/" "/") with true by reflexivity.
  destruct (Str.startswith "//" (String "/" r) && negb (Str.startswith "///" (String "/" r)));
    reflexivity.
Qed.

Lemma abs_link_src_cases (linkto link_path : pyval) :
  _abs_link_src linkto link_path =
  if negb (truthy linkto) then None
  else if Str.startswith "/" (Str.strip (py_str linkto))
       then Some (posixpath.normpath (Str.strip (py_str linkto)))
       else Some (posixpath.normpath
                    (posixpath.join (link_dir link_path) (Str.strip (py_str linkto)))).
Proof. reflexivity. Qed.

Lemma rfind_from_none (d : ascii) (s : string) (pos best : Z) :
  Str.contains_char d s = false -> Str.rfind_from d s pos best = best.
Proof.
  revert pos best. induction s as [| c r IH]; intros pos best; cbn [Str.contains_char Str.rfind_from];
    [reflexivity |].
  intros H. apply orb_false_iff in H as [E Hr]. rewrite E. now apply IH.
Qed.

Lemma dirname_no_slash (s : string) :
  Str.contains_char "/" s = false -> posixpath.dirname s = "".
Proof.
  intros H. unfold posixpath.dirname, Str.rfind. rewrite (rfind_from_none _ _ _ _ H).
  unfold Str.slice_to. cbn [Z.add Z.to_nat Z.opp Z.pos_sub].
  replace (substring 0 0 s) with "" by (destruct s; reflexivity). reflexivity.
Qed.

Lemma link_dir_dirname (s : string) :
  link_dir (PStr s)
  = if Str.startswith "/" (posixpath.dirname s) then posixpath.dirname s
    else ("/" ++ posixpath.dirname s)%string.
Proof.
  unfold link_dir. cbn [py_str].
  destruct s as [| c0 s0]; [reflexivity |].
  change (str_or (String c0 s0) "/") with (String c0 s0).
  remember (posixpath.dirname (String c0 s0)) as d eqn:Ed. clear Ed.
  destruct d as [| c d]; [reflexivity |].
  unfold str_or. cbn [String.eqb].
  destruct (Str.startswith "/" (String c d)) eqn:E; cbn [negb]; [reflexivity |].
  cbn [Str.startswith] in E. rewrite andb_true_r in E.
  cbn [Str.lstrip_by]. unfold posixpath.is_sep, Str.is_char.
  rewrite Ascii.eqb_sym, E. reflexivity.
Qed.

(** C4, as stated, fails.  The target is trimmed of surrounding white
    space before it is looked at: a target that starts with a slash is not
    the normal form of the target itself ([/bin/bash] followed by a space
    gives [/bin/bash]), and a target that does not start with a slash is
    not always joined to the directory of the link path (a space followed
    by [/x] gives [/x]). *)
Lemma abs_link_src_untrimmed_counterexample :
  ~ (forall (target : string) (link_path : pyval),
       Str.startswith "/" target = true ->
       _abs_link_src (PStr target) link_path = Some (posixpath.normpath target)) /\
  ~ (forall (target : string) (link_path : pyval),
       target <> "" -> Str.startswith "/" target = false ->
       _abs_link_src (PStr target) link_path
       = Some (posixpath.normpath (posixpath.join (link_dir link_path) target))).
Proof.
  split; intros H.
  - specialize (H "/bin/bash " PNone eq_refl). vm_compute in H. discriminate H.
  - assert (Hne : " /x" <> "") by discriminate.
    specialize (H " /x" (PStr "/usr/sbin/service") Hne eq_refl).
    vm_compute in H. discriminate H.
Qed.

(** C4, amended.  Link resolution is a function of the two values alone.
    A target that is absent or falsy (the empty string included) gives no
    result.  Any other target is first trimmed of surrounding white space.
    When the trimmed target starts with a slash the result is its normal
    form, whatever the link path: [/bin/bash] gives [/bin/bash].  When it
    does not (the empty string left of a blank target included) it is
    joined to the directory of the link path and normalized.  That
    directory is [dirname] of the link path with a slash put in front when
    it has none, so it is [/] for a link path that is empty or has no
    directory part and it always begins with a slash; so does every
    result.  Target [../bin/sh] with link path [/usr/sbin/service] gives
    [/usr/bin/sh]. *)
Theorem abs_link_src_lexical :
  (forall linkto link_path : pyval,
     truthy linkto = false -> _abs_link_src linkto link_path = None) /\
  (forall link_path : pyval,
     _abs_link_src PNone link_path = None /\
     _abs_link_src (PStr "") link_path = None) /\
  (forall (target : string) (link_path : pyval),
     target <> "" ->
     Str.startswith "/" (Str.strip target) = true ->
     _abs_link_src (PStr target) link_path
       = Some (posixpath.normpath (Str.strip target))) /\
  (forall link_path : pyval,
     _abs_link_src (PStr "/bin/bash") link_path = Some "/bin/bash") /\
  (forall (target : string) (link_path : pyval),
     target <> "" ->
     Str.startswith "/" (Str.strip target) = false ->
     _abs_link_src (PStr target) link_path
       = Some (posixpath.normpath
                 (posixpath.join (link_dir link_path) (Str.strip target)))) /\
  (forall link_path : pyval, Str.startswith "/" (link_dir link_path) = true) /\
  (forall link_path : string,
     link_dir (PStr link_path)
     = if Str.startswith "/" (posixpath.dirname link_path)
       then posixpath.dirname link_path
       else ("/" ++ posixpath.dirname link_path)%string) /\
  (forall link_path : string,
     Str.contains_char "/" link_path = false -> link_dir (PStr link_path) = "/") /\
  (forall (linkto link_path : pyval) (r : string),
     _abs_link_src linkto link_path = Some r -> Str.startswith "/" r = true) /\
  link_dir (PStr "/usr/sbin/service") = "/usr/sbin" /\
  link_dir (PStr "usr/sbin/service") = "/usr/sbin" /\
  _abs_link_src (PStr "../bin/sh") (PStr "/usr/sbin/service") = Some "/usr/bin/sh".
Proof.
  repeat match goal with |- _ /\ _ => split end; try reflexivity.
  - intros linkto link_path H. rewrite abs_link_src_cases. now rewrite H.
  - intros link_path. split; reflexivity.
  - intros target link_path Hne H. rewrite abs_link_src_cases.
    cbn [truthy py_str]. apply String.eqb_neq in Hne. rewrite Hne. cbn [negb].
    now rewrite H.
  - intros target link_path Hne Hrel. rewrite abs_link_src_cases.
    cbn [truthy py_str]. apply String.eqb_neq in Hne. rewrite Hne. cbn [negb].
    now rewrite Hrel.
  - apply link_dir_absolute.
  - apply link_dir_dirname.
  - intros link_path H. rewrite link_dir_dirname, (dirname_no_slash _ H). reflexivity.
  - intros linkto link_path r. rewrite abs_link_src_cases.
    destruct (negb (truthy linkto)); [discriminate |].
    destruct (Str.startswith "/" (Str.strip (py_str linkto))) eqn:E;
      intros H; inversion H; subst r; apply normpath_absolute.
    + exact E.
    + apply join_absolute, link_dir_absolute.
Qed.

Lemma abs_link_src_lexical_witness :
  _abs_link_src (PStr " /x") (PStr "/usr/sbin/service") = Some "/x" /\
  _abs_link_src (PStr "/bin//bash ") PNone = Some "/bin/bash" /\
  _abs_link_src (PStr "lib ") (PStr "/usr/sbin/service") = Some "/usr/sbin/lib" /\
  _abs_link_src (PStr " ../bin/sh ") (PStr "usr/sbin/service") = Some "/usr/bin/sh" /\
  link_dir (PStr "service") = "/" /\
  _abs_link_src (PInt 0) (PStr "/usr/sbin/service") = None.
Proof.
  destruct abs_link_src_lexical as [Hnone [_ [Habs [_ [Hrel [_ [_ [Hdir _]]]]]]]].
  split; [apply (Habs " /x" (PStr "/usr/sbin/service")); [discriminate | reflexivity] |].
  split; [apply (Habs "/bin//bash " PNone); [discriminate | reflexivity] |].
  split; [apply (Hrel "lib " (PStr "/usr/sbin/service")); [discriminate | reflexivity] |].
  split; [apply (Hrel " ../bin/sh " (PStr "usr/sbin/service")); [discriminate | reflexivity] |].
  split; [apply (Hdir "service"); reflexivity |].
  apply (Hnone (PInt 0) (PStr "/usr/sbin/service")). reflexivity.
Defined.

(** ** A target of white space only *)

Lemma lstrip_all (p : ascii -> bool) (s : string) :
  Str.all_chars p s = true -> Str.lstrip_by p s = "".
Proof.
  induction s as [| c s IH]; simpl; [reflexivity |].
  destruct (p c); simpl; [exact IH | discriminate].
Qed.

Lemma strip_blank (s : string) :
  Str.all_chars Str.is_space s = true -> Str.strip s = "".
Proof.
  intros H. unfold Str.strip, Str.strip_by. now rewrite lstrip_all.
Qed.

Lemma split_nonempty (d : ascii) (s : string) : Str.split d s <> [].
Proof.
  destruct s as [| c s]; simpl; [discriminate |].
  destruct (Ascii.eqb c d); [discriminate |].
  destruct (Str.split d s); discriminate.
Qed.

Lemma split_trailing_sep (d : ascii) (s : string) :
  Str.split d (s ++ String d "") = Str.split d s ++ [""].
Proof.
  induction s as [| c s IH]; simpl.
  - now rewrite Ascii.eqb_refl.
  - destruct (Ascii.eqb c d); [now rewrite IH |].
    rewrite IH. pose proof (split_nonempty d s) as Hn.
    destruct (Str.split d s); [contradiction | reflexivity].
Qed.

Lemma count_initial_slashes_trailing (b : string) :
  Str.startswith "/" b = true ->
  Str.ends_with_char "/" b = false ->
  posixpath.count_initial_slashes (b ++ "/") = posixpath.count_initial_slashes b.
Proof.
  intros Hs He. apply startswith_slash in Hs as [r ->].
  unfold posixpath.count_initial_slashes.
  destruct r as [| c1 r]; [discriminate |].
  destruct r as [| c2 r].
  - cbn [Str.ends_with_char] in He. cbn [append Str.startswith].
    rewrite (Ascii.eqb_sym "/" c1), He. reflexivity.
  - cbn [append Str.startswith]. reflexivity.
Qed.

(** A slash added at the end does not change the normal form. *)
Lemma normpath_trailing_slash (b : string) :
  Str.startswith "/" b = true ->
  Str.ends_with_char "/" b = false ->
  posixpath.normpath (b ++ "/") = posixpath.normpath b.
Proof.
  intros Hs He. unfold posixpath.normpath.
  rewrite (count_initial_slashes_trailing b Hs He), split_trailing_sep, fold_left_app.
  apply startswith_slash in Hs as [r ->]. reflexivity.
Qed.

Lemma join_empty_normpath (b : string) :
  Str.startswith "/" b = true ->
  posixpath.normpath (posixpath.join b "") = posixpath.normpath b.
Proof.
  intros Hs. unfold posixpath.join. cbn [Str.startswith].
  destruct (Str.ends_with_char "/" b) eqn:He.
  - rewrite orb_true_r. now rewrite append_nil_r.
  - apply startswith_slash in Hs as Hr. destruct Hr as [r ->].
    cbn [String.eqb orb]. now apply normpath_trailing_slash.
Qed.

(** C10. A target made of white space only.  Such a target is not empty,
    so the emptiness test lets it through; trimmed, it is the empty
    relative path, and the result is present: the normal form of the
    directory of the link path.  Target of two spaces with link path
    [/usr/sbin/service] gives [/usr/sbin], where the empty target gives
    no result. *)
Theorem abs_link_src_blank_target (target : string) (link_path : pyval) :
  target <> "" ->
  Str.all_chars Str.is_space target = true ->
  _abs_link_src (PStr target) link_path
    = Some (posixpath.normpath (link_dir link_path)) /\
  _abs_link_src (PStr "") link_path = None /\
  _abs_link_src (PStr "  ") (PStr "/usr/sbin/service") = Some "/usr/sbin".
Proof.
  intros Hne Hsp. split; [| split; reflexivity].
  rewrite abs_link_src_cases. cbn [truthy py_str].
  apply String.eqb_neq in Hne. rewrite Hne. cbn [negb].
  rewrite (strip_blank target Hsp). cbn [Str.startswith].
  f_equal. apply join_empty_normpath, link_dir_absolute.
Qed.

Lemma abs_link_src_blank_target_witness :
  _abs_link_src (PStr "  ") (PStr "/usr/sbin/service")
    = Some (posixpath.normpath (link_dir (PStr "/usr/sbin/service"))) /\
  _abs_link_src (PStr "") (PStr "/usr/sbin/service") = None /\
  _abs_link_src (PStr "  ") (PStr "/usr/sbin/service") = Some "/usr/sbin".
Proof.
  apply (abs_link_src_blank_target "  " (PStr "/usr/sbin/service")).
  - discriminate.
  - reflexivity.
Defined.

(** ** Classification *)

(** C5. Classification priority.  The first rule that applies decides:
    the flag [config] gives [configuration]; failing that the flag
    [license] gives [licenses]; failing that the flag [doc] gives [docs];
    failing that a type that lower-cases to [link] gives [general]; and
    everything else is [artifacts].  So flags [config] and [doc] together
    give [configuration], no flags with type [link] gives [general], and no
    flags with type [file] gives [artifacts]. *)
Theorem category_for_priority (h : hashing) (entry : dict) :
  (has_flag "config" entry = true -> _category_for h entry = "configuration") /\
  (has_flag "config" entry = false -> has_flag "license" entry = true ->
   _category_for h entry = "licenses") /\
  (has_flag "config" entry = false -> has_flag "license" entry = false ->
   has_flag "doc" entry = true -> _category_for h entry = "docs") /\
  (has_flag "config" entry = false -> has_flag "license" entry = false ->
   has_flag "doc" entry = false -> type_is_link entry = true ->
   _category_for h entry = "general") /\
  (has_flag "config" entry = false -> has_flag "license" entry = false ->
   has_flag "doc" entry = false -> type_is_link entry = false ->
   _category_for h entry = "artifacts") /\
  (dict_get entry "flags" = PList [PStr "config"; PStr "doc"] ->
   _category_for h entry = "configuration") /\
  (dict_get entry "flags" = PList [] -> dict_get entry "type" = PStr "link" ->
   _category_for h entry = "general") /\
  (dict_get entry "flags" = PList [] -> dict_get entry "type" = PStr "file" ->
   _category_for h entry = "artifacts").
Proof.
  rewrite category_for_unfold.
  repeat match goal with |- _ /\ _ => split end.
  - now intros ->.
  - now intros -> ->.
  - now intros -> -> ->.
  - now intros -> -> -> ->.
  - now intros -> -> -> ->.
  - intros Hf. unfold has_flag. now rewrite Hf.
  - intros Hf Ht. unfold has_flag, type_is_link. now rewrite Hf, Ht.
  - intros Hf Ht. unfold has_flag, type_is_link. now rewrite Hf, Ht.
Qed.

Lemma category_for_priority_witness :
  _category_for hash_front sample_conf = "configuration" /\
  _category_for hash_front sample_flags = "licenses" /\
  _category_for hash_back [("flags", PList [PStr "Doc"]); ("type", PStr "link")] = "docs" /\
  _category_for hash_back sample_link = "general" /\
  _category_for hash_back [("type", PStr "file"); ("flags", PList [])] = "artifacts".
Proof.
  destruct (category_for_priority hash_front sample_conf) as [H1 _].
  destruct (category_for_priority hash_front sample_flags) as [_ [H2 _]].
  destruct (category_for_priority hash_back
              [("flags", PList [PStr "Doc"]); ("type", PStr "link")])
    as [_ [_ [H3 _]]].
  destruct (category_for_priority hash_back sample_link) as [_ [_ [_ [H4 _]]]].
  destruct (category_for_priority hash_back
              [("type", PStr "file"); ("flags", PList [])])
    as [_ [_ [_ [_ [H5 [_ [_ H6]]]]]]].
  split; [apply H1; reflexivity |].
  split; [apply H2; reflexivity |].
  split; [apply H3; reflexivity |].
  split; [apply H4; reflexivity |].
  apply H6; reflexivity.
Defined.

(** C8, as stated, fails: a record whose flags are a set holding [config]
    is not classified [configuration]. *)
Lemma category_for_set_flags_counterexample :
  ~ (forall (h : hashing) (entry : dict) (l : list pyval),
       dict_get entry "flags" = PSet l -> In (PStr "config") l ->
       _category_for h entry = "configuration").
Proof.
  intros H.
  specialize (H hash_front [("flags", PSet [PStr "config"])] [PStr "config"]
                eq_refl (or_introl eq_refl)).
  discriminate H.
Qed.

Lemma has_flag_other (name : string) (entry : dict) :
  (forall l, dict_get entry "flags" <> PList l) ->
  (forall l, dict_get entry "flags" <> PTuple l) ->
  has_flag name entry = false.
Proof.
  intros Hl Ht. unfold has_flag, py_or.
  destruct (dict_get entry "flags") as [| b | z | s | l | l | l | d] eqn:E;
    try (destruct (truthy _); reflexivity).
  - now elim (Hl l).
  - now elim (Ht l).
Qed.

Lemma has_flag_listed (name : string) (entry : dict) (l : list pyval) :
  dict_get entry "flags" = PList l \/ dict_get entry "flags" = PTuple l ->
  In (PStr name) l -> Str.lower name = name ->
  has_flag name entry = true.
Proof.
  intros Hf Hin Hlow. unfold has_flag, py_or.
  assert (Ht : match l with [] => false | _ => true end = true)
    by (destruct l; [contradiction | reflexivity]).
  destruct Hf as [-> | ->]; cbn [truthy]; rewrite Ht;
    apply existsb_exists; exists (PStr name); (split; [assumption |]);
    cbn [py_str]; rewrite Hlow; apply String.eqb_refl.
Qed.

(** C8, amended.  Only a list or a tuple of flags is read.  Any other flags
    value, a set included, counts as no flags at all, so that the record is
    classified by its type alone; a list or tuple that holds the tag
    [config] gives [configuration]. *)
Theorem category_for_flags_container (h : hashing) (entry : dict) :
  (forall l : list pyval,
     dict_get entry "flags" = PList l \/ dict_get entry "flags" = PTuple l ->
     In (PStr "config") l -> _category_for h entry = "configuration") /\
  ((forall l, dict_get entry "flags" <> PList l) ->
   (forall l, dict_get entry "flags" <> PTuple l) ->
   _category_for h entry = if type_is_link entry then "general" else "artifacts") /\
  (forall l : list pyval,
     dict_get entry "flags" = PSet l ->
     _category_for h entry = if type_is_link entry then "general" else "artifacts").
Proof.
  rewrite category_for_unfold. split; [| split].
  - intros l Hf Hin. now rewrite (has_flag_listed "config" entry l Hf Hin eq_refl).
  - intros Hl Ht. now rewrite !has_flag_other.
  - intros l Hs. rewrite !has_flag_other; try reflexivity;
      intros l'; rewrite Hs; discriminate.
Qed.

Lemma category_for_flags_container_witness :
  _category_for hash_front [("flags", PTuple [PStr "doc"; PStr "config"])]
    = "configuration" /\
  _category_for hash_front [("flags", PSet [PStr "config"]); ("type", PStr "Link")]
    = "general" /\
  _category_for hash_front [("flags", PStr "config")] = "artifacts".
Proof.
  split; [| split].
  - apply (proj1 (category_for_flags_container hash_front
                    [("flags", PTuple [PStr "doc"; PStr "config"])])
             [PStr "doc"; PStr "config"]).
    + right. reflexivity.
    + right. left. reflexivity.
  - apply (proj2 (proj2 (category_for_flags_container hash_front
                    [("flags", PSet [PStr "config"]); ("type", PStr "Link")]))
             [PStr "config"]).
    reflexivity.
  - apply (proj1 (proj2 (category_for_flags_container hash_front
                    [("flags", PStr "config")]))); intros l; discriminate.
Defined.

(** ** Merging the file lists of several packages *)

Lemma hkey_eqb_eq (a b : hkey) : hkey_eqb a b = true <-> a = b.
Proof.
  revert b. induction a as [| z | s | l IH] using hkey_nested_ind; intros b.
  - destruct b; simpl; split; intros H; try discriminate; reflexivity.
  - destruct b; simpl; split; intros H; try discriminate.
    + apply Z.eqb_eq in H. now subst.
    + inversion H. apply Z.eqb_refl.
  - destruct b; simpl; split; intros H; try discriminate.
    + apply String.eqb_eq in H. now subst.
    + inversion H. apply String.eqb_refl.
  - destruct b as [| | | l']; simpl; try (split; intros H; discriminate).
    revert l'. induction IH as [| x l Hx _ IHl]; intros l'.
    + destruct l'; split; intros H; try discriminate; reflexivity.
    + destruct l' as [| y l']; [split; intros H; discriminate |].
      rewrite andb_true_iff, Hx, IHl. split.
      * intros [-> H]. now inversion H.
      * intros H. inversion H. auto.
Qed.

Lemma key_mem_add (h : hashing) (x y : hkey) (s : list hkey) :
  key_mem y (key_add h x s) = hkey_eqb y x || key_mem y s.
Proof. apply set_mem_add, hkey_eqb_eq. Qed.

Lemma merge_file_first_seen (h : hashing) (seen : list hkey) (out : list dict)
  (d : dict) :
  field_ok (dict_get d "path") = true ->
  seen_tracks seen out ->
  exists seen',
    merge_file h (seen, out) (PDict d) = Ok (seen', first_seen out [d]) /\
    seen_tracks seen' (first_seen out [d]).
Proof.
  intros Hok Htr. unfold merge_file, path_str, first_seen. cbn [py_as_dict bind].
  unfold path_str.
  destruct (dict_get d "path") as [| b | z | s | l | l | l | p] eqn:E;
    cbn [field_ok truthy negb] in Hok |- *;
    try (rewrite Hok; cbn [negb]);
    try (exists seen; split; [reflexivity | exact Htr]).
  destruct (String.eqb s "") eqn:Es; cbn [negb andb py_hash_key bind].
  - exists seen. split; [reflexivity | exact Htr].
  - rewrite (Htr s). unfold path_str.
    destruct (existsb _ out) eqn:Ex; cbn [negb].
    + exists seen. split; [reflexivity | exact Htr].
    + exists (key_add h (KStr s) seen). split; [reflexivity |].
      intros x. rewrite key_mem_add, existsb_app, (Htr x). cbn [existsb hkey_eqb].
      assert (Hd : path_str d = s) by (unfold path_str; now rewrite E).
      rewrite Hd, orb_false_r, (String.eqb_sym s x). apply orb_comm.
Qed.

Lemma first_seen_app (kept xs ys : list dict) :
  first_seen kept (xs ++ ys) = first_seen (first_seen kept xs) ys.
Proof.
  revert kept. induction xs as [| x xs IH]; intros kept; simpl; [reflexivity |].
  destruct (_ && _); apply IH.
Qed.

Lemma merge_pkg_first_seen (h : hashing) (seen : list hkey) (out : list dict)
  (pkg : dict) :
  pkg_ok pkg = true ->
  seen_tracks seen out ->
  exists seen',
    merge_pkg h (seen, out) pkg = Ok (seen', first_seen out (files_of pkg)) /\
    seen_tracks seen' (first_seen out (files_of pkg)).
Proof.
  unfold pkg_ok, files_of, merge_pkg.
  assert (G : forall l seen out,
    forallb (fun f => match f with
                      | PDict d => field_ok (dict_get d "path")
                      | _ => false
                      end) l = true ->
    seen_tracks seen out ->
    exists seen',
      for_each (merge_file h) l (seen, out)
        = Ok (seen', first_seen out
                       (flat_map (fun f => match f with PDict d => [d] | _ => [] end) l)) /\
      seen_tracks seen'
        (first_seen out (flat_map (fun f => match f with PDict d => [d] | _ => [] end) l))).
  { clear seen out. induction l as [| f l IH]; intros seen out Hall Htr.
    - exists seen. split; [reflexivity | exact Htr].
    - cbn [forallb] in Hall. apply andb_true_iff in Hall as [Hf Hl].
      destruct f as [| | | | | | | d]; try discriminate.
      destruct (merge_file_first_seen h seen out d Hf Htr) as [seen1 [E1 T1]].
      destruct (IH seen1 (first_seen out [d]) Hl T1) as [seen2 [E2 T2]].
      exists seen2. cbn [for_each flat_map]. rewrite E1. cbn [bind].
      rewrite (first_seen_app out [d]). split; assumption. }
  destruct (py_or (dict_get pkg "files") (PList [])) as [| b | z | s | l | l | l | d];
    try discriminate; cbn [py_iter bind]; apply G.
Qed.

Lemma merge_first_seen (h : hashing) (pkg_objs : list dict) :
  forallb pkg_ok pkg_objs = true ->
  _merge_files_from_packages h pkg_objs
    = Ok (first_seen [] (flat_map files_of pkg_objs)).
Proof.
  unfold _merge_files_from_packages.
  assert (G : forall seen out,
    forallb pkg_ok pkg_objs = true ->
    seen_tracks seen out ->
    exists seen',
      for_each (merge_pkg h) pkg_objs (seen, out)
        = Ok (seen', first_seen out (flat_map files_of pkg_objs))).
  { induction pkg_objs as [| pkg pkgs IH]; intros seen out Hall Htr.
    - exists seen. reflexivity.
    - cbn [forallb] in Hall. apply andb_true_iff in Hall as [Hp Hps].
      destruct (merge_pkg_first_seen h seen out pkg Hp Htr) as [seen1 [E1 T1]].
      destruct (IH seen1 _ Hps T1) as [seen2 E2].
      exists seen2. cbn [for_each flat_map]. rewrite E1. cbn [bind].
      now rewrite first_seen_app. }
  intros Hall. destruct (G [] [] Hall) as [seen' E]; [intros s; reflexivity |].
  now rewrite E.
Qed.

Lemma find_app_some {A : Type} (p : A -> bool) (l1 l2 : list A) (x : A) :
  find p l1 = Some x -> find p (l1 ++ l2) = Some x.
Proof.
  induction l1 as [| a l1 IH]; simpl; [discriminate |].
  destruct (p a); [trivial | exact IH].
Qed.

Lemma find_app_none {A : Type} (p : A -> bool) (l1 l2 : list A) :
  find p l1 = None -> find p (l1 ++ l2) = find p l2.
Proof.
  induction l1 as [| a l1 IH]; simpl; [reflexivity |].
  destruct (p a); [discriminate | exact IH].
Qed.

Lemma merge_inv_step (done kept : list dict) (f : dict) :
  merge_inv done kept -> merge_inv (done ++ [f]) (first_seen kept [f]).
Proof.
  intros [Hnd [Hk Hd]]. cbn [first_seen].
  assert (Hold : forall r, In r kept ->
            path_str r <> "" /\ find (same_path r) (done ++ [f]) = Some r).
  { intros r Hr. destruct (Hk r Hr) as [Hne Hf].
    split; [exact Hne | now apply find_app_some]. }
  destruct (String.eqb (path_str f) "") eqn:Ee; cbn [negb andb].
  - apply String.eqb_eq in Ee.
    split; [exact Hnd |]. split; [exact Hold |].
    intros g Hg Hne. apply in_app_iff in Hg as [Hg | [Hg | []]]; [now apply Hd |].
    subst g. contradiction.
  - apply String.eqb_neq in Ee.
    destruct (existsb (fun k => String.eqb (path_str k) (path_str f)) kept) eqn:Ex;
      cbn [negb].
    + apply existsb_exists in Ex as [k [Hin Hp]]. apply String.eqb_eq in Hp.
      split; [exact Hnd |]. split; [exact Hold |].
      intros g Hg Hne. apply in_app_iff in Hg as [Hg | [Hg | []]]; [now apply Hd |].
      subst g. now exists k.
    + assert (Hfresh : forall k, In k kept -> path_str k <> path_str f).
      { intros k Hin Hp. apply String.eqb_eq in Hp.
        assert (Ht : existsb (fun k => String.eqb (path_str k) (path_str f)) kept = true)
          by (apply existsb_exists; now exists k).
        congruence. }
      split; [| split].
      * rewrite map_app. cbn [map].
        apply (Permutation_NoDup (Permutation_cons_append _ _)).
        constructor; [| exact Hnd].
        intros Hin. apply in_map_iff in Hin as [k [Hp Hin]]. now apply (Hfresh k).
      * intros r Hr. apply in_app_iff in Hr as [Hr | [Hr | []]]; [now apply Hold |].
        subst r. split; [exact Ee |].
        rewrite find_app_none.
        -- cbn [find]. unfold same_path. now rewrite String.eqb_refl.
        -- destruct (find (same_path f) done) as [g |] eqn:Ef; [| reflexivity].
           apply find_some in Ef as [Hg Hp]. unfold same_path in Hp.
           apply String.eqb_eq in Hp.
           destruct (Hd g Hg ltac:(congruence)) as [r [Hr Hrp]].
           exfalso. apply (Hfresh r Hr). congruence.
      * intros g Hg Hne. apply in_app_iff in Hg as [Hg | [Hg | []]].
        -- destruct (Hd g Hg Hne) as [r [Hr Hrp]]. exists r.
           split; [apply in_app_iff; now left | exact Hrp].
        -- subst g. exists f. split; [apply in_app_iff; right; now left | reflexivity].
Qed.

Lemma merge_inv_first_seen (rest done kept : list dict) :
  merge_inv done kept -> merge_inv (done ++ rest) (first_seen kept rest).
Proof.
  revert done kept. induction rest as [| f rest IH]; intros done kept H.
  - now rewrite app_nil_r.
  - change (f :: rest) with ([f] ++ rest).
    rewrite first_seen_app, app_assoc. apply IH. now apply merge_inv_step.
Qed.

(** C6. Merge of package objects.  Packages are read in input order and
    each package's records in input order.  The result is the list the
    description defines: a record is kept exactly when its path is not
    empty and is not (as a string) the path of a record kept before.  So
    no two kept records share a path, every kept record is the first
    record of the input with its path (its metadata is the one that
    survives), every non-empty path of the input is represented, and the
    kept records come in first-seen order.  With [/etc/foo.conf] listed by
    two packages under different modes, the first package's record is
    kept. *)
Theorem merge_files_first_seen (h : hashing) (pkg_objs : list dict) :
  (forallb pkg_ok pkg_objs = true ->
   exists out : list dict,
     _merge_files_from_packages h pkg_objs = Ok out /\
     out = first_seen [] (flat_map files_of pkg_objs) /\
     NoDup (map path_str out) /\
     (forall r, In r out ->
        path_str r <> "" /\
        find (same_path r) (flat_map files_of pkg_objs) = Some r) /\
     (forall f, In f (flat_map files_of pkg_objs) -> path_str f <> "" ->
        exists r, In r out /\ path_str r = path_str f)) /\
  _merge_files_from_packages h [pkg_first; pkg_second]
    = Ok [[("path", PStr "/etc/foo.conf"); ("mode", PStr "0644")];
          [("path", PStr "/usr/bin/foo"); ("mode", PStr "0755")];
          [("path", PStr "/usr/lib/libfoo.so"); ("mode", PStr "0755")]].
Proof.
  split.
  - intros Hok. exists (first_seen [] (flat_map files_of pkg_objs)).
    split; [now apply merge_first_seen |]. split; [reflexivity |].
    apply (merge_inv_first_seen (flat_map files_of pkg_objs) [] []).
    split; [constructor |]. split; [intros r [] | intros f []].
  - now rewrite merge_first_seen.
Qed.

Lemma merge_files_first_seen_witness :
  exists out : list dict,
    _merge_files_from_packages hash_front [pkg_first; pkg_second] = Ok out /\
    NoDup (map path_str out) /\
    find (same_path [("path", PStr "/etc/foo.conf")])
         (flat_map files_of [pkg_first; pkg_second])
      = Some [("path", PStr "/etc/foo.conf"); ("mode", PStr "0644")].
Proof.
  destruct (proj1 (merge_files_first_seen hash_front [pkg_first; pkg_second]) eq_refl)
    as [out [H [Ho [Hn [Hk _]]]]].
  exists out. split; [exact H |]. split; [exact Hn |].
  apply (Hk [("path", PStr "/etc/foo.conf"); ("mode", PStr "0644")]).
  rewrite Ho. left. reflexivity.
Defined.

(** ** The item builder *)

Lemma build_item_shape (entry : dict) (it : config_item) :
  _build_item entry = Ok it ->
  exists (state : string) (rest : config_item),
    _state_from_type (dict_get entry "type") = Ok state /\
    it = [("follow", PBool false); ("force", PBool true);
          ("group", py_or (dict_get entry "group") (PStr "root"));
          ("mode", PStr (str_unless_none (dict_get entry "mode")));
          ("owner", py_or (dict_get entry "owner") (PStr "root"));
          ("path", py_or (dict_get entry "path") (PStr ""));
          ("state", PStr state)] ++ rest /\
    (rest = [] \/
     exists src, rest = [("src", PStr src)] /\ state = "link" /\ src <> "" /\
       _abs_link_src (dict_get entry "linkto")
                     (py_or (dict_get entry "path") (PStr "")) = Some src).
Proof.
  unfold _build_item.
  destruct (_state_from_type (dict_get entry "type")) as [state | e |];
    cbn [bind]; try discriminate.
  intros H. exists state.
  destruct (String.eqb state "link") eqn:El.
  - destruct (_abs_link_src (dict_get entry "linkto")
                (py_or (dict_get entry "path") (PStr ""))) as [src |] eqn:Es.
    + destruct (String.eqb src "") eqn:Ee; cbn [negb] in H; inversion H; subst it.
      * exists []. repeat split; try reflexivity. now left.
      * exists [("src", PStr src)]. repeat split; try reflexivity.
        right. exists src. apply String.eqb_eq in El. apply String.eqb_neq in Ee.
        repeat split; assumption.
    + inversion H; subst it. exists []. repeat split; try reflexivity. now left.
  - inversion H; subst it. exists []. repeat split; try reflexivity. now left.
Qed.

(** ** The built-in emitter *)

Lemma prop_lines_emitted (props : config_item) (prop_key : string) :
  prop_lines props prop_key
  = if emitted props prop_key then [prop_line props prop_key] else [].
Proof.
  unfold prop_lines, emitted, prop_line.
  destruct (od_get prop_key props) as [v |]; [| reflexivity].
  destruct (not_blank v); [reflexivity |]. cbn [orb].
  destruct (String.eqb prop_key "follow" || String.eqb prop_key "force"); reflexivity.
Qed.

Lemma flat_map_filter {A B : Type} (p : A -> bool) (f : A -> B) (l : list A) :
  flat_map (fun x => if p x then [f x] else []) l = map f (filter p l).
Proof.
  induction l as [| x l IH]; simpl; [reflexivity |].
  destruct (p x); simpl; now rewrite IH.
Qed.

Lemma join_unlines (l : string) (ls : list string) :
  (Str.join newline (l :: ls) ++ newline)%string = unlines (l :: ls).
Proof.
  unfold Str.join, unlines. revert l.
  induction ls as [| l' ls IH]; intros l.
  - reflexivity.
  - change (String.concat newline (l :: l' :: ls))
      with (l ++ newline ++ String.concat newline (l' :: ls))%string.
    change (String.concat "" (map (fun l0 => (l0 ++ newline)%string) (l :: l' :: ls)))
      with ("" ++ (l ++ newline) ++ 
            String.concat "" (map (fun l0 => (l0 ++ newline)%string) (l' :: ls)))%string at 1.
    rewrite <- IH. cbn [append]. now rewrite !append_assoc.
Qed.

Lemma item_lines_described (entry : string * config_item) :
  item_lines entry = described_item entry.
Proof.
  destruct entry as [key props]. unfold item_lines, described_item. cbn [fst snd].
  f_equal. rewrite <- flat_map_filter. apply flat_map_ext. intros k.
  apply prop_lines_emitted.
Qed.

Lemma category_lines_described (files : files_map) (cat : string) :
  category_lines files cat = described_category files cat.
Proof.
  unfold category_lines, described_category, described_children. f_equal.
  destruct (od_get cat files) as [items |]; [| reflexivity].
  apply flat_map_ext. intros e. apply item_lines_described.
Qed.

Lemma yaml_dump_described (data : document) :
  _yaml_dump data
  = unlines ("files:"
             :: flat_map (described_category
                            (match od_get "files" data with Some f => f | None => [] end))
                         _CATEGORY_ORDER).
Proof.
  unfold _yaml_dump, yaml_lines.
  change (String (ascii_of_nat 10) "") with newline.
  rewrite join_unlines. do 2 f_equal.
  apply flat_map_ext. intros c. apply category_lines_described.
Qed.

Lemma build_yaml_data_files (h : hashing) (files : list dict) (doc : document) :
  _build_yaml_data h files = Ok doc -> exists cats, doc = [("files", cats)].
Proof.
  unfold _build_yaml_data.
  destruct (for_each (build_file h) files _) as [st | e |]; cbn [bind]; try discriminate.
  destruct (collect_categories (snd st)) as [cats | e |]; cbn [bind]; try discriminate.
  intros H. inversion H. now exists cats.
Qed.

(** C7. The built-in emitter.  The text [_yaml_dump] writes, for any
    document and for every document the assembly makes, is the root line,
    then the five category lines in the fixed order, each followed by the
    lines of its items and by nothing when the category is empty or
    missing; every line is closed by a line feed.  An item is its key line
    followed by one line for each property, in the order follow, force,
    group, mode, owner, path, state, src, that is present and whose value
    is neither [None] nor the empty string, or that is present and is
    [follow] or [force]; the items the builder makes always carry [follow]
    and [force], so these two lines are always written, [false] included.
    A property line is the property, a colon and the quoted value: a boolean
    is written as [true] or [false], [None] as an empty quoted string, and
    any other scalar between single quotes with each single quote
    doubled. *)
Theorem yaml_dump_format :
  (forall (data : document) (files : files_map),
     od_get "files" data = Some files ->
     _yaml_dump data
     = unlines
         ("files:"
          :: ("  configuration:" :: described_children files "configuration")
          ++ ("  artifacts:" :: described_children files "artifacts")
          ++ ("  docs:" :: described_children files "docs")
          ++ ("  licenses:" :: described_children files "licenses")
          ++ ("  general:" :: described_children files "general"))) /\
  (forall (h : hashing) (records : list dict) (doc : document),
     _build_yaml_data h records = Ok doc ->
     exists files : files_map,
       doc = [("files", files)] /\
       _yaml_dump doc
       = unlines
           ("files:"
            :: ("  configuration:" :: described_children files "configuration")
            ++ ("  artifacts:" :: described_children files "artifacts")
            ++ ("  docs:" :: described_children files "docs")
            ++ ("  licenses:" :: described_children files "licenses")
            ++ ("  general:" :: described_children files "general"))) /\
  (forall (files : files_map) (cat : string),
     od_get cat files = Some [] \/ od_get cat files = None ->
     described_children files cat = []) /\
  (forall (files : files_map) (cat : string) (items : category_map),
     od_get cat files = Some items ->
     described_children files cat
     = flat_map
         (fun entry =>
            ("    " ++ fst entry ++ ":")%string
            :: map (prop_line (snd entry))
                 (filter (emitted (snd entry))
                    ["follow"; "force"; "group"; "mode"; "owner"; "path"; "state"; "src"]))
         items) /\
  (forall (props : config_item) (prop_key : string),
     emitted props prop_key = true <->
     exists v, od_get prop_key props = Some v /\
               ((v <> PNone /\ v <> PStr "") \/
                prop_key = "follow" \/ prop_key = "force")) /\
  (forall (props : config_item) (prop_key : string) (v : pyval),
     od_get prop_key props = Some v ->
     prop_line props prop_key = ("      " ++ prop_key ++ ": " ++ q v)%string) /\
  (forall (entry : dict) (it : config_item),
     _build_item entry = Ok it ->
     emitted it "follow" = true /\ prop_line it "follow" = "      follow: false" /\
     emitted it "force" = true /\ prop_line it "force" = "      force: true") /\
  (q (PBool true) = "true" /\ q (PBool false) = "false" /\ q PNone = "''" /\
   q (PStr "it's") = "'it''s'" /\ q (PInt 420) = "'420'" /\
   forall v, (forall b, v <> PBool b) -> v <> PNone ->
     q v = ("'" ++ Str.replace_char "'" "''" (py_str v) ++ "'")%string) /\
  (forall h : hashing,
     bind (_build_yaml_data h []) (fun doc => Ok (_yaml_dump doc))
     = Ok ("files:" ++ newline ++ "  configuration:" ++ newline
           ++ "  artifacts:" ++ newline ++ "  docs:" ++ newline
           ++ "  licenses:" ++ newline ++ "  general:" ++ newline)%string).
Proof.
  assert (Htext : forall (data : document) (files : files_map),
            od_get "files" data = Some files ->
            _yaml_dump data
            = unlines
                ("files:"
                 :: ("  configuration:" :: described_children files "configuration")
                 ++ ("  artifacts:" :: described_children files "artifacts")
                 ++ ("  docs:" :: described_children files "docs")
                 ++ ("  licenses:" :: described_children files "licenses")
                 ++ ("  general:" :: described_children files "general"))).
  { intros data files Hf. rewrite yaml_dump_described, Hf.
    unfold _CATEGORY_ORDER, described_category. cbn [flat_map].
    rewrite app_nil_r. reflexivity. }
  repeat match goal with |- _ /\ _ => split end; try reflexivity.
  - exact Htext.
  - intros h records doc Hd.
    destruct (build_yaml_data_files h records doc Hd) as [files ->].
    exists files. split; [reflexivity |]. now apply Htext.
  - intros files cat [Hc | Hc]; unfold described_children; now rewrite Hc.
  - intros files cat items Hc. unfold described_children. now rewrite Hc.
  - intros props prop_key. unfold emitted. split.
    + destruct (od_get prop_key props) as [v |]; [| discriminate].
      intros H. exists v. split; [reflexivity |].
      rewrite !orb_true_iff, !String.eqb_eq in H.
      destruct H as [[H | H] | H]; auto.
      left. destruct v as [| | | s | | | |]; try discriminate; try (split; discriminate).
      split; [discriminate |]. intros E. inversion E; subst s. discriminate.
    + intros [v [Hv H]]. rewrite Hv.
      rewrite !orb_true_iff, !String.eqb_eq.
      destruct H as [[Hn He] | [H | H]]; auto.
      left. left. destruct v as [| | | s | | | |]; try reflexivity; try contradiction.
      cbn [not_blank]. destruct (String.eqb_spec s ""); [subst; contradiction | reflexivity].
  - intros props prop_key v Hv. unfold prop_line. now rewrite Hv.
  - intros entry it H.
    apply build_item_shape in H as [st [rest [_ [-> _]]]]. repeat split.
  - intros v Hb Hn. destruct v as [| b | | | | | |]; try reflexivity.
    + contradiction.
    + now elim (Hb b).
Qed.

Lemma yaml_dump_format_witness :
  _yaml_dump sample_document
  = unlines
      ["files:";
       "  configuration:";
       "    etc_default_useradd:";
       "      follow: false"; "      force: true"; "      group: 'root'";
       "      mode: '0644'"; "      owner: 'root'";
       "      path: '/etc/Default/useradd!!'"; "      state: 'file'";
       "  artifacts:"; "  docs:"; "  licenses:";
       "  general:";
       "    etc_default_useradd_2:";
       "      follow: false"; "      force: true"; "      group: 'root'";
       "      owner: 'root'"; "      path: '/etc/default/useradd'";
       "      state: 'link'"; "      src: '/etc/bin/sh'"] /\
  described_children [("docs", [])] "docs" = [] /\
  (exists it, _build_item sample_link = Ok it /\
              emitted it "follow" = true /\ emitted it "force" = true) /\
  emitted [("follow", PNone); ("mode", PStr "")] "follow" = true /\
  q (PStr "a'b") = "'a''b'".
Proof.
  destruct yaml_dump_format as [Hl [_ [Hc [_ [He [_ [Hb [Hq _]]]]]]]].
  split.
  - rewrite (Hl sample_document
               (match od_get "files" sample_document with Some f => f | None => [] end)
               eq_refl).
    reflexivity.
  - split; [apply (Hc [("docs", [])] "docs"); left; reflexivity |].
    split.
    + destruct (Hb sample_link
                  [("follow", PBool false); ("force", PBool true); ("group", PStr "root");
                   ("mode", PStr ""); ("owner", PStr "root");
                   ("path", PStr "/etc/default/useradd"); ("state", PStr "link");
                   ("src", PStr "/etc/bin/sh")] eq_refl) as [H1 [_ [H2 _]]].
      eexists. split; [reflexivity |]. split; [exact H1 | exact H2].
    + split.
      * apply (He [("follow", PNone); ("mode", PStr "")] "follow").
        exists PNone. split; [reflexivity |]. right. left. reflexivity.
      * apply Hq; [intros b |]; discriminate.
Defined.

(** ** Records with missing or ill-typed fields *)


Lemma field_ok_or (v : pyval) (d : string) :
  field_ok v = true -> exists s, py_or v (PStr d) = PStr s.
Proof.
  unfold py_or. destruct v as [| b | z | s | l | l | l | p]; cbn [field_ok];
    try (intros H; apply negb_true_iff in H; rewrite H; now exists d).
  intros _. destruct (truthy (PStr s)); [now exists s | now exists d].
Qed.

Lemma state_from_type_ok (ftype : pyval) :
  field_ok ftype = true ->
  exists state, _state_from_type ftype = Ok state /\
                (truthy ftype = false -> state = "file").
Proof.
  intros H. unfold _state_from_type.
  destruct (field_ok_or ftype "" H) as [s Hs]. rewrite Hs. cbn [py_lower bind].
  assert (Hd : truthy ftype = false -> s = "").
  { intros Ht. unfold py_or in Hs. rewrite Ht in Hs. now inversion Hs. }
  destruct (String.eqb (Str.lower s) "dir" || String.eqb (Str.lower s) "directory")
    eqn:E1;
    [| destruct (String.eqb (Str.lower s) "link" || String.eqb (Str.lower s) "symlink")
         eqn:E2].
  - eexists. split; [reflexivity |]. intros Ht. rewrite (Hd Ht) in E1. discriminate.
  - eexists. split; [reflexivity |]. intros Ht. rewrite (Hd Ht) in E2. discriminate.
  - eexists. split; reflexivity.
Qed.

Lemma build_item_ok (entry : dict) :
  field_ok (dict_get entry "type") = true ->
  exists it, _build_item entry = Ok it.
Proof.
  intros H. destruct (state_from_type_ok _ H) as [state [Hs _]].
  unfold _build_item. rewrite Hs. cbn [bind].
  repeat match goal with
         | |- context [if ?b then _ else _] => destruct b
         | |- context [match ?o with Some _ => _ | None => _ end] => destruct o
         end; eexists; reflexivity.
Qed.

Lemma sanitize_key_ok (h : hashing) (path : pyval) (used : list string) :
  field_ok path = true ->
  exists key used', _sanitize_key h (py_or path (PStr "")) used = Ok (key, used').
Proof.
  intros H. destruct (field_ok_or path "" H) as [s Hs]. rewrite Hs.
  destruct (sanitize_key_str h s used) as [key [E _]]. now exists key, (str_add h key used).
Qed.

Lemma grouped_set_names (cat key : string) (it : config_item)
  (g g' : list (string * category_map)) :
  grouped_set cat key it g = Ok g' -> map fst g' = map fst g.
Proof.
  revert g'. induction g as [| [c items] rest IH]; intros g'; simpl; [discriminate |].
  destruct (String.eqb c cat).
  - intros H. now inversion H.
  - destruct (grouped_set cat key it rest) as [rest' | e |]; cbn [bind];
      try discriminate.
    intros H. inversion H. simpl. now rewrite (IH rest' eq_refl).
Qed.

Lemma grouped_set_ok (cat key : string) (it : config_item)
  (g : list (string * category_map)) :
  In cat (map fst g) -> exists g', grouped_set cat key it g = Ok g'.
Proof.
  induction g as [| [c items] rest IH]; simpl; [contradiction |].
  intros H. destruct (String.eqb c cat) eqn:E; [eexists; reflexivity |].
  destruct H as [H | H]; [apply String.eqb_neq in E; contradiction |].
  destruct (IH H) as [rest' ->]. eexists. reflexivity.
Qed.

Lemma build_files_ok (h : hashing) (files : list dict) :
  forallb record_ok files = true ->
  forall used g, map fst g = _CATEGORY_ORDER ->
    exists st', for_each (build_file h) files (used, g) = Ok st' /\
                map fst (snd st') = _CATEGORY_ORDER.
Proof.
  induction files as [| f files IH]; intros Hall used g Hg.
  - eexists. split; [reflexivity | exact Hg].
  - cbn [forallb] in Hall. apply andb_true_iff in Hall as [Hf Hfs].
    apply andb_true_iff in Hf as [Ht Hp].
    cbn [for_each]. unfold build_file at 1.
    destruct (sanitize_key_ok h _ used Hp) as [key [used' ->]].
    destruct (build_item_ok f Ht) as [it ->]. cbn [bind].
    destruct (grouped_set_ok (_category_for h f) key it g) as [g' Eg].
    { rewrite Hg. apply category_for_known. }
    rewrite Eg. cbn [bind]. apply (IH Hfs).
    now rewrite (grouped_set_names _ _ _ _ _ Eg).
Qed.

Lemma build_yaml_data_ok (h : hashing) (files : list dict) :
  forallb record_ok files = true -> exists doc, _build_yaml_data h files = Ok doc.
Proof.
  intros H. unfold _build_yaml_data.
  destruct (build_files_ok h files H [] (map (fun k => (k, [])) _CATEGORY_ORDER) eq_refl)
    as [[used g] [E Hg]].
  cbv zeta.
  match goal with
  | |- context [bind ?m _] =>
      replace m with (@Ok (list string * list (string * category_map)) (used, g))
        by (symmetry; exact E)
  end.
  cbn [bind snd] in *.
  rewrite (collect_categories_id g Hg). eexists. reflexivity.
Qed.












(* ------------------------------------------------------------------ *)
(** * Further properties of the code *)

(** ** Package-name validation *)

Example validate_samples :
  validate_package_name (PStr " shadow-utils ") (PStr "RHEL ") = Return "shadow-utils" /\
  validate_package_name (PStr "Shadow") (PStr "ubuntu")
    = Throw (ValueError "Package name must start with a valid alphanumeric character.") /\
  validate_package_name (PStr "a") (PStr "ubuntu")
    = Throw (ValueError "Package name must be at least 2 characters.") /\
  validate_package_name (PStr "a:b") (PStr "rhel")
    = Throw (ValueError "Package name contains reserved characters.") /\
  validate_package_name (PStr "bash") (PStr "fedora")
    = Throw (ValueError "Unsupported distro. Supported: rhel, ubuntu") /\
  validate_package_name (PStr "") PNone
    = Throw (ValueError "Unsupported distro. Supported: rhel, ubuntu") /\
  validate_package_name (PInt 3) (PStr "rhel")
    = Throw (ValueError "Package name must be a string.").
Proof. repeat split. Qed.

Lemma any_char_false (p : ascii -> bool) (s : string) :
  any_char p s = false <-> Str.all_chars (fun c => negb (p c)) s = true.
Proof.
  induction s as [| c s IH]; simpl; [tauto |].
  rewrite orb_false_iff, andb_true_iff, negb_true_iff, IH. tauto.
Qed.

Lemma all_chars_impl (p r : ascii -> bool) (s : string) :
  (forall c, p c = true -> r c = true) ->
  Str.all_chars p s = true -> Str.all_chars r s = true.
Proof.
  intros H. induction s as [| c s IH]; simpl; [trivial |].
  rewrite !andb_true_iff. intros [Hc Hs]. split; [now apply H | now apply IH].
Qed.

Lemma py_or_str (d : string) :
  exists d', py_or (PStr d) (PStr "") = PStr d' /\ Str.strip d' = Str.strip d.
Proof.
  unfold py_or. cbn [truthy]. destruct (String.eqb_spec d "") as [-> | Hne]; cbn [negb].
  - now exists "".
  - now exists d.
Qed.

Lemma registry_policies (key : string) (policy : Policy) :
  od_get key _POLICY_REGISTRY = Some policy ->
  (key = "ubuntu" \/ key = "rhel") /\
  forall ch, allow_list_tight policy ch = true.
Proof.
  unfold _POLICY_REGISTRY. cbn [od_get].
  destruct (String.eqb_spec "ubuntu" key) as [<- | _].
  - intros H. inversion H; subst policy. split; [now left |].
    intros ch. destruct ch as [[] [] [] [] [] [] [] []]; reflexivity.
  - destruct (String.eqb_spec "rhel" key) as [<- | _]; [| discriminate].
    intros H. inversion H; subst policy. split; [now right |].
    intros ch. destruct ch as [[] [] [] [] [] [] [] []]; reflexivity.
Qed.

Lemma allowed_passes_checks (policy : Policy) (s : string) :
  (forall ch, allow_list_tight policy ch = true) ->
  Str.all_chars (fun ch => char_in ch (allowed_chars policy)) s = true ->
  is_ascii s = true /\
  any_char (fun ch => Str.is_space ch || (Str.code ch <? 32)%nat) s = false /\
  any_char (fun ch => char_in ch (forbidden_chars policy)) s = false /\
  any_char (fun ch => negb (char_in ch (allowed_chars policy))) s = false.
Proof.
  intros Ht Ha.
  assert (Hc : forall ch, char_in ch (allowed_chars policy) = true ->
                 (Str.code ch <? 128)%nat = true /\
                 Str.is_space ch || (Str.code ch <? 32)%nat = false /\
                 char_in ch (forbidden_chars policy) = false).
  { intros ch Hin. specialize (Ht ch). unfold allow_list_tight in Ht.
    rewrite Hin in Ht. cbn [implb] in Ht.
    rewrite !andb_true_iff, !negb_true_iff in Ht. tauto. }
  repeat split.
  - unfold is_ascii. revert Ha. apply all_chars_impl. intros c H. now apply Hc.
  - apply any_char_false. revert Ha. apply all_chars_impl. intros c H.
    apply negb_true_iff. now apply Hc.
  - apply any_char_false. revert Ha. apply all_chars_impl. intros c H.
    apply negb_true_iff. now apply Hc.
  - apply any_char_false. revert Ha. apply all_chars_impl. intros c H.
    now rewrite H.
Qed.

Lemma validate_sound (name distro : string) (policy : Policy) (s : string) :
  od_get (Str.lower (Str.strip distro)) _POLICY_REGISTRY = Some policy ->
  validate_package_name (PStr name) (PStr distro) = Return s ->
  s = Str.strip name /\ conforms policy s = true.
Proof.
  intros Hp. unfold validate_package_name.
  destruct (py_or_str distro) as [d' [-> Hd]]. rewrite Hd, Hp. unfold conforms.
  destruct (is_ascii (Str.strip name)); cbn [negb]; [| discriminate].
  destruct (any_char _ (Str.strip name)); [discriminate |].
  destruct (String.length (Str.strip name) <? min_len policy)%nat eqn:E1;
    [discriminate |].
  destruct (max_len policy <? String.length (Str.strip name))%nat eqn:E2;
    [discriminate |].
  destruct (any_char _ (Str.strip name)); [discriminate |].
  destruct (Str.strip name) as [| first rest] eqn:Es; [discriminate |].
  destruct (char_in first (start_chars policy)) eqn:E3; cbn [negb]; [| discriminate].
  destruct (any_char _ (String first rest)) eqn:E4; [discriminate |].
  intros H. inversion H; subst s. split; [reflexivity |].
  apply any_char_false in E4.
  apply Nat.ltb_ge in E1. apply Nat.ltb_ge in E2.
  rewrite !andb_true_iff, !Nat.leb_le. repeat split; try assumption.
  revert E4. apply all_chars_impl. intros c Hc.
  now apply negb_true_iff, negb_false_iff in Hc.
Qed.

Lemma validate_complete (name distro : string) (policy : Policy) :
  od_get (Str.lower (Str.strip distro)) _POLICY_REGISTRY = Some policy ->
  conforms policy (Str.strip name) = true ->
  validate_package_name (PStr name) (PStr distro) = Return (Str.strip name).
Proof.
  intros Hp Hc. unfold validate_package_name.
  destruct (py_or_str distro) as [d' [-> Hd]]. rewrite Hd, Hp.
  destruct (registry_policies _ _ Hp) as [_ Ht].
  unfold conforms in Hc. rewrite !andb_true_iff, !Nat.leb_le in Hc.
  destruct Hc as [[[Hmin Hmax] Hfirst] Hall].
  destruct (allowed_passes_checks policy _ Ht Hall) as [Ha [Hw [Hf Hn]]].
  rewrite Ha, Hw, Hf. cbn [negb].
  apply Nat.ltb_ge in Hmin. apply Nat.ltb_ge in Hmax. rewrite Hmin, Hmax.
  destruct (Str.strip name) as [| first rest]; [discriminate |].
  now rewrite Hfirst, Hn.
Qed.

(** X1. Acceptance by [validate_package_name].  Under a supported distro
    key, a string is accepted exactly when its trimmed form conforms to the
    policy (length within bounds, first character a start character, every
    character on the allow-list), and the trimmed form is what is returned.
    The ASCII, white-space, control-character and reserved-character checks
    never reject a name the allow-list would pass. *)
Theorem validate_accepts_iff (name distro : string) (policy : Policy) (s : string) :
  od_get (Str.lower (Str.strip distro)) _POLICY_REGISTRY = Some policy ->
  (validate_package_name (PStr name) (PStr distro) = Return s <->
   s = Str.strip name /\ conforms policy s = true).
Proof.
  intros Hp. split.
  - now apply (validate_sound name distro policy).
  - intros [-> Hc]. now apply (validate_complete name distro policy).
Qed.

Lemma validate_accepts_iff_witness :
  validate_package_name (PStr " shadow-utils ") (PStr " RHEL") = Return "shadow-utils" <->
  "shadow-utils" = Str.strip " shadow-utils " /\
  conforms {| min_len := 1; max_len := 128;
              start_chars := (LOWER ++ UPPER ++ DIGITS)%string;
              allowed_chars := (LOWER ++ UPPER ++ DIGITS ++ "+-_.")%string;
              forbidden_chars := ":<=>" |} "shadow-utils" = true.
Proof.
  apply (validate_accepts_iff " shadow-utils " " RHEL"). reflexivity.
Defined.

Lemma lstrip_by_none (p : ascii -> bool) (s : string) :
  Str.all_chars (fun c => negb (p c)) s = true -> Str.lstrip_by p s = s.
Proof.
  destruct s as [| c s]; simpl; [reflexivity |].
  rewrite andb_true_iff, negb_true_iff. now intros [-> _].
Qed.

Lemma rstrip_by_none (p : ascii -> bool) (s : string) :
  Str.all_chars (fun c => negb (p c)) s = true -> Str.rstrip_by p s = s.
Proof.
  induction s as [| c s IH]; [reflexivity |].
  cbn [Str.all_chars]. rewrite andb_true_iff, negb_true_iff. intros [Hc Hs].
  rewrite rstrip_by_cons, (IH Hs). unfold rcons. rewrite Hc. now destruct s.
Qed.

Lemma strip_no_space (s : string) :
  Str.all_chars (fun c => negb (Str.is_space c)) s = true -> Str.strip s = s.
Proof.
  intros H. unfold Str.strip, Str.strip_by.
  now rewrite (lstrip_by_none _ _ H), (rstrip_by_none _ _ H).
Qed.

Lemma validate_policy (name distro : pyval) (s : string) :
  validate_package_name name distro = Return s ->
  exists n d policy,
    name = PStr n /\ py_or distro (PStr "") = PStr d /\
    od_get (Str.lower (Str.strip d)) _POLICY_REGISTRY = Some policy.
Proof.
  unfold validate_package_name.
  destruct name as [| | | n | | | |]; try discriminate.
  destruct (py_or distro (PStr "")) as [| | | d | | | |]; try discriminate.
  destruct (od_get (Str.lower (Str.strip d)) _POLICY_REGISTRY) as [policy |] eqn:E;
    [| discriminate].
  intros _. now exists n, d, policy.
Qed.

Lemma conforms_no_space (policy : Policy) (s : string) :
  (forall ch, allow_list_tight policy ch = true) ->
  conforms policy s = true -> Str.strip s = s.
Proof.
  intros Ht Hc. unfold conforms in Hc. rewrite !andb_true_iff in Hc.
  destruct Hc as [_ Hall].
  destruct (allowed_passes_checks policy s Ht Hall) as [_ [Hw _]].
  apply strip_no_space. apply any_char_false in Hw.
  revert Hw. apply all_chars_impl. intros c H.
  rewrite negb_true_iff, orb_false_iff in H. now rewrite (proj1 H).
Qed.

(** X2. Validation is idempotent: a name [validate_package_name] returns
    is accepted unchanged when it is validated again under the same
    distro. *)
Theorem validate_idempotent (name distro : string) (s : string) :
  validate_package_name (PStr name) (PStr distro) = Return s ->
  validate_package_name (PStr s) (PStr distro) = Return s.
Proof.
  intros H.
  destruct (validate_policy _ _ _ H) as [n [d [policy [Hn [Hd Hp]]]]].
  destruct (py_or_str distro) as [d' [Hd' Hs]].
  assert (d = d') by congruence. subst d'. rewrite Hs in Hp.
  apply (validate_sound name distro policy s Hp) in H as [_ Hc].
  assert (Hs' : Str.strip s = s).
  { apply (conforms_no_space policy); [| exact Hc]. now apply (registry_policies _ _ Hp). }
  rewrite <- Hs' at 2. apply (validate_complete s distro policy Hp). now rewrite Hs'.
Qed.

Lemma validate_idempotent_witness :
  validate_package_name (PStr "shadow-utils") (PStr "rhel") = Return "shadow-utils".
Proof.
  apply (validate_idempotent "  shadow-utils" "rhel"). reflexivity.
Defined.

Lemma registry_min_len (key : string) (policy : Policy) :
  od_get key _POLICY_REGISTRY = Some policy -> 1 <= min_len policy.
Proof.
  unfold _POLICY_REGISTRY. cbn [od_get].
  destruct (String.eqb "ubuntu" key).
  - intros H. inversion H. simpl. lia.
  - destruct (String.eqb "rhel" key); [| discriminate].
    intros H. inversion H. simpl. lia.
Qed.

Lemma validate_str_cases (name distro : string) :
  (exists s, validate_package_name (PStr name) (PStr distro) = Return s) \/
  (exists msg, validate_package_name (PStr name) (PStr distro) = Throw (ValueError msg)).
Proof.
  unfold validate_package_name.
  destruct (py_or_str distro) as [d' [-> _]].
  destruct (od_get (Str.lower (Str.strip d')) _POLICY_REGISTRY) as [policy |] eqn:Ep;
    [| right; eexists; reflexivity].
  pose proof (registry_min_len _ _ Ep) as Hmin.
  destruct (negb (is_ascii (Str.strip name))); [right; eexists; reflexivity |].
  destruct (any_char _ (Str.strip name)); [right; eexists; reflexivity |].
  destruct (String.length (Str.strip name) <? min_len policy)%nat eqn:E1;
    [right; eexists; reflexivity |].
  destruct (max_len policy <? String.length (Str.strip name))%nat;
    [right; eexists; reflexivity |].
  destruct (any_char _ (Str.strip name)); [right; eexists; reflexivity |].
  destruct (Str.strip name) as [| first rest].
  - apply Nat.ltb_ge in E1. simpl in E1. lia.
  - destruct (negb (char_in first (start_chars policy))); [right; eexists; reflexivity |].
    destruct (any_char _ (String first rest)); [right | left]; eexists; reflexivity.
Qed.

(** X3. [validate_package_name] raises nothing but [ValueError].  Whatever
    the name is (a string or not), under a distro that is a string or is
    absent, the call returns a name or raises [ValueError]; in particular
    the first-character test [s[0]] is never reached with an empty name,
    since both policies ask for at least one character. *)
Theorem validate_only_value_error (name distro : pyval) :
  field_ok distro = true ->
  (exists s, validate_package_name name distro = Return s) \/
  (exists msg, validate_package_name name distro = Throw (ValueError msg)).
Proof.
  intros Hd.
  destruct name as [| | | n | | | |]; try (right; eexists; reflexivity).
  destruct (field_ok_or distro "" Hd) as [d Hor].
  assert (E : validate_package_name (PStr n) distro
              = validate_package_name (PStr n) (PStr d)).
  { unfold validate_package_name. rewrite Hor.
    destruct (py_or_str d) as [d' [-> Hs]]. now rewrite Hs. }
  rewrite E. apply validate_str_cases.
Qed.

Lemma validate_only_value_error_witness :
  (exists s, validate_package_name (PStr "  ") (PStr "rhel") = Return s) \/
  (exists msg,
     validate_package_name (PStr "  ") (PStr "rhel") = Throw (ValueError msg)).
Proof.
  apply (validate_only_value_error (PStr "  ") (PStr "rhel")). reflexivity.
Defined.

(** ** Distro detection *)

Example resolve_samples :
  _resolve_distro [("ID", "fedora")] "auto" = Return "fedora" /\
  _resolve_distro [("ID", "centos"); ("ID_LIKE", "rhel fedora")] "" = Return "rhel" /\
  _resolve_distro [("ID", "linuxmint"); ("ID_LIKE", " ubuntu  debian")] "auto"
    = Return "ubuntu" /\
  _resolve_distro [("ID", "arch")] "auto" = Return "rhel" /\
  _resolve_distro [] "auto" = Return "rhel" /\
  _resolve_distro [("ID", "fedora")] "debian" = Return "debian" /\
  detect_distro_keyword [] ["auto"; "Auto"] None = Return "auto" /\
  detect_distro_keyword [("ID", "rhel")] ["RHEL"; "rhel"] None = Return "RHEL" /\
  detect_distro_keyword [] [] (Some "rhel") = Return "".
Proof. repeat split. Qed.

Lemma choice_for_found (choices : list string) (x : string) :
  tuple_has x (map Str.lower choices) = true ->
  exists c, choice_for choices (map Str.lower choices) x = Return c /\
            In c choices /\ Str.lower c = x.
Proof.
  unfold choice_for, tuple_has.
  induction choices as [| c choices IH]; simpl; [discriminate |].
  destruct (String.eqb_spec (Str.lower c) x) as [E | Hne].
  - intros _. exists c. repeat split; auto.
  - rewrite String.eqb_sym. destruct (String.eqb_spec (Str.lower c) x); [contradiction |].
    cbn [orb]. intros H. destruct (IH H) as [c' [Hc [Hin Hl]]].
    exists c'. split; [| auto].
    destruct (tuple_index x (map Str.lower choices)) as [i | e]; [| discriminate].
    exact Hc.
Qed.

Lemma first_like_has (tokens lowered : list string) (token : string) :
  first_like tokens lowered = Some token -> tuple_has token lowered = true.
Proof.
  induction tokens as [| t tokens IH]; simpl; [discriminate |].
  destruct (tuple_has t lowered) eqn:E; [| exact IH].
  intros H. now inversion H; subst.
Qed.

Lemma first_not_auto_item (choices : list string) (skipped : list string) (idx : nat) :
  first_not_auto (length skipped) (map Str.lower choices) = Some idx ->
  exists c, tuple_item (skipped ++ choices) idx = Return c /\ In c choices /\
            Str.lower c <> "auto".
Proof.
  revert skipped. induction choices as [| c choices IH]; intros skipped; simpl;
    [discriminate |].
  destruct (String.eqb_spec (Str.lower c) "auto") as [E | Hne]; cbn [negb].
  - intros H.
    replace (S (length skipped)) with (length (skipped ++ [c])) in H
      by (rewrite length_app; simpl; lia).
    destruct (IH _ H) as [c' [Hc [Hin Hl]]]. exists c'.
    rewrite <- app_assoc in Hc. auto.
  - intros H. inversion H; subst idx. exists c.
    unfold tuple_item. rewrite nth_error_app2, Nat.sub_diag by lia. auto.
Qed.

Lemma fallback_choice_in (choices : list string) :
  exists c, fallback_choice choices (map Str.lower choices) = Return c /\
            match choices with [] => c = "" | _ => In c choices end.
Proof.
  unfold fallback_choice.
  destruct (first_not_auto 0 (map Str.lower choices)) as [idx |] eqn:E.
  - destruct (first_not_auto_item choices [] idx E) as [c [Hc [Hin _]]].
    exists c. split; [exact Hc |]. destruct choices; [contradiction | exact Hin].
  - destruct choices as [| c choices]; [now exists "" |].
    exists c. split; [reflexivity | now left].
Qed.

(** X4. [detect_distro_keyword] never raises and answers with one of the
    choices: whatever the os-release data and the default, the result is a
    member of [choices], or the empty string when there are no choices.
    The index look-ups [choices[lowered.index(...)]] always succeed. *)
Theorem detect_distro_keyword_in_choices (osr : list (string * string))
  (choices : list string) (default : option string) :
  exists c, detect_distro_keyword osr choices default = Return c /\
            match choices with [] => c = "" | _ => In c choices end.
Proof.
  assert (Hfound : forall x, tuple_has x (map Str.lower choices) = true ->
            exists c, choice_for choices (map Str.lower choices) x = Return c /\
                      match choices with [] => c = "" | _ => In c choices end).
  { intros x Hx. destruct (choice_for_found choices x Hx) as [c [Hc [Hin _]]].
    exists c. split; [exact Hc |]. destruct choices; [contradiction | exact Hin]. }
  unfold detect_distro_keyword.
  destruct (negb _ && tuple_has _ _) eqn:E1.
  - apply andb_true_iff in E1 as [_ E1]. now apply Hfound.
  - destruct (if negb _ then first_like _ _ else None) as [token |] eqn:E2.
    + apply Hfound. destruct (negb _) in E2; [| discriminate].
      now apply first_like_has in E2.
    + destruct default as [d |]; [| apply fallback_choice_in].
      destruct (tuple_has (Str.lower d) (map Str.lower choices)) eqn:E3;
        [now apply Hfound | apply fallback_choice_in].
Qed.

Lemma lowercase_member (choices : list string) (c : string) :
  map Str.lower choices = choices -> In c choices -> Str.lower c = c.
Proof.
  induction choices as [| a choices IH]; [contradiction |].
  simpl. intros Hl. inversion Hl as [[Ha Hr]]. rewrite Ha, Hr.
  intros [<- | Hin]; [exact Ha | now apply IH].
Qed.

Lemma choice_for_lowercase (choices : list string) (x : string) :
  map Str.lower choices = choices ->
  tuple_has x choices = true ->
  choice_for choices choices x = Return x.
Proof.
  intros Hl Hx. rewrite <- Hl in Hx.
  destruct (choice_for_found choices x Hx) as [c [Hc [Hin Hc']]].
  rewrite Hl in Hc. rewrite Hc. f_equal.
  rewrite <- Hc'. symmetry. now apply (lowercase_member choices).
Qed.

Lemma tuple_has_In (x : string) (t : list string) :
  tuple_has x t = true <-> In x t.
Proof.
  unfold tuple_has. rewrite existsb_exists. split.
  - intros [y [Hy E]]. apply String.eqb_eq in E. now subst.
  - intros H. exists x. split; [exact H | apply String.eqb_refl].
Qed.

(** Detection over the four distro names of the command line. *)
Lemma detect_four (osr : list (string * string)) :
  let os_id := Str.lower (Str.strip (osr_get osr "ID")) in
  let id_like := Str.lower (Str.strip (osr_get osr "ID_LIKE")) in
  let four := ["debian"; "ubuntu"; "rhel"; "fedora"] in
  detect_distro_keyword osr four (Some "rhel")
  = Return (if tuple_has os_id four then os_id
            else match first_like (words id_like) four with
                 | Some token => token
                 | None => "rhel"
                 end).
Proof.
  intros os_id id_like four. unfold detect_distro_keyword.
  fold os_id id_like. change (map Str.lower four) with four.
  destruct (tuple_has os_id four) eqn:Eid.
  - assert (Hne : String.eqb os_id "" = false).
    { destruct (String.eqb_spec os_id "") as [E0 |]; [| reflexivity].
      rewrite E0 in Eid. discriminate. }
    rewrite Hne. cbn [negb andb]. now apply choice_for_lowercase.
  - rewrite andb_false_r.
    assert (Hlike : (if negb (String.eqb id_like "")
                     then first_like (words id_like) four else None)
                    = first_like (words id_like) four).
    { destruct (String.eqb_spec id_like "") as [E0 |]; [now rewrite E0 | reflexivity]. }
    rewrite Hlike.
    destruct (first_like (words id_like) four) as [token |] eqn:El; [| reflexivity].
    apply choice_for_lowercase; [reflexivity |]. now apply first_like_has in El.
Qed.

Lemma resolve_auto (osr : list (string * string)) (selected : string) :
  selected = "" \/ selected = "auto" ->
  _resolve_distro osr selected
  = Return (if tuple_has (Str.lower (Str.strip (osr_get osr "ID")))
                         ["debian"; "ubuntu"; "rhel"; "fedora"]
            then Str.lower (Str.strip (osr_get osr "ID"))
            else match first_like (words (Str.lower (Str.strip (osr_get osr "ID_LIKE"))))
                                  ["debian"; "ubuntu"; "rhel"; "fedora"] with
                 | Some token => token
                 | None => "rhel"
                 end).
Proof.
  intros H. rewrite <- detect_four. unfold _resolve_distro.
  destruct H as [-> | ->]; reflexivity.
Qed.

Lemma resolve_explicit (osr : list (string * string)) (selected : string) :
  selected <> "" -> selected <> "auto" ->
  _resolve_distro osr selected = Return selected.
Proof.
  intros H1 H2. unfold _resolve_distro.
  apply String.eqb_neq in H1. apply String.eqb_neq in H2. now rewrite H1, H2.
Qed.

Lemma resolve_returns (osr : list (string * string)) (selected : string) :
  exists d, _resolve_distro osr selected = Return d.
Proof.
  destruct (String.eqb_spec selected "") as [E1 | N1].
  - eexists. apply resolve_auto. now left.
  - destruct (String.eqb_spec selected "auto") as [E2 | N2].
    + eexists. apply resolve_auto. now right.
    + exists selected. now apply resolve_explicit.
Qed.

(** X5. [_resolve_distro].  An explicit selection is returned as it is.
    For the selection [auto] (or none) the answer is one of [debian],
    [ubuntu], [rhel], [fedora], never [auto]: the os-release [ID] when it
    is one of the four, else the first token of [ID_LIKE] that is, else
    [rhel]. *)
Theorem resolve_distro_answer (osr : list (string * string)) (selected : string) :
  let os_id := Str.lower (Str.strip (osr_get osr "ID")) in
  let id_like := Str.lower (Str.strip (osr_get osr "ID_LIKE")) in
  let four := ["debian"; "ubuntu"; "rhel"; "fedora"] in
  exists c,
    _resolve_distro osr selected = Return c /\
    (selected <> "" -> selected <> "auto" -> c = selected) /\
    (selected = "" \/ selected = "auto" ->
     In c four /\
     c = if tuple_has os_id four then os_id
         else match first_like (words id_like) four with
              | Some token => token
              | None => "rhel"
              end).
Proof.
  intros os_id id_like four.
  destruct (resolve_returns osr selected) as [c Hc]. exists c.
  split; [exact Hc |]. split.
  - intros H1 H2. rewrite (resolve_explicit osr selected H1 H2) in Hc. now inversion Hc.
  - intros Ha. pose proof (resolve_auto osr selected Ha) as Hr.
    fold os_id id_like four in Hr.
    assert (Hc' : c = if tuple_has os_id four then os_id
                      else match first_like (words id_like) four with
                           | Some token => token
                           | None => "rhel"
                           end) by congruence.
    split; [| exact Hc']. rewrite Hc'.
    destruct (tuple_has os_id four) eqn:Eid; [now apply tuple_has_In |].
    destruct (first_like (words id_like) four) as [token |] eqn:El.
    + apply tuple_has_In. now apply first_like_has in El.
    + right. right. now left.
Qed.

Lemma resolve_distro_answer_witness :
  exists c,
    _resolve_distro [("ID", "CentOS"); ("ID_LIKE", "rhel fedora")] "auto" = Return c /\
    In c ["debian"; "ubuntu"; "rhel"; "fedora"] /\ c = "rhel".
Proof.
  destruct (resolve_distro_answer [("ID", "CentOS"); ("ID_LIKE", "rhel fedora")] "auto")
    as [c [Hc [_ Ha]]].
  destruct (Ha (or_intror eq_refl)) as [Hin Heq].
  exists c. split; [exact Hc |]. split; [exact Hin | exact Heq].
Defined.

Lemma validate_unsupported_key (name distro : string) :
  Str.lower (Str.strip distro) <> "ubuntu" ->
  Str.lower (Str.strip distro) <> "rhel" ->
  validate_package_name (PStr name) (PStr distro)
    = Throw (ValueError "Unsupported distro. Supported: rhel, ubuntu").
Proof.
  intros Hu Hr. unfold validate_package_name.
  destruct (py_or_str distro) as [d' [-> Hd]]. rewrite Hd.
  unfold _POLICY_REGISTRY. cbn [od_get].
  destruct (String.eqb_spec "ubuntu" (Str.lower (Str.strip distro))); [congruence |].
  destruct (String.eqb_spec "rhel" (Str.lower (Str.strip distro))); [congruence |].
  reflexivity.
Qed.

(** X6. Two of the four distro choices of the command line have no policy.
    Whenever the distro is resolved to [debian] or [fedora], whether it was
    selected or detected from the os-release [ID], validation rejects every
    package name with the message that only [rhel] and [ubuntu] are
    supported; the same holds for any other key without a policy. *)
Theorem debian_fedora_unsupported (osr : list (string * string))
  (selected name : string) :
  (selected = "debian" \/ selected = "fedora" \/
   ((selected = "" \/ selected = "auto") /\
    (Str.lower (Str.strip (osr_get osr "ID")) = "debian" \/
     Str.lower (Str.strip (osr_get osr "ID")) = "fedora"))) ->
  and_then (_resolve_distro osr selected)
           (fun distro => validate_package_name (PStr name) (PStr distro))
  = Throw (ValueError "Unsupported distro. Supported: rhel, ubuntu").
Proof.
  intros H.
  assert (Hc : _resolve_distro osr selected = Return "debian" \/
               _resolve_distro osr selected = Return "fedora").
  { destruct H as [-> | [-> | [Hs Hid]]].
    - left. now apply resolve_explicit.
    - right. now apply resolve_explicit.
    - rewrite (resolve_auto osr selected Hs).
      destruct Hid as [-> | ->]; [left | right]; reflexivity. }
  destruct Hc as [-> | ->]; cbn [and_then]; apply validate_unsupported_key; discriminate.
Qed.

Lemma debian_fedora_unsupported_witness :
  and_then (_resolve_distro [("NAME", "fedora linux"); ("ID", "fedora")] "auto")
           (fun distro => validate_package_name (PStr "bash") (PStr distro))
  = Throw (ValueError "Unsupported distro. Supported: rhel, ubuntu").
Proof.
  apply (debian_fedora_unsupported [("NAME", "fedora linux"); ("ID", "fedora")]
           "auto" "bash").
  right. right. split; [right | right]; reflexivity.
Defined.

(** ** The two policies against each other *)

(** X7. The [ubuntu] policy is the stricter one: every name accepted under
    [ubuntu] is accepted under [rhel], with the same result. *)
Theorem ubuntu_names_are_rhel_names (name s : string) :
  validate_package_name (PStr name) (PStr "ubuntu") = Return s ->
  validate_package_name (PStr name) (PStr "rhel") = Return s.
Proof.
  intros H.
  destruct (validate_sound name "ubuntu" _ s eq_refl H) as [Hs Hc]. rewrite Hs in *.
  apply (validate_complete name "rhel" _ eq_refl).
  unfold conforms in *. cbn [min_len max_len start_chars allowed_chars] in *.
  rewrite !andb_true_iff in *. destruct Hc as [[[Hmin Hmax] Hfirst] Hall].
  repeat split.
  - apply Nat.leb_le in Hmin. apply Nat.leb_le. lia.
  - exact Hmax.
  - destruct (Str.strip name) as [| first rest]; [discriminate |].
    revert Hfirst. destruct first as [[] [] [] [] [] [] [] []]; vm_compute; trivial.
  - revert Hall. apply all_chars_impl.
    intros c. destruct c as [[] [] [] [] [] [] [] []]; vm_compute; trivial.
Qed.

Lemma ubuntu_names_are_rhel_names_witness :
  validate_package_name (PStr "libc6-dev ") (PStr "rhel") = Return "libc6-dev".
Proof.
  apply (ubuntu_names_are_rhel_names "libc6-dev " "libc6-dev"). reflexivity.
Defined.

(** ** The record provider *)

Example provider_samples :
  _octal_perms 33188 = "0644" /\ _file_type_from_mode 33188 = "file" /\
  _octal_perms 16877 = "0755" /\ _file_type_from_mode 16877 = "dir" /\
  _octal_perms 41471 = "0777" /\ _file_type_from_mode 41471 = "link" /\
  _octal_perms 8630 = "0666" /\ _file_type_from_mode 8630 = "other" /\
  _octal_perms 0 = "0000" /\ _octal_perms (-1) = "7777".
Proof. repeat split. Qed.

Lemma perm_bits_range (m : Z) : (0 <= Z.land m PERM_MASK < 4096)%Z.
Proof.
  unfold PERM_MASK. change 4095%Z with (Z.ones 12).
  rewrite Z.land_ones by lia. apply Z.mod_pos_bound. reflexivity.
Qed.

Lemma format_04o_table :
  forallb (fun k => String.eqb (format_04o (Z.of_nat k)) (digits4 (Z.of_nat k))
                    && (octal_value 0 (digits4 (Z.of_nat k)) =? Z.of_nat k)%Z
                    && Str.all_chars (Str.between 48 55) (digits4 (Z.of_nat k)))
          (seq 0 4096) = true.
Proof. vm_compute. reflexivity. Qed.

Lemma format_04o_small (x : Z) :
  (0 <= x < 4096)%Z ->
  format_04o x = digits4 x /\ octal_value 0 (digits4 x) = x /\
  Str.all_chars (Str.between 48 55) (digits4 x) = true.
Proof.
  intros Hx. pose proof format_04o_table as T.
  rewrite forallb_forall in T. specialize (T (Z.to_nat x)).
  rewrite Z2Nat.id in T by lia.
  rewrite !andb_true_iff, String.eqb_eq, Z.eqb_eq in T.
  destruct T as [[T1 T2] T3]; [apply in_seq; lia |]. auto.
Qed.

(** X8. [_octal_perms] writes the twelve permission bits as exactly four
    octal digits, and nothing else of the mode: two modes get the same
    string exactly when their permission bits agree, so the file-type bits
    never show and no permission bit is lost. *)
Theorem octal_perms_four_digits (m : Z) :
  String.length (_octal_perms m) = 4 /\
  Str.all_chars (Str.between 48 55) (_octal_perms m) = true /\
  octal_value 0 (_octal_perms m) = Z.land m 4095 /\
  forall m', _octal_perms m = _octal_perms m' <-> Z.land m 4095 = Z.land m' 4095.
Proof.
  unfold _octal_perms.
  destruct (format_04o_small _ (perm_bits_range m)) as [E [V D]].
  rewrite E. split; [reflexivity |]. split; [exact D |]. split; [exact V |].
  intros m'. destruct (format_04o_small _ (perm_bits_range m')) as [E' [V' _]].
  rewrite E'. split.
  - intros H. unfold PERM_MASK in *. rewrite <- V, <- V'. now rewrite H.
  - intros H. unfold PERM_MASK. now rewrite H.
Qed.

Lemma file_entry_ok (decode : Z -> list string) (hdr : header) (i : nat) :
  record_ok (file_entry decode hdr i) = true.
Proof. reflexivity. Qed.

Lemma provided_pkg_ok (decode : Z -> list string) (pkg : dict) :
  provided decode pkg ->
  pkg_ok pkg = true /\ Forall (fun r => record_ok r = true) (files_of pkg).
Proof.
  intros [hdr Hf]. unfold pkg_ok, files_of, py_or. rewrite Hf. cbn [truthy].
  assert (G : forall l : list dict,
            Forall (fun r => record_ok r = true) l ->
            forallb (fun f => match f with
                              | PDict d => field_ok (dict_get d "path")
                              | _ => false
                              end) (map PDict l) = true /\
            Forall (fun r => record_ok r = true)
                   (flat_map (fun f => match f with PDict d => [d] | _ => [] end)
                             (map PDict l))).
  { induction 1 as [| r l Hr _ [IH1 IH2]]; [split; constructor |].
    cbn [map forallb flat_map app]. rewrite IH1, andb_true_r. split.
    - unfold record_ok in Hr. now apply andb_true_iff in Hr.
    - now constructor. }
  assert (Hall : Forall (fun r => record_ok r = true) (header_files decode hdr)).
  { unfold header_files. apply Forall_forall. intros r Hr.
    apply in_map_iff in Hr as [i [<- _]]. apply file_entry_ok. }
  destruct (G _ Hall) as [G1 G2].
  destruct (map PDict (header_files decode hdr)) eqn:E; [split; constructor |].
  now split.
Qed.

Lemma first_seen_members (records kept : list dict) (r : dict) :
  In r (first_seen kept records) -> In r kept \/ In r records.
Proof.
  revert kept. induction records as [| f records IH]; intros kept; simpl; [tauto |].
  destruct (_ && _); intros H; apply IH in H; [| tauto].
  rewrite in_app_iff in H. simpl in H. tauto.
Qed.

Lemma provided_merged_ok (decode : Z -> list string) (pkg_objs : list dict) :
  Forall (provided decode) pkg_objs ->
  forallb pkg_ok pkg_objs = true /\
  forallb record_ok (first_seen [] (flat_map files_of pkg_objs)) = true.
Proof.
  intros Hp.
  assert (Hok : forallb pkg_ok pkg_objs = true /\
                Forall (fun r => record_ok r = true) (flat_map files_of pkg_objs)).
  { induction Hp as [| pkg pkgs Hpkg _ [IH1 IH2]]; [split; constructor |].
    destruct (provided_pkg_ok decode pkg Hpkg) as [H1 H2].
    cbn [forallb flat_map]. rewrite H1, IH1. split; [reflexivity |].
    apply Forall_app. now split. }
  destruct Hok as [Hpk Hrec]. split; [exact Hpk |].
  apply forallb_forall. intros r Hr.
  apply first_seen_members in Hr as [[] | Hr].
  rewrite Forall_forall in Hrec. now apply Hrec.
Qed.

(** X9. The pipeline never raises on what the provider delivers.  For
    package objects whose [files] are built by [get_installed_package_dumps]
    (whatever the per-file arrays hold and however many of them are too
    short), the merge returns a list and the assembly of that list returns
    a document. *)
Theorem provider_pipeline_total (decode : Z -> list string) (h : hashing)
  (pkg_objs : list dict) :
  Forall (provided decode) pkg_objs ->
  exists (out : list dict) (doc : document),
    _merge_files_from_packages h pkg_objs = Ok out /\
    _build_yaml_data h out = Ok doc.
Proof.
  intros Hp. destruct (provided_merged_ok decode pkg_objs Hp) as [Hpk Hout].
  pose proof (merge_first_seen h pkg_objs Hpk) as Hm.
  destruct (build_yaml_data_ok h _ Hout) as [doc Hdoc].
  eexists. exists doc. split; [exact Hm | exact Hdoc].
Qed.

Lemma provider_pipeline_total_witness :
  exists (out : list dict) (doc : document),
    _merge_files_from_packages hash_back
      [[("name", PStr "foo"); ("files", PList (map PDict (header_files sample_decode sample_header)))];
       [("name", PStr "foo"); ("files", PList (map PDict (header_files sample_decode sample_header)))]]
    = Ok out /\
    _build_yaml_data hash_back out = Ok doc.
Proof.
  apply (provider_pipeline_total sample_decode hash_back).
  repeat constructor; exists sample_header; reflexivity.
Defined.

(** X10. What the item builder makes of a provider entry.  The item of
    file [i] carries the path as a string, the mode as the four octal
    digits of the permission bits, and a state read off the file-type
    bits: [directory] for a directory, [link] for a symbolic link and
    [file] for everything else, devices, sockets and FIFOs included. *)
Theorem provider_entry_item (decode : Z -> list string) (hdr : header) (i : nat) :
  let mode_i := if (i <? length (modes hdr))%nat then nth i (modes hdr) 0%Z else 0%Z in
  exists it,
    _build_item (file_entry decode hdr i) = Ok it /\
    od_get "path" it = Some (PStr (py_str (nth i (names hdr) PNone))) /\
    od_get "mode" it = Some (PStr (_octal_perms mode_i)) /\
    od_get "state" it = Some (PStr (state_of_mode mode_i)) /\
    (od_get "src" it <> None -> state_of_mode mode_i = "link").
Proof.
  intros mode_i.
  destruct (build_item_ok (file_entry decode hdr i) eq_refl) as [it Hit].
  exists it. split; [exact Hit |].
  destruct (build_item_shape _ _ Hit) as [state [rest [Hs [-> Hrest]]]].
  assert (Hstate : state = state_of_mode mode_i).
  { revert Hs. cbn [file_entry dict_get String.eqb Ascii.eqb Bool.eqb]. fold mode_i.
    unfold _state_from_type, _file_type_from_mode, state_of_mode.
    destruct (Z.land mode_i S_IFMT =? S_IFDIR)%Z; [intros H; now inversion H |].
    destruct (Z.land mode_i S_IFMT =? S_IFLNK)%Z; [intros H; now inversion H |].
    destruct (Z.land mode_i S_IFMT =? S_IFREG)%Z; intros H; now inversion H. }
  subst state.
  assert (Hpath : py_or (dict_get (file_entry decode hdr i) "path") (PStr "")
                  = PStr (py_str (nth i (names hdr) PNone))).
  { cbn [file_entry dict_get String.eqb Ascii.eqb Bool.eqb]. unfold py_or. cbn [truthy].
    destruct (String.eqb_spec (py_str (nth i (names hdr) PNone)) "") as [-> |];
      reflexivity. }
  cbn [od_get app String.eqb Ascii.eqb Bool.eqb]. rewrite Hpath.
  repeat split.
  destruct Hrest as [-> | [src [-> [Hl _]]]]; [now intros H | intros _; exact Hl].
Qed.

(** ** Items and their lines *)

Lemma normpath_nonempty (p : string) : posixpath.normpath p <> "".
Proof.
  unfold posixpath.normpath. destruct (String.eqb p ""); [discriminate |].
  unfold str_or. match goal with |- context [String.eqb ?x ""] =>
    destruct (String.eqb_spec x "") as [E | N] end; [discriminate | exact N].
Qed.

Lemma abs_link_src_some (linkto link_path : pyval) :
  truthy linkto = true ->
  exists src, _abs_link_src linkto link_path = Some src /\ src <> "" /\
              Str.startswith "/" src = true.
Proof.
  intros Ht. rewrite abs_link_src_cases, Ht. cbn [negb].
  destruct (Str.startswith "/" (Str.strip (py_str linkto))) eqn:E; eexists;
    (split; [reflexivity |]); (split; [apply normpath_nonempty |]);
    apply normpath_absolute; [exact E |].
  apply join_absolute, link_dir_absolute.
Qed.

(** X11. When an item gets a [src].  An item has the key [src] exactly
    when its state is [link] and the record has a non-empty link target;
    the value is then a string that begins with a slash.  A link whose
    target is missing gets no [src] at all. *)
Theorem build_item_src (entry : dict) (it : config_item) :
  _build_item entry = Ok it ->
  (od_get "src" it <> None <->
   od_get "state" it = Some (PStr "link") /\ truthy (dict_get entry "linkto") = true) /\
  (forall v, od_get "src" it = Some v ->
     exists s, v = PStr s /\ Str.startswith "/" s = true).
Proof.
  intros H. destruct (build_item_shape entry it H) as [state [rest [Hs [Hit Hrest]]]].
  assert (Hstate : od_get "state" it = Some (PStr state)) by (now rewrite Hit).
  destruct Hrest as [-> | [src [-> [-> [Hne Habs]]]]].
  - assert (Hno : od_get "src" it = None) by (now rewrite Hit).
    split; [| intros v Hv; congruence].
    rewrite Hno, Hstate. split; [intros C; now elim C |].
    intros [Hl Ht]. inversion Hl; subst state.
    destruct (abs_link_src_some (dict_get entry "linkto")
                (py_or (dict_get entry "path") (PStr "")) Ht) as [src [Ha [Hn _]]].
    exfalso. revert H. unfold _build_item. rewrite Hs. cbn [bind String.eqb Ascii.eqb Bool.eqb].
    rewrite Ha. apply String.eqb_neq in Hn. rewrite Hn. cbn [negb].
    intros H. inversion H as [Hi]. rewrite <- Hi in Hno. discriminate Hno.
  - assert (Hsrc : od_get "src" it = Some (PStr src)) by (now rewrite Hit).
    rewrite Hsrc, Hstate. split.
    + split; [intros _ | discriminate]. split; [reflexivity |].
      destruct (truthy (dict_get entry "linkto")) eqn:Et; [reflexivity |].
      rewrite abs_link_src_cases, Et in Habs. discriminate.
    + intros v Hv. inversion Hv; subst v. exists src. split; [reflexivity |].
      destruct (truthy (dict_get entry "linkto")) eqn:Et.
      * destruct (abs_link_src_some (dict_get entry "linkto")
                    (py_or (dict_get entry "path") (PStr "")) Et) as [s [Ha [_ Hsl]]].
        congruence.
      * rewrite abs_link_src_cases, Et in Habs. discriminate.
Qed.

Lemma build_item_src_witness :
  (od_get "src" [("follow", PBool false); ("force", PBool true); ("group", PStr "root");
                 ("mode", PStr ""); ("owner", PStr "root");
                 ("path", PStr "/etc/default/useradd"); ("state", PStr "link");
                 ("src", PStr "/etc/bin/sh")] <> None <->
   od_get "state" [("follow", PBool false); ("force", PBool true); ("group", PStr "root");
                   ("mode", PStr ""); ("owner", PStr "root");
                   ("path", PStr "/etc/default/useradd"); ("state", PStr "link");
                   ("src", PStr "/etc/bin/sh")] = Some (PStr "link") /\
   truthy (dict_get sample_link "linkto") = true).
Proof.
  apply (build_item_src sample_link). reflexivity.
Defined.

Lemma prop_lines_binding (it : config_item) (k : string) (v : pyval) :
  od_get k it = Some v ->
  prop_lines it k = if binding_kept (k, v) then [binding_line (k, v)] else [].
Proof.
  intros H. unfold prop_lines, binding_kept, binding_line. rewrite H.
  cbn [fst snd].
  destruct (not_blank v); [reflexivity |]. cbn [orb].
  destruct (String.eqb k "follow" || String.eqb k "force"); reflexivity.
Qed.

Lemma prop_lines_absent (it : config_item) (k : string) :
  od_get k it = None -> prop_lines it k = [].
Proof. intros H. unfold prop_lines. now rewrite H. Qed.

Lemma kept_lines_cons (kv : string * pyval) (l : list (string * pyval)) :
  map binding_line (filter binding_kept (kv :: l))
  = (if binding_kept kv then [binding_line kv] else [])
    ++ map binding_line (filter binding_kept l).
Proof. cbn [filter]. destruct (binding_kept kv); reflexivity. Qed.

(** X12. The emitter prints an item in the item's own order.  The keys of
    a built item are the emitter's fixed property list, with or without the
    last one ([src]); and the lines written for the item are its key line
    followed by one line per binding of the item, in insertion order,
    leaving out the bindings whose value is [None] or the empty string
    (other than [follow] and [force]). *)
Theorem item_lines_follow_item (entry : dict) (it : config_item) (key : string) :
  _build_item entry = Ok it ->
  (od_keys it = PROP_ORDER \/ od_keys it = removelast PROP_ORDER) /\
  item_lines (key, it)
  = ("    " ++ key ++ ":")%string :: map binding_line (filter binding_kept it).
Proof.
  intros H. destruct (build_item_shape entry it H) as [state [rest [_ [-> Hrest]]]].
  split.
  - destruct Hrest as [-> | [src [-> _]]]; [right | left]; reflexivity.
  - unfold item_lines. f_equal. unfold PROP_ORDER. cbn [flat_map].
    destruct Hrest as [-> | [src [-> _]]]; cbn [app];
      rewrite !kept_lines_cons;
      erewrite (prop_lines_binding _ "follow") by reflexivity;
      erewrite (prop_lines_binding _ "force") by reflexivity;
      erewrite (prop_lines_binding _ "group") by reflexivity;
      erewrite (prop_lines_binding _ "mode") by reflexivity;
      erewrite (prop_lines_binding _ "owner") by reflexivity;
      erewrite (prop_lines_binding _ "path") by reflexivity;
      erewrite (prop_lines_binding _ "state") by reflexivity.
    + now rewrite prop_lines_absent by reflexivity.
    + erewrite (prop_lines_binding _ "src") by reflexivity. reflexivity.
Qed.

Lemma item_lines_follow_item_witness :
  item_lines ("etc_default_useradd",
              [("follow", PBool false); ("force", PBool true); ("group", PStr "root");
               ("mode", PStr ""); ("owner", PStr "root");
               ("path", PStr "/etc/default/useradd"); ("state", PStr "link");
               ("src", PStr "/etc/bin/sh")])
  = ["    etc_default_useradd:"; "      follow: false"; "      force: true";
     "      group: 'root'"; "      owner: 'root'";
     "      path: '/etc/default/useradd'"; "      state: 'link'";
     "      src: '/etc/bin/sh'"].
Proof.
  destruct (item_lines_follow_item sample_link
              [("follow", PBool false); ("force", PBool true); ("group", PStr "root");
               ("mode", PStr ""); ("owner", PStr "root");
               ("path", PStr "/etc/default/useradd"); ("state", PStr "link");
               ("src", PStr "/etc/bin/sh")] "etc_default_useradd" eq_refl) as [_ H].
  etransitivity; [exact H | reflexivity].
Defined.

(** ** The shape of sanitized keys *)

Lemma all_chars_app (p : ascii -> bool) (a b : string) :
  Str.all_chars p (a ++ b) = Str.all_chars p a && Str.all_chars p b.
Proof.
  induction a as [| c a IH]; simpl; [reflexivity |]. now rewrite IH, andb_assoc.
Qed.

Lemma all_chars_lstrip (p r : ascii -> bool) (s : string) :
  Str.all_chars p s = true -> Str.all_chars p (Str.lstrip_by r s) = true.
Proof.
  induction s as [| c s IH]; simpl; [trivial |].
  rewrite andb_true_iff. intros [Hc Hs].
  destruct (r c); [now apply IH |]. simpl. now rewrite Hc, Hs.
Qed.

Lemma all_chars_rstrip (p r : ascii -> bool) (s : string) :
  Str.all_chars p s = true -> Str.all_chars p (Str.rstrip_by r s) = true.
Proof.
  induction s as [| c s IH]; [trivial |].
  cbn [Str.all_chars]. rewrite andb_true_iff. intros [Hc Hs].
  rewrite rstrip_by_cons. unfold rcons. specialize (IH Hs).
  destruct (Str.rstrip_by r s) eqn:E.
  - destruct (r c); simpl; [reflexivity | now rewrite Hc].
  - cbn [Str.all_chars] in *. now rewrite Hc, IH.
Qed.

Lemma all_chars_collapse (b : bool) (s : string) :
  Str.all_chars key_char_or_underscore (collapse_runs b s) = true.
Proof.
  revert b. induction s as [| c s IH]; intros b; simpl; [reflexivity |].
  destruct (is_key_char c) eqn:E; [| destruct b]; simpl; rewrite ?IH; try reflexivity.
  unfold key_char_or_underscore. now rewrite E.
Qed.

Lemma lstrip_by_head (p : ascii -> bool) (s : string) :
  match Str.lstrip_by p s with
  | EmptyString => True
  | String c _ => p c = false
  end.
Proof.
  induction s as [| c s IH]; simpl; [trivial |].
  destruct (p c) eqn:E; [exact IH | exact E].
Qed.

Lemma rstrip_by_head (p : ascii -> bool) (c : ascii) (s : string) :
  p c = false -> exists r, Str.rstrip_by p (String c s) = String c r.
Proof.
  intros Hc. rewrite rstrip_by_cons. unfold rcons. rewrite Hc.
  destruct (Str.rstrip_by p s); eexists; reflexivity.
Qed.

Lemma rstrip_by_last (d : ascii) (s : string) :
  Str.ends_with_char d (Str.rstrip_by (Str.is_char d) s) = false.
Proof.
  induction s as [| c s IH]; [reflexivity |].
  rewrite rstrip_by_cons. unfold rcons.
  destruct (Str.rstrip_by (Str.is_char d) s) as [| c' r] eqn:E.
  - unfold Str.is_char. destruct (Ascii.eqb c d) eqn:Ec; simpl; [reflexivity | exact Ec].
  - exact IH.
Qed.

Lemma strip_by_edges (d : ascii) (s : string) :
  Str.startswith (String d "") (Str.strip_by (Str.is_char d) s) = false /\
  Str.ends_with_char d (Str.strip_by (Str.is_char d) s) = false.
Proof.
  unfold Str.strip_by. split; [| apply rstrip_by_last].
  pose proof (lstrip_by_head (Str.is_char d) s) as H.
  destruct (Str.lstrip_by (Str.is_char d) s) as [| c r]; [reflexivity |].
  destruct (rstrip_by_head (Str.is_char d) c r H) as [r' ->].
  cbn [Str.startswith]. unfold Str.is_char in H.
  now rewrite Ascii.eqb_sym, H.
Qed.

Lemma base_key_shape (s : string) :
  base_key s <> "" /\
  Str.all_chars key_char_or_underscore (base_key s) = true /\
  Str.startswith "_" (base_key s) = false /\
  Str.ends_with_char "_" (base_key s) = false.
Proof.
  unfold base_key. rewrite sanitize_loop_collapse. cbn [append].
  set (out := collapse_runs false _).
  destruct (strip_by_edges "_" out) as [Hh Ht].
  assert (Ha : Str.all_chars key_char_or_underscore
                 (Str.strip_by (Str.is_char "_") out) = true).
  { unfold Str.strip_by. apply all_chars_rstrip, all_chars_lstrip, all_chars_collapse. }
  unfold str_or.
  destruct (String.eqb_spec (Str.strip_by (Str.is_char "_") out) "") as [E | N].
  - repeat split; try reflexivity; discriminate.
  - repeat split; assumption.
Qed.

Lemma digits_of_uint (d : Decimal.uint) :
  Str.all_chars (Str.between 48 57) (NilEmpty.string_of_uint d) = true.
Proof. induction d; simpl; try rewrite IHd; reflexivity. Qed.

Lemma of_nat_digits (n : nat) :
  Str.of_nat n <> "" /\ Str.all_chars (Str.between 48 57) (Str.of_nat n) = true.
Proof.
  split; [| apply digits_of_uint].
  unfold Str.of_nat. intros E.
  pose proof (NilEmpty.usu (Nat.to_uint n)) as U. rewrite E in U. simpl in U.
  inversion U as [Hn]. pose proof (Unsigned.of_to n) as O. rewrite <- Hn in O.
  simpl in O. subst n. discriminate Hn.
Qed.

Lemma ends_with_char_app (d : ascii) (a b : string) :
  b <> "" -> Str.ends_with_char d (a ++ b) = Str.ends_with_char d b.
Proof.
  intros Hb. induction a as [| c a IH]; [reflexivity |].
  cbn [append Str.ends_with_char]. rewrite IH.
  destruct (a ++ b)%string eqn:E; [| reflexivity].
  destruct a; [simpl in E; contradiction | discriminate].
Qed.

Lemma ends_with_digit (d : ascii) (s : string) :
  Str.all_chars (Str.between 48 57) s = true ->
  Str.between 48 57 d = false -> Str.ends_with_char d s = false.
Proof.
  intros Hs Hd. induction s as [| c s IH]; [reflexivity |].
  cbn [Str.all_chars] in Hs. apply andb_true_iff in Hs as [Hc Hs].
  cbn [Str.ends_with_char]. destruct s as [| c' s'].
  - destruct (Ascii.eqb_spec c d) as [-> |]; [congruence | reflexivity].
  - now apply IH.
Qed.

(** X13. Every key is a plain identifier.  Whatever the path and whatever
    keys are in use, the key [_sanitize_key] returns is not empty, consists
    of lower-case letters, digits and underscores only, and neither begins
    nor ends with an underscore. *)
Theorem sanitize_key_shape (h : hashing) (path : pyval) (used used' : list string)
  (key : string) :
  _sanitize_key h path used = Ok (key, used') ->
  key <> "" /\
  Str.all_chars key_char_or_underscore key = true /\
  Str.startswith "_" key = false /\
  Str.ends_with_char "_" key = false.
Proof.
  unfold _sanitize_key.
  destruct (py_strip (py_or path (PStr ""))) as [s | e |]; cbn [bind]; try discriminate.
  destruct (base_key_shape s) as [Hne [Hall [Hhead Hlast]]].
  destruct (str_mem (base_key s) used); cbn [negb].
  - destruct (suffix_loop (S (length used)) (base_key s) used 2) as [c | e |] eqn:L;
      cbn [bind]; try discriminate.
    intros H. inversion H; subst key used'. clear H.
    destruct (suffix_loop_first _ _ _ _ _ L) as [n [_ [-> _]]].
    destruct (of_nat_digits n) as [Hn Hd]. unfold candidate_key.
    repeat split.
    + destruct (base_key s); [contradiction | discriminate].
    + rewrite !all_chars_app, Hall. cbn [Str.all_chars andb].
      replace (key_char_or_underscore "_") with true by reflexivity. cbn [andb].
      revert Hd. apply all_chars_impl. intros c Hc.
      unfold key_char_or_underscore, is_key_char. now rewrite Hc, orb_true_r.
    + destruct (base_key s); [contradiction | exact Hhead].
    + rewrite ends_with_char_app.
      * cbn [append]. destruct (Str.of_nat n) eqn:E; [contradiction |].
        rewrite <- E in *. cbn [Str.ends_with_char].
        rewrite E. rewrite <- E. now apply ends_with_digit.
      * discriminate.
  - intros H. inversion H; subst key used'. repeat split; assumption.
Qed.

Lemma sanitize_key_shape_witness :
  "etc_default_useradd_2" <> "" /\
  Str.all_chars key_char_or_underscore "etc_default_useradd_2" = true /\
  Str.startswith "_" "etc_default_useradd_2" = false /\
  Str.ends_with_char "_" "etc_default_useradd_2" = false.
Proof.
  apply (sanitize_key_shape hash_front (PStr " /etc/Default//useradd! ")
           ["etc_default_useradd"] ["etc_default_useradd_2"; "etc_default_useradd"]).
  reflexivity.
Defined.

(** ** Merging again *)

Lemma first_seen_distinct (l kept : list dict) :
  NoDup (map path_str l) ->
  (forall r, In r l -> path_str r <> "") ->
  (forall k r, In k kept -> In r l -> path_str k <> path_str r) ->
  first_seen kept l = kept ++ l.
Proof.
  revert kept. induction l as [| f l IH]; intros kept Hnd Hne Hk; simpl.
  - now rewrite app_nil_r.
  - inversion Hnd as [| ? ? Hf Hl]; subst.
    assert (E1 : String.eqb (path_str f) "" = false)
      by (apply String.eqb_neq, Hne; now left).
    assert (E2 : existsb (fun k => String.eqb (path_str k) (path_str f)) kept = false).
    { destruct (existsb _ kept) eqn:E; [| reflexivity].
      apply existsb_exists in E as [k [Hin Hp]]. apply String.eqb_eq in Hp.
      exfalso. apply (Hk k f Hin); [now left | exact Hp]. }
    rewrite E1, E2. cbn [negb andb].
    rewrite IH; [now rewrite <- app_assoc | exact Hl | |].
    + intros r Hr. apply Hne. now right.
    + intros k r Hin Hr. apply in_app_iff in Hin as [Hin | [<- | []]].
      * apply Hk; [exact Hin | now right].
      * intros E. apply Hf. rewrite E. now apply in_map.
Qed.

Lemma pkg_ok_of_records (pkg : dict) (records : list dict) :
  dict_get pkg "files" = PList (map PDict records) ->
  Forall (fun r => field_ok (dict_get r "path") = true) records ->
  pkg_ok pkg = true /\ files_of pkg = records.
Proof.
  intros Hf Hr. unfold pkg_ok, files_of, py_or. rewrite Hf. cbn [truthy].
  assert (G : forall l : list dict,
              Forall (fun r => field_ok (dict_get r "path") = true) l ->
              forallb (fun f => match f with
                                | PDict d => field_ok (dict_get d "path")
                                | _ => false
                                end) (map PDict l) = true /\
              flat_map (fun f => match f with PDict d => [d] | _ => [] end)
                       (map PDict l) = l).
  { induction 1 as [| r l Hr' _ [IH1 IH2]]; [split; reflexivity |].
    cbn [map forallb flat_map app]. now rewrite Hr', IH1, IH2. }
  destruct (G records Hr) as [G1 G2].
  destruct (map PDict records) eqn:E; [| now split].
  split; [reflexivity |]. destruct records; [reflexivity | discriminate].
Qed.

Lemma pkg_ok_files (pkg : dict) :
  pkg_ok pkg = true ->
  Forall (fun r => field_ok (dict_get r "path") = true) (files_of pkg).
Proof.
  unfold pkg_ok, files_of.
  assert (G : forall l,
    forallb (fun f => match f with
                      | PDict d => field_ok (dict_get d "path")
                      | _ => false
                      end) l = true ->
    Forall (fun r => field_ok (dict_get r "path") = true)
           (flat_map (fun f => match f with PDict d => [d] | _ => [] end) l)).
  { induction l as [| f l IH]; [constructor |].
    cbn [forallb flat_map]. rewrite andb_true_iff. intros [Hf Hl].
    destruct f; try discriminate. cbn [app]. constructor; [exact Hf | now apply IH]. }
  destruct (py_or (dict_get pkg "files") (PList [])); try discriminate; apply G.
Qed.

(** X14. Merging is idempotent.  The merged list, handed back as the file
    list of a single package, merges to itself: nothing more is dropped and
    the order stays. *)
Theorem merge_idempotent (h h' : hashing) (pkg_objs : list dict) (out : list dict)
  (pkg : dict) :
  forallb pkg_ok pkg_objs = true ->
  _merge_files_from_packages h pkg_objs = Ok out ->
  dict_get pkg "files" = PList (map PDict out) ->
  _merge_files_from_packages h' [pkg] = Ok out.
Proof.
  intros Hok Hm Hf. rewrite (merge_first_seen h pkg_objs Hok) in Hm.
  inversion Hm as [Hout]. clear Hm.
  pose proof (merge_inv_first_seen (flat_map files_of pkg_objs) [] []) as Hinv.
  destruct Hinv as [Hnd [Hkept _]].
  { split; [constructor |]. split; [intros r [] | intros f []]. }
  rewrite Hout in Hnd, Hkept. cbn [app] in Hkept.
  assert (Hfields : Forall (fun r => field_ok (dict_get r "path") = true) out).
  { apply Forall_forall. intros r Hr. rewrite <- Hout in Hr.
    apply first_seen_members in Hr as [[] | Hr].
    apply in_flat_map in Hr as [p [Hp Hr]].
    rewrite forallb_forall in Hok.
    pose proof (pkg_ok_files p (Hok p Hp)) as Hall.
    rewrite Forall_forall in Hall. now apply Hall. }
  destruct (pkg_ok_of_records pkg out Hf Hfields) as [Hpk Hfiles].
  rewrite (merge_first_seen h' [pkg]) by (cbn [forallb]; now rewrite Hpk).
  cbn [flat_map]. rewrite Hfiles, app_nil_r. f_equal. rewrite Hout.
  apply (first_seen_distinct out []); [exact Hnd | | intros k r []].
  intros r Hr. now apply Hkept.
Qed.

Lemma merge_idempotent_witness :
  _merge_files_from_packages hash_back
    [[("files",
       PList (map PDict
                [[("path", PStr "/etc/foo.conf"); ("mode", PStr "0644")];
                 [("path", PStr "/usr/bin/foo"); ("mode", PStr "0755")];
                 [("path", PStr "/usr/lib/libfoo.so"); ("mode", PStr "0755")]]))]]
  = Ok [[("path", PStr "/etc/foo.conf"); ("mode", PStr "0644")];
        [("path", PStr "/usr/bin/foo"); ("mode", PStr "0755")];
        [("path", PStr "/usr/lib/libfoo.so"); ("mode", PStr "0755")]].
Proof.
  apply (merge_idempotent hash_front hash_back [pkg_first; pkg_second]);
    reflexivity.
Defined.

(** ** Where the entries of a document come from *)

Lemma od_set_In {V : Type} (k key : string) (v v' : V) (d : odict V) :
  In (k, v') (od_set key v d) -> (k, v') = (key, v) \/ In (k, v') d.
Proof.
  induction d as [| [k0 v0] d IH]; simpl.
  - intros [H | []]. left. now symmetry.
  - destruct (String.eqb_spec k0 key) as [-> | Hne]; simpl.
    + intros [H | H]; [left; now symmetry | right; now right].
    + intros [H | H]; [right; now left |].
      destruct (IH H); [now left | right; now right].
Qed.

Lemma grouped_set_In (cat key : string) (it : config_item)
  (g g' : list (string * category_map)) (c : string) (items' : category_map) :
  grouped_set cat key it g = Ok g' ->
  In (c, items') g' ->
  In (c, items') g \/
  (c = cat /\ exists items, In (cat, items) g /\ items' = od_set key it items).
Proof.
  revert g'. induction g as [| [c0 items0] rest IH]; intros g'; simpl; [discriminate |].
  destruct (String.eqb_spec c0 cat) as [-> | Hne].
  - intros H. inversion H; subst g'. simpl. intros [E | Hin].
    + inversion E; subst. right. split; [reflexivity |]. exists items0. auto.
    + left. now right.
  - destruct (grouped_set cat key it rest) as [rest' | e |]; cbn [bind];
      try discriminate.
    intros H. inversion H; subst g'. simpl. intros [E | Hin].
    + left. now left.
    + destruct (IH rest' eq_refl Hin) as [Hl | [Hc [items [Hi Hs]]]].
      * left. now right.
      * right. split; [exact Hc |]. exists items. auto.
Qed.

Lemma build_file_entries (h : hashing) (done : list dict)
  (st st' : list string * list (string * category_map)) (f : dict) :
  build_file h st f = Ok st' ->
  entries_from h done (snd st) -> entries_from h (done ++ [f]) (snd st').
Proof.
  destruct st as [used g]. unfold build_file. cbn [snd].
  destruct (_sanitize_key h (py_or (dict_get f "path") (PStr "")) used)
    as [[key used'] | e |]; cbn [bind]; try discriminate.
  destruct (_build_item f) as [it |e |] eqn:Ei; cbn [bind]; try discriminate.
  destruct (grouped_set (_category_for h f) key it g) as [g' | e |] eqn:Eg;
    cbn [bind]; try discriminate.
  intros H Hinv. inversion H; subst st'. cbn [snd].
  intros c items' k it' Hc Hk.
  destruct (grouped_set_In _ _ _ _ _ _ _ Eg Hc) as [Hold | [-> [items [Hi ->]]]].
  - destruct (Hinv c items' k it' Hold Hk) as [f0 [Hf0 H0]].
    exists f0. split; [apply in_app_iff; now left | exact H0].
  - apply od_set_In in Hk as [E | Hk].
    + inversion E; subst. exists f. split; [apply in_app_iff; right; now left |].
      now split.
    + destruct (Hinv _ items k it' Hi Hk) as [f0 [Hf0 H0]].
      exists f0. split; [apply in_app_iff; now left | exact H0].
Qed.

Lemma build_files_entries (h : hashing) (files done : list dict)
  (st st' : list string * list (string * category_map)) :
  for_each (build_file h) files st = Ok st' ->
  entries_from h done (snd st) -> entries_from h (done ++ files) (snd st').
Proof.
  revert done st. induction files as [| f files IH]; intros done st; simpl.
  - intros H. inversion H; subst. now rewrite app_nil_r.
  - destruct (build_file h st f) as [st1 | e |] eqn:E; cbn [bind]; try discriminate.
    intros H Hinv. change (f :: files) with ([f] ++ files). rewrite app_assoc.
    apply (IH _ st1 H). now apply (build_file_entries h done st).
Qed.

Lemma general_item_is_link (h : hashing) (f : dict) (it : config_item) :
  _category_for h f = "general" -> _build_item f = Ok it ->
  od_get "state" it = Some (PStr "link").
Proof.
  rewrite category_for_unfold. intros Hc Hb.
  destruct (has_flag "config" f); [discriminate |].
  destruct (has_flag "license" f); [discriminate |].
  destruct (has_flag "doc" f); [discriminate |].
  destruct (type_is_link f) eqn:Et; [| discriminate].
  destruct (build_item_shape f it Hb) as [state [rest [Hs [-> _]]]].
  cbn [od_get app String.eqb Ascii.eqb Bool.eqb]. do 2 f_equal.
  unfold type_is_link in Et. apply String.eqb_eq in Et.
  revert Hs. unfold _state_from_type.
  destruct (py_or (dict_get f "type") (PStr "")); cbn [py_lower bind]; try discriminate.
  cbn [py_str] in Et. rewrite Et. cbn. intros H. now inversion H.
Qed.

(** X15. Every entry of the document is accounted for.  Each entry under
    a category is the item built from one of the input records, and that
    record is classified under that very category; so the category
    [general] holds nothing but items whose state is [link]. *)
Theorem document_entries_origin (h : hashing) (files : list dict) (doc : document) :
  _build_yaml_data h files = Ok doc ->
  exists cats : files_map,
    doc = [("files", cats)] /\
    forall (c : string) (items : category_map) (key : string) (it : config_item),
      In (c, items) cats -> In (key, it) items ->
      (exists f, In f files /\ _build_item f = Ok it /\ _category_for h f = c) /\
      (c = "general" -> od_get "state" it = Some (PStr "link")).
Proof.
  unfold _build_yaml_data.
  destruct (for_each (build_file h) files ([], map (fun k => (k, [])) _CATEGORY_ORDER))
    as [[used g] | e |] eqn:E; cbn [bind]; try discriminate.
  pose proof E as E'.
  apply (for_each_inv assembly_inv _ (build_file_inv h)) with (n := 0) in E';
    [| repeat split; simpl; try constructor; intros k []].
  destruct E' as [Hn _]. cbn [snd] in *.
  rewrite (collect_categories_id g Hn). cbn [bind od_set].
  intros H. inversion H; subst doc. exists g. split; [reflexivity |].
  apply (build_files_entries h files []) in E.
  - cbn [app snd] in E. intros c items key it Hc Hk.
    destruct (E c items key it Hc Hk) as [f [Hf [Hb Hcat]]].
    split; [now exists f |]. intros ->. now apply (general_item_is_link h f).
  - intros c items key it Hc Hk. cbn [snd] in Hc. simpl in Hc.
    repeat destruct Hc as [Hc | Hc]; try contradiction; inversion Hc; subst; contradiction.
Qed.

Lemma document_entries_origin_witness :
  exists cats : files_map,
    sample_document = [("files", cats)] /\
    forall (c : string) (items : category_map) (key : string) (it : config_item),
      In (c, items) cats -> In (key, it) items ->
      (exists f, In f [sample_conf; sample_link] /\ _build_item f = Ok it /\
                 _category_for hash_back f = c) /\
      (c = "general" -> od_get "state" it = Some (PStr "link")).
Proof.
  apply (document_entries_origin hash_back [sample_conf; sample_link] sample_document).
  reflexivity.
Defined.

(** ** The command *)

Example main_samples :
  main sample_host {| version := false; distro := "auto"; output := None;
                      package := Some " foo " |}
  = Exit {| status := 0; stdout := ("wrote: files_foo.yml" ++ newline)%string;
            stderr := ""; written := Some "files_foo.yml" |} /\
  main sample_host {| version := false; distro := "auto"; output := None;
                      package := Some "bar" |}
  = failed 3 "Package not installed: bar" /\
  main sample_host {| version := false; distro := "auto"; output := None;
                      package := Some "a/b" |}
  = failed 2 "Package name contains an invalid character." /\
  main sample_host {| version := false; distro := "fedora"; output := None;
                      package := Some "foo" |}
  = failed 2 "Unsupported distro. Supported: rhel, ubuntu" /\
  main sample_host {| version := false; distro := "rhel"; output := Some "/proc/x";
                      package := Some "foo" |}
  = failed 5 "failed to write YAML: Permission denied" /\
  main sample_host {| version := true; distro := "auto"; output := None;
                      package := None |}
  = Exit {| status := 0; stdout := ("0.0.1" ++ newline)%string; stderr := "";
            written := None |}.
Proof. repeat split. Qed.

Lemma py_hash_key_fuel (v : pyval) : py_hash_key v <> OutOfFuel.
Proof.
  induction v as [| b | z | s | l IH | l IH | l IH | d IH] using pyval_nested_ind;
    try discriminate.
  cbn [py_hash_key].
  match goal with |- bind ?m _ <> _ => assert (G : m <> OutOfFuel) end.
  { induction IH as [| x l Hx _ IHl]; [discriminate |].
    destruct (py_hash_key x); cbn [bind]; try discriminate; [| contradiction].
    match goal with |- bind ?m _ <> _ => destruct m end; cbn [bind];
      try discriminate. contradiction. }
  match goal with |- bind ?m _ <> _ => destruct m end; cbn [bind];
    try discriminate. contradiction.
Qed.

Lemma merge_fuel (h : hashing) (pkg_objs : list dict) :
  _merge_files_from_packages h pkg_objs <> OutOfFuel.
Proof.
  unfold _merge_files_from_packages.
  assert (G : forall st, for_each (merge_pkg h) pkg_objs st <> OutOfFuel).
  { intros st. apply for_each_fuel. intros [seen out] pkg. unfold merge_pkg.
    destruct (py_iter (py_or (dict_get pkg "files") (PList []))) as [files | e |] eqn:E;
      cbn [bind]; try discriminate.
    - apply for_each_fuel. intros [seen' out'] f. unfold merge_file.
      destruct f; cbn [py_as_dict bind]; try discriminate.
      destruct (negb (truthy (dict_get d "path"))); [discriminate |].
      pose proof (py_hash_key_fuel (dict_get d "path")) as Hk.
      destruct (py_hash_key (dict_get d "path")); cbn [bind]; try discriminate;
        [| contradiction].
      destruct (key_mem a seen'); discriminate.
    - destruct (py_or (dict_get pkg "files") (PList [])); discriminate. }
  specialize (G ([], [])).
  destruct (for_each (merge_pkg h) pkg_objs ([], [])); cbn [bind];
    try discriminate. contradiction.
Qed.

Lemma build_yaml_data_fuel (h : hashing) (files : list dict) :
  _build_yaml_data h files <> OutOfFuel.
Proof.
  unfold _build_yaml_data.
  pose proof (for_each_agree runs_agree (build_file h) (build_file h)
                (build_file_seed_free h h) files
                ([], map (fun k => (k, [])) _CATEGORY_ORDER)
                ([], map (fun k => (k, [])) _CATEGORY_ORDER)
                (conj (same_members_refl []) eq_refl)) as G.
  remember (for_each (build_file h) files ([], map (fun k => (k, [])) _CATEGORY_ORDER))
    as run eqn:Er.
  destruct run as [[used g] | e |]; cbn [bind snd]; [| discriminate | now elim G].
  pose proof (collect_categories_fuel g) as Hc.
  destruct (collect_categories g); cbn [bind]; try discriminate. contradiction.
Qed.

Lemma registry_no_slash (key : string) (policy : Policy) (s : string) :
  od_get key _POLICY_REGISTRY = Some policy ->
  conforms policy s = true -> Str.contains_char "/" s = false.
Proof.
  intros Hp Hc. unfold conforms in Hc. rewrite !andb_true_iff in Hc.
  destruct Hc as [_ Hall].
  assert (Hslash : char_in "/" (allowed_chars policy) = false).
  { revert Hp. unfold _POLICY_REGISTRY. cbn [od_get].
    destruct (String.eqb "ubuntu" key); [intros H; now inversion H |].
    destruct (String.eqb "rhel" key); [intros H; now inversion H | discriminate]. }
  induction s as [| c s IH]; [reflexivity |].
  cbn [Str.all_chars] in Hall. apply andb_true_iff in Hall as [Hc Hs].
  cbn [Str.contains_char]. rewrite (IH Hs), orb_false_r.
  destruct (Ascii.eqb_spec c "/") as [-> |]; [congruence | reflexivity].
Qed.

Lemma contains_char_app (d : ascii) (a b : string) :
  Str.contains_char d (a ++ b) = Str.contains_char d a || Str.contains_char d b.
Proof.
  induction a as [| c a IH]; simpl; [reflexivity |]. now rewrite IH, orb_assoc.
Qed.

(** X16. How a run of [main] can end.  It always ends.  It ends with one
    of the statuses 0, 2, 3, 4, 5, or with an exception of the merge or of
    the assembly that nothing catches; status 0 is the only one under which
    a file has been written, and then nothing goes to the error stream.
    When the query returns what the provider builds, there is no uncaught
    exception at all. *)
Theorem main_outcomes (env : host) (args : Namespace) :
  main env args <> Hang /\
  (forall e, main env args = Crash e -> exists pe, e = Uncaught pe) /\
  (forall r, main env args = Exit r ->
     In (status r) [0; 2; 3; 4; 5]%Z /\
     (written r <> None -> status r = 0%Z /\ stderr r = "")) /\
  (forall decode,
     (forall name pkg_objs,
        installed env name = Installed pkg_objs -> Forall (provided decode) pkg_objs) ->
     exists r, main env args = Exit r).
Proof.
  unfold main, failed.
  destruct (version args).
  { split; [discriminate |]. split; [discriminate |]. split.
    - intros r H. inversion H; subst r. cbn. split; [now left | intros C; now elim C].
    - intros _ _. eexists. reflexivity. }
  destruct (package args) as [[| c0 pkg] |].
  1,3: split; [discriminate |]; (split; [discriminate |]); split;
    [intros r H; inversion H; subst r; cbn; split; [now left | intros C; now elim C]
    | intros _ _; eexists; reflexivity].
  destruct (resolve_returns (os_release env) (distro args)) as [d ->].
  unfold validate_and_query.
  destruct (validate_str_cases (String c0 pkg) d) as [[name Hv] | [msg Hv]];
    rewrite Hv; cbn [and_then].
  2: { split; [discriminate |]. split; [discriminate |]. split.
       - intros r H. inversion H; subst r. cbn.
         split; [right; now left | intros C; now elim C].
       - intros _ _. eexists. reflexivity. }
  destruct (installed env name) as [pkg_objs | msg | msg] eqn:Ei.
  2,3: split; [discriminate |]; (split; [discriminate |]); split;
    [intros r H; inversion H; subst r; cbn; split; [tauto | intros C; now elim C]
    | intros _ _; eexists; reflexivity].
  pose proof (merge_fuel (seed env) pkg_objs) as Hmf.
  destruct (_merge_files_from_packages (seed env) pkg_objs) as [files | e |] eqn:Em;
    [| | contradiction].
  2: { split; [discriminate |]. split; [intros e' H; inversion H; now exists e |].
       split; [discriminate |]. intros decode Hprov. exfalso.
       destruct (provided_merged_ok decode pkg_objs (Hprov _ _ Ei)) as [Hpk _].
       rewrite (merge_first_seen (seed env) pkg_objs Hpk) in Em. discriminate. }
  pose proof (build_yaml_data_fuel (seed env) files) as Hbf.
  destruct (_build_yaml_data (seed env) files) as [yaml_data | e |] eqn:Eb;
    [| | contradiction].
  2: { split; [discriminate |]. split; [intros e' H; inversion H; now exists e |].
       split; [discriminate |]. intros decode Hprov. exfalso.
       destruct (provided_merged_ok decode pkg_objs (Hprov _ _ Ei)) as [Hpk Hrec].
       rewrite (merge_first_seen (seed env) pkg_objs Hpk) in Em.
       inversion Em; subst files.
       destruct (build_yaml_data_ok (seed env) _ Hrec) as [doc Hdoc]. congruence. }
  destruct (yaml_dump_to env yaml_data _) as [msg |].
  - split; [discriminate |]. split; [discriminate |]. split.
    + intros r H. inversion H; subst r. cbn. split; [tauto | intros C; now elim C].
    + intros _ _. eexists. reflexivity.
  - split; [discriminate |]. split; [discriminate |]. split.
    + intros r H. inversion H; subst r. cbn. split; [now left | intros _; now split].
    + intros _ _. eexists. reflexivity.
Qed.

Lemma main_outcomes_witness :
  exists r,
    main provider_host {| version := false; distro := "auto"; output := None;
                          package := Some " foo " |} = Exit r.
Proof.
  destruct (main_outcomes provider_host
              {| version := false; distro := "auto"; output := None;
                 package := Some " foo " |}) as [_ [_ [_ Hprov]]].
  apply (Hprov sample_decode).
  intros name pkg_objs H. inversion H; subst pkg_objs.
  constructor; [| constructor]. exists sample_header. reflexivity.
Defined.

Lemma validate_returns (name distro s : string) :
  validate_package_name (PStr name) (PStr distro) = Return s ->
  s = Str.strip name /\
  exists policy,
    od_get (Str.lower (Str.strip distro)) _POLICY_REGISTRY = Some policy /\
    conforms policy s = true.
Proof.
  intros Hv.
  destruct (validate_policy _ _ _ Hv) as [n [d [policy [_ [Hd Hp]]]]].
  destruct (py_or_str distro) as [d' [Hd' Hs]].
  assert (d = d') by congruence. subst d'.
  unfold Str.strip in Hp. unfold Str.strip in Hs. rewrite Hs in Hp.
  destruct (validate_sound name distro policy s Hp Hv) as [E Hc].
  split; [exact E |]. now exists policy.
Qed.

(** X17. The default output file.  When no output path is given (or an
    empty one) and [main] writes a file, the file is
    [files_<NAME>.yml] with [<NAME>] the package argument stripped of
    surrounding white space; that path has no [/] in it, so the file lands
    in the current directory, and the path is the one reported on the
    output stream. *)
Theorem main_default_output (env : host) (args : Namespace) (r : run) (path : string) :
  output args = None \/ output args = Some "" ->
  main env args = Exit r ->
  written r = Some path ->
  exists pkg,
    package args = Some pkg /\
    path = ("files_" ++ Str.strip pkg ++ ".yml")%string /\
    Str.contains_char "/" path = false /\
    stdout r = ("wrote: " ++ path ++ newline)%string.
Proof.
  intros Hout. unfold main, failed.
  destruct (version args).
  { intros H; inversion H; subst r. discriminate. }
  destruct (package args) as [[| c0 pkg] |].
  1,3: intros H; inversion H; subst r; discriminate.
  destruct (_resolve_distro (os_release env) (distro args)) as [d | e];
    [| discriminate].
  unfold validate_and_query.
  destruct (validate_package_name (PStr (String c0 pkg)) (PStr d)) as [name | e] eqn:Hv;
    cbn [and_then].
  2: { destruct e; intros H; inversion H; subst r; discriminate. }
  destruct (installed env name) as [pkg_objs | msg | msg].
  2,3: intros H; inversion H; subst r; discriminate.
  destruct (_merge_files_from_packages (seed env) pkg_objs) as [files | e |];
    try discriminate.
  destruct (_build_yaml_data (seed env) files) as [yaml_data | e |];
    try discriminate.
  assert (Ho : match output args with
               | None | Some EmptyString => ("files_" ++ name ++ ".yml")%string
               | Some p => p
               end = ("files_" ++ name ++ ".yml")%string)
    by (destruct Hout as [-> | ->]; reflexivity).
  rewrite Ho.
  destruct (yaml_dump_to env yaml_data _).
  { intros H; inversion H; subst r; discriminate. }
  intros H Hw. inversion H; subst r. cbn [written] in Hw.
  assert (Epath : path = ("files_" ++ name ++ ".yml")%string) by congruence.
  clear Hw H. subst path.
  destruct (validate_returns _ _ _ Hv) as [E [policy [Hp Hc]]].
  exists (String c0 pkg). split; [reflexivity |]. split; [now rewrite E |].
  split; [| reflexivity].
  rewrite !contains_char_app, (registry_no_slash _ _ _ Hp Hc). reflexivity.
Qed.

Lemma main_default_output_witness :
  exists pkg,
    Some " foo " = Some pkg /\
    "files_foo.yml" = ("files_" ++ Str.strip pkg ++ ".yml")%string /\
    Str.contains_char "/" "files_foo.yml" = false /\
    ("wrote: files_foo.yml" ++ newline)%string
    = ("wrote: " ++ "files_foo.yml" ++ newline)%string.
Proof.
  apply (main_default_output sample_host
           {| version := false; distro := "auto"; output := None;
              package := Some " foo " |}
           {| status := 0; stdout := ("wrote: files_foo.yml" ++ newline)%string;
              stderr := ""; written := Some "files_foo.yml" |}
           "files_foo.yml").
  - left. reflexivity.
  - vm_compute. reflexivity.
  - reflexivity.
Defined.

(** ** Normal form of the link source *)

Lemma split_no_sep (d : ascii) (s : string) :
  Forall (fun c => Str.contains_char d c = false) (Str.split d s).
Proof.
  induction s as [| c r IH]; cbn [Str.split].
  - repeat constructor.
  - destruct (Ascii.eqb c d) eqn:E; [constructor; [reflexivity | exact IH] |].
    destruct (Str.split d r) as [| w ws]; [repeat constructor; cbn; now rewrite E |].
    inversion IH; subst. constructor; [| assumption].
    cbn [Str.contains_char]. now rewrite E.
Qed.

Lemma split_plain (d : ascii) (s : string) :
  Str.contains_char d s = false -> Str.split d s = [s].
Proof.
  induction s as [| c r IH]; cbn [Str.split Str.contains_char]; [reflexivity |].
  intros H. apply orb_false_iff in H as [E Hr]. rewrite E, (IH Hr). reflexivity.
Qed.

Lemma split_app_sep (d : ascii) (a s : string) :
  Str.contains_char d a = false ->
  Str.split d (a ++ String d s) = a :: Str.split d s.
Proof.
  induction a as [| c a IH]; cbn [Str.split Str.contains_char append].
  - intros _. now rewrite Ascii.eqb_refl.
  - intros H. apply orb_false_iff in H as [E Ha]. rewrite E, (IH Ha). reflexivity.
Qed.

Lemma normal_comp_spec (c : string) :
  normal_comp c = true ->
  c <> "" /\ c <> "." /\ c <> ".." /\ Str.contains_char "/" c = false.
Proof.
  unfold normal_comp. rewrite !andb_true_iff, !negb_true_iff.
  intros [[[H1 H2] H3] H4]. repeat split; try assumption;
    intros ->; discriminate.
Qed.

Lemma split_join (comps : list string) :
  comps <> [] -> forallb normal_comp comps = true ->
  Str.split "/" (Str.join "/" comps) = comps.
Proof.
  unfold Str.join.
  induction comps as [| a comps IH]; [congruence |]. intros _ H.
  cbn [forallb] in H. apply andb_true_iff in H as [Ha Hr].
  destruct (normal_comp_spec a Ha) as [_ [_ [_ Hs]]].
  destruct comps as [| b comps].
  - cbn [String.concat]. now apply split_plain.
  - change (String.concat "/" (a :: b :: comps))
      with (a ++ String "/" (String.concat "/" (b :: comps)))%string.
    rewrite (split_app_sep _ _ _ Hs), IH; [reflexivity | discriminate | exact Hr].
Qed.

Lemma last_In {A : Type} (l : list A) (d : A) : l <> [] -> In (last l d) l.
Proof.
  induction l as [| x l IH]; [congruence |]. intros _.
  destruct l as [| y l]; [now left |]. right. apply IH. discriminate.
Qed.

Lemma removelast_incl {A : Type} (l : list A) (x : A) :
  In x (removelast l) -> In x l.
Proof.
  induction l as [| y l IH]; [easy |]. cbn [removelast].
  destruct l as [| z l]; [easy |]. intros [-> | H]; [now left | right; now apply IH].
Qed.

Lemma normpath_step_normal (n : nat) (acc : list string) (comp : string) :
  n <> 0%nat -> forallb normal_comp acc = true ->
  Str.contains_char "/" comp = false ->
  forallb normal_comp (posixpath.normpath_step n acc comp) = true.
Proof.
  intros Hn Hacc Hc. unfold posixpath.normpath_step.
  destruct (String.eqb comp "") eqn:E1; [exact Hacc |].
  destruct (String.eqb comp ".") eqn:E2; [exact Hacc |]. cbn [orb].
  destruct (String.eqb comp "..") eqn:E3; cbn [negb orb].
  - apply Nat.eqb_neq in Hn. rewrite Hn. cbn [andb orb].
    destruct acc as [| x acc]; [reflexivity |]. cbn [posixpath.is_nil negb andb].
    assert (Hl : String.eqb (last (x :: acc) "") ".." = false).
    { apply String.eqb_neq. intros E.
      assert (Hin : In (last (x :: acc) "") (x :: acc)) by (apply last_In; discriminate).
      rewrite forallb_forall in Hacc. apply Hacc in Hin.
      apply normal_comp_spec in Hin. tauto. }
    rewrite Hl. apply forallb_forall. intros y Hy.
    rewrite forallb_forall in Hacc. apply Hacc. now apply removelast_incl.
  - rewrite forallb_app, Hacc. cbn [forallb]. unfold normal_comp.
    now rewrite E1, E2, E3, Hc.
Qed.

Lemma normpath_fold_normal (n : nat) (xs acc : list string) :
  n <> 0%nat -> forallb normal_comp acc = true ->
  Forall (fun c => Str.contains_char "/" c = false) xs ->
  forallb normal_comp (fold_left (posixpath.normpath_step n) xs acc) = true.
Proof.
  intros Hn Hacc Hxs. revert acc Hacc.
  induction Hxs as [| x xs Hx _ IH]; intros acc Hacc; cbn [fold_left]; [exact Hacc |].
  apply IH. now apply normpath_step_normal.
Qed.

Lemma normpath_fold_keeps (n : nat) (xs acc : list string) :
  forallb normal_comp xs = true ->
  fold_left (posixpath.normpath_step n) xs acc = acc ++ xs.
Proof.
  revert acc. induction xs as [| x xs IH]; intros acc H; cbn [fold_left].
  - now rewrite app_nil_r.
  - cbn [forallb] in H. apply andb_true_iff in H as [Hx Hr].
    rewrite (IH _ Hr). unfold posixpath.normpath_step.
    unfold normal_comp in Hx. rewrite !andb_true_iff, !negb_true_iff in Hx.
    destruct Hx as [[[-> ->] ->] _]. cbn [orb negb].
    now rewrite <- app_assoc.
Qed.

Lemma count_initial_slashes_cases (p : string) :
  Str.startswith "/" p = true ->
  posixpath.count_initial_slashes p = 1%nat \/ posixpath.count_initial_slashes p = 2%nat.
Proof.
  intros H. unfold posixpath.count_initial_slashes. rewrite H.
  destruct (_ && _); [now right | now left].
Qed.

Lemma normpath_absolute_form (p : string) :
  Str.startswith "/" p = true ->
  exists comps,
    forallb normal_comp comps = true /\
    posixpath.normpath p
    = (posixpath.slashes (posixpath.count_initial_slashes p) ++ Str.join "/" comps)%string.
Proof.
  intros H. unfold posixpath.normpath.
  destruct (String.eqb_spec p "") as [-> | _]; [discriminate |].
  exists (fold_left (posixpath.normpath_step (posixpath.count_initial_slashes p))
            (Str.split "/" p) []).
  destruct (count_initial_slashes_cases p H) as [E | E]; rewrite E;
    (split; [apply normpath_fold_normal;
             [discriminate | reflexivity | apply split_no_sep]
            | reflexivity]).
Qed.

Lemma join_normal_head (comps : list string) :
  forallb normal_comp comps = true ->
  Str.startswith "/" (Str.join "/" comps) = false.
Proof.
  unfold Str.join. destruct comps as [| a comps]; [reflexivity |].
  cbn [forallb]. intros H. apply andb_true_iff in H as [Ha _].
  destruct (normal_comp_spec a Ha) as [Hne [_ [_ Hs]]].
  destruct a as [| c a]; [congruence |].
  cbn [Str.contains_char] in Hs. apply orb_false_iff in Hs as [Hc _].
  assert (Hc' : Ascii.eqb "/" c = false) by (now rewrite Ascii.eqb_sym).
  destruct comps; cbn [String.concat append Str.startswith]; now rewrite Hc'.
Qed.

Lemma normpath_normal (n : nat) (comps : list string) :
  n = 1%nat \/ n = 2%nat -> forallb normal_comp comps = true ->
  posixpath.normpath (posixpath.slashes n ++ Str.join "/" comps)
  = (posixpath.slashes n ++ Str.join "/" comps)%string.
Proof.
  intros Hn Hc. pose proof (join_normal_head comps Hc) as Hh.
  assert (Hsplit : Str.split "/" (Str.join "/" comps) = if posixpath.is_nil comps then [""] else comps).
  { destruct comps as [| a comps]; [reflexivity |]. apply split_join; [discriminate | exact Hc]. }
  assert (Hfold : forall k, fold_left (posixpath.normpath_step k)
                     (if posixpath.is_nil comps then [""] else comps) [] = comps).
  { intros k. destruct comps as [| a comps]; [reflexivity |].
    cbn [posixpath.is_nil]. now rewrite normpath_fold_keeps. }
  unfold posixpath.normpath.
  destruct Hn as [-> | ->]; cbn [posixpath.slashes repeat String.concat append].
  - cbn [String.eqb].
    assert (Hcnt : posixpath.count_initial_slashes (String "/" (Str.join "/" comps)) = 1%nat).
    { unfold posixpath.count_initial_slashes. cbn [Str.startswith].
      replace (Ascii.eqb "/" "/") with true by reflexivity. cbn [andb].
      change (Str.startswith "" ?x) with true.
      destruct (Str.join "/" comps) as [| c r]; [reflexivity |].
      cbn [Str.startswith] in Hh |- *. rewrite andb_true_r in Hh. now rewrite Hh. }
    rewrite Hcnt. cbn [Nat.eqb negb Str.split]. 
    replace (Ascii.eqb "/" "/") with true by reflexivity.
    rewrite Hsplit. cbn [fold_left].
    change (posixpath.normpath_step 1 [] "") with (@nil string).
    rewrite Hfold. reflexivity.
  - cbn [String.eqb].
    assert (Hcnt : posixpath.count_initial_slashes
                     (String "/" (String "/" (Str.join "/" comps))) = 2%nat).
    { unfold posixpath.count_initial_slashes. cbn [Str.startswith].
      replace (Ascii.eqb "/" "/") with true by reflexivity. cbn [andb].
      destruct (Str.join "/" comps) as [| c r]; [reflexivity |].
      cbn [Str.startswith] in Hh |- *. rewrite andb_true_r in Hh. now rewrite Hh. }
    rewrite Hcnt. cbn [Nat.eqb negb Str.split].
    replace (Ascii.eqb "/" "/") with true by reflexivity.
    rewrite Hsplit. cbn [fold_left].
    change (posixpath.normpath_step 2 [] "") with (@nil string).
    rewrite Hfold. reflexivity.
Qed.

(** X18. The link source is a normal absolute path.  Whatever the target
    and the link path, a result of [_abs_link_src] is one or two slashes
    followed by components joined by single slashes, none of them empty,
    [.] or [..]: no parent reference survives, however many the target
    holds.  Normalizing the result again changes nothing. *)
Theorem abs_link_src_normal (linkto link_path : pyval) (src : string) :
  _abs_link_src linkto link_path = Some src ->
  (exists n comps,
     (n = 1 \/ n = 2)%nat /\ forallb normal_comp comps = true /\
     src = (posixpath.slashes n ++ Str.join "/" comps)%string) /\
  posixpath.normpath src = src.
Proof.
  rewrite abs_link_src_cases.
  destruct (negb (truthy linkto)); [discriminate |].
  assert (G : forall p, Str.startswith "/" p = true ->
                (exists n comps,
                   (n = 1 \/ n = 2)%nat /\ forallb normal_comp comps = true /\
                   posixpath.normpath p
                   = (posixpath.slashes n ++ Str.join "/" comps)%string) /\
                posixpath.normpath (posixpath.normpath p) = posixpath.normpath p).
  { intros p Hp. destruct (normpath_absolute_form p Hp) as [comps [Hc E]].
    pose proof (count_initial_slashes_cases p Hp) as Hn.
    split; [now exists (posixpath.count_initial_slashes p), comps |].
    rewrite E. now apply normpath_normal. }
  destruct (Str.startswith "/" (Str.strip (py_str linkto))) eqn:E;
    intros H; inversion H; subst src; apply G; [exact E |].
  apply join_absolute, link_dir_absolute.
Qed.

Lemma abs_link_src_normal_witness :
  (exists n comps,
     (n = 1 \/ n = 2)%nat /\ forallb normal_comp comps = true /\
     "/usr/bin/sh" = (posixpath.slashes n ++ Str.join "/" comps)%string) /\
  posixpath.normpath "/usr/bin/sh" = "/usr/bin/sh".
Proof.
  apply (abs_link_src_normal (PStr "../../usr/./bin//sh") (PStr "/usr/sbin/service")).
  reflexivity.
Defined.
